(** * Aoryx hotel front end: vendor-response normalisation, favourites toggle
      and results ordering

    A shallow embedding of
    - [src/lib/aoryx-client.ts] (the vendor response normaliser and the four
      vendor-proxy service functions),
    - the favourites route handler (GET limit and POST toggle), and
    - the comparator of [results-client.tsx],
    followed by the properties stated about them.

    JavaScript values are embedded as a tagged union; numbers are IEEE-754
    binary64 values in the representation of [SpecFloat]; exceptions are an
    explicit [result] type. *)

From Stdlib Require Import ZArith List String Ascii Bool Lia Permutation.
From Stdlib Require Import Floats.SpecFloat.
Import ListNotations.
Local Open Scope string_scope.
Local Open Scope Z_scope.

(** ** JavaScript strings

    A string is a sequence of code units; the embedding keeps the code units
    below 256 (one [ascii] each, read as U+0000 to U+00FF). *)
Module JsString.

(** White space and line terminators of ECMAScript within that range:
    TAB, LF, VT, FF, CR, SPACE and NBSP. *)
Definition is_white_space (c : ascii) : bool :=
  let n := nat_of_ascii c in
  (((9 <=? n) && (n <=? 13)) || (n =? 32) || (n =? 160))%nat.

Fixpoint trimStart (s : string) : string :=
  match s with
  | String c rest => if is_white_space c then trimStart rest else s
  | EmptyString => EmptyString
  end.

(** [trimEnd] drops the white space that is followed by white space only. *)
Fixpoint trimEnd (s : string) : string :=
  match s with
  | EmptyString => EmptyString
  | String c rest =>
      match trimEnd rest with
      | EmptyString => if is_white_space c then EmptyString else String c EmptyString
      | kept => String c kept
      end
  end.

(** [String.prototype.trim]. *)
Definition trim (s : string) : string := trimEnd (trimStart s).

(** [s.length > 0]. *)
Definition nonempty (s : string) : bool :=
  match s with EmptyString => false | String _ _ => true end.

Definition lower_char (c : ascii) : ascii :=
  let n := nat_of_ascii c in
  if (((65 <=? n) && (n <=? 90))
      || ((192 <=? n) && (n <=? 222) && negb (n =? 215)))%nat
  then ascii_of_nat (n + 32) else c.

(** [String.prototype.toLowerCase]. *)
Fixpoint toLowerCase (s : string) : string :=
  match s with
  | EmptyString => EmptyString
  | String c rest => String (lower_char c) (toLowerCase rest)
  end.

(** [String.prototype.includes]: [sub] occurs in [s] as a substring. *)
Fixpoint includes (s sub : string) : bool :=
  prefix sub s
  || match s with
     | EmptyString => false
     | String _ rest => includes rest sub
     end.

(** [s.startsWith(p)] together with the rest of [s] behind [p]. *)
Fixpoint strip_prefix (p s : string) : option string :=
  match p, s with
  | EmptyString, _ => Some s
  | String a p', String b s' =>
      if Ascii.eqb a b then strip_prefix p' s' else None
  | String _ _, EmptyString => None
  end.

End JsString.

(** ** JavaScript numbers: IEEE-754 binary64 *)
Module JsNumber.

Definition number : Type := spec_float.

Definition prec : Z := 53.
Definition emax : Z := 1024.

Definition NaN : number := S754_nan.
Definition zero : number := S754_zero false.
Definition infinity (neg : bool) : number := S754_infinity neg.

(** [Number.isFinite]. *)
Definition isFinite (x : number) : bool :=
  match x with
  | S754_zero _ | S754_finite _ _ _ => true
  | S754_infinity _ | S754_nan => false
  end.

Definition isNaN (x : number) : bool :=
  match x with S754_nan => true | _ => false end.

Definition sub (x y : number) : number := SFsub prec emax x y.
Definition eqb (x y : number) : bool := SFeqb x y.
Definition ltb (x y : number) : bool := SFltb x y.
Definition leb (x y : number) : bool := SFleb x y.

(** The number nearest to the integer [z] (exact below 2^53). *)
Definition of_Z (z : Z) : number := binary_normalize prec emax z 0 false.

(** The number nearest to [(-1)^neg * m * 10^e] for [0 <= m], ties to even:
    the rounding of a decimal literal. *)
Definition of_decimal (neg : bool) (m e : Z) : number :=
  match m with
  | Zpos p =>
      if 0 <=? e
      then binary_normalize prec emax (if neg then - (m * 10 ^ e) else m * 10 ^ e) 0 neg
      else
        let '(q, e', l) := SFdiv_core_binary prec emax m 0 (10 ^ (- e)) 0 in
        binary_round_aux prec emax neg q e' l
  | _ => S754_zero neg
  end.

(** *** Decimal literals ([StrDecimalLiteral]) *)

Definition digit_value (c : ascii) : option Z :=
  let n := Z.of_nat (nat_of_ascii c) in
  if (48 <=? n) && (n <=? 57) then Some (n - 48) else None.

(** Reads the longest run of decimal digits at the front of [s]:
    [(value with [acc] as the digits already read, digits read, rest)]. *)
Fixpoint read_digits (s : string) (acc : Z) (count : Z) : Z * Z * string :=
  match s with
  | String c rest =>
      match digit_value c with
      | Some d => read_digits rest (10 * acc + d) (count + 1)
      | None => (acc, count, s)
      end
  | EmptyString => (acc, count, s)
  end.

Definition read_sign (s : string) : bool * string :=
  match s with
  | String "+" rest => (false, rest)
  | String "-" rest => (true, rest)
  | _ => (false, s)
  end.

(** An exponent part [e|E [+|-] digits] at the front of [s], when there is
    one: its value and the rest. *)
Definition read_exponent (s : string) : option (Z * string) :=
  match s with
  | String c rest =>
      if Ascii.eqb c "e" || Ascii.eqb c "E" then
        let '(neg, rest1) := read_sign rest in
        let '(v, count, rest2) := read_digits rest1 0 0 in
        if 0 <? count then Some (if neg then - v else v, rest2) else None
      else None
  | EmptyString => None
  end.

(** The longest prefix of [s] that is an unsigned decimal literal
    ([digits [. digits] [exponent]] or [. digits [exponent]]):
    mantissa, decimal exponent and the rest of [s]; [None] when no prefix
    of [s] is one. *)
Definition read_unsigned_decimal (s : string) : option (Z * Z * string) :=
  let '(ip, icount, rest1) := read_digits s 0 0 in
  let '(m, fcount, rest2) :=
    match rest1 with
    | String "." rest1' =>
        let '(m, fcount, rest2) := read_digits rest1' ip 0 in
        if (0 <? icount) || (0 <? fcount) then (m, fcount, rest2)
        else (ip, 0, rest1)
    | _ => (ip, 0, rest1)
    end in
  if (0 <? icount) || (0 <? fcount) then
    match read_exponent rest2 with
    | Some (ex, rest3) => Some (m, ex - fcount, rest3)
    | None => Some (m, - fcount, rest2)
    end
  else None.

(** The longest prefix of [s] that is a [StrDecimalLiteral]
    ([[+|-] Infinity] or a signed decimal literal): its value and the rest. *)
Definition read_StrDecimalLiteral (s : string) : option (number * string) :=
  let '(neg, body) := read_sign s in
  match JsString.strip_prefix "Infinity" body with
  | Some rest => Some (infinity neg, rest)
  | None =>
      match read_unsigned_decimal body with
      | Some (m, e, rest) => Some (of_decimal neg m e, rest)
      | None => None
      end
  end.

(** The global [parseFloat]: leading white space is skipped, the longest
    decimal-literal prefix is read, anything behind it is ignored. *)
Definition parseFloat (s : string) : number :=
  match read_StrDecimalLiteral (JsString.trimStart s) with
  | Some (x, _) => x
  | None => NaN
  end.

(** *** [Number(string)] ([StringToNumber]) *)

Definition radix_digit_value (radix : Z) (c : ascii) : option Z :=
  let n := Z.of_nat (nat_of_ascii c) in
  let d :=
    if (48 <=? n) && (n <=? 57) then n - 48
    else if (97 <=? n) && (n <=? 122) then n - 87
    else if (65 <=? n) && (n <=? 90) then n - 55
    else 36 in
  if d <? radix then Some d else None.

(** All of [s] as digits of [radix]: [None] on any other character. *)
Fixpoint read_radix (radix : Z) (s : string) (acc : Z) : option Z :=
  match s with
  | EmptyString => Some acc
  | String c rest =>
      match radix_digit_value radix c with
      | Some d => read_radix radix rest (radix * acc + d)
      | None => None
      end
  end.

(** [0x], [0o] and [0b] literals (no sign, at least one digit). *)
Definition read_NonDecimalIntegerLiteral (s : string) : option number :=
  match s with
  | String "0" (String c (String d rest)) =>
      let body := String d rest in
      let radix :=
        if Ascii.eqb c "x" || Ascii.eqb c "X" then Some 16
        else if Ascii.eqb c "o" || Ascii.eqb c "O" then Some 8
        else if Ascii.eqb c "b" || Ascii.eqb c "B" then Some 2
        else None in
      match radix with
      | Some r =>
          match read_radix r body 0 with
          | Some v => Some (of_Z v)
          | None => None
          end
      | None => None
      end
  | _ => None
  end.

(** [Number(s)] for a string [s]: white space is trimmed at both ends, the
    empty string is [+0], and the whole of what is left has to be a
    numeric literal. *)
Definition of_string (s : string) : number :=
  let t := JsString.trim s in
  match t with
  | EmptyString => zero
  | _ =>
      match read_NonDecimalIntegerLiteral t with
      | Some x => x
      | None =>
          match read_StrDecimalLiteral t with
          | Some (x, EmptyString) => x
          | _ => NaN
          end
      end
  end.

(** *** [Number::toString] (radix 10) *)

Definition digit_char (d : Z) : ascii := ascii_of_nat (48 + Z.to_nat d).

Fixpoint digits_fuel (fuel : nat) (n : Z) (acc : string) : string :=
  let acc' := String (digit_char (n mod 10)) acc in
  match fuel with
  | O => acc'
  | S fuel' => if n <? 10 then acc' else digits_fuel fuel' (n / 10) acc'
  end.

(** The decimal digits of the integer [0 <= n]. *)
Definition decimal_digits (n : Z) : string :=
  digits_fuel (Z.to_nat (Z.log2 n)) n EmptyString.

Fixpoint repeat_char (c : ascii) (n : nat) : string :=
  match n with O => EmptyString | S n' => String c (repeat_char c n') end.

(** Positive rationals [num / den] stand for the exact value of a number. *)
Definition exact_value (m : positive) (e : Z) : Z * Z :=
  if 0 <=? e then (Zpos m * 2 ^ e, 1) else (Zpos m, 2 ^ (- e)).

(** The integer [n] with [10^(n-1) <= num/den < 10^n]. *)
Fixpoint decade_up (fuel : nat) (num den n : Z) : Z :=
  match fuel with
  | O => n
  | S fuel' => if num <? den * 10 ^ n then n else decade_up fuel' num den (n + 1)
  end.

(** The least [j >= 1] with [den <= num * 10^j], for [num/den < 1]. *)
Fixpoint decade_down (fuel : nat) (num den j : Z) : Z :=
  match fuel with
  | O => j
  | S fuel' => if den <=? num * 10 ^ j then j else decade_down fuel' num den (j + 1)
  end.

Definition decade (num den : Z) : Z :=
  if den <=? num then decade_up 400 num den 1
  else 1 - decade_down 400 num den 1.

(** [floor (num/den * 10^(k-n))] and whether the fraction dropped is below,
    at or above one half. *)
Definition scaled (num den n k : Z) : Z * comparison :=
  let '(a, b) :=
    if 0 <=? k - n then (num * 10 ^ (k - n), den) else (num, den * 10 ^ (n - k)) in
  (a / b, (2 * (a mod b)) ?= b).

(** The digits [s] (an integer of [k] digits) and the exponent [n] of
    [Number::toString]: [s * 10^(n-k)] reads back as [x], [k] is the least
    such length and [s] the closest such integer. *)
Fixpoint shortest (fuel : nat) (x : number) (num den n k : Z) : Z * Z * Z :=
  let '(lo, half) := scaled num den n k in
  let ok_lo := SFeqb (of_decimal false lo (n - k)) x && (10 ^ (k - 1) <=? lo) in
  let ok_hi := SFeqb (of_decimal false (lo + 1) (n - k)) x in
  let pick_hi := if lo + 1 =? 10 ^ k then (10 ^ (k - 1), k, n + 1) else (lo + 1, k, n) in
  let nearest :=
    match half with
    | Gt => pick_hi
    | Eq => if Z.even lo then (lo, k, n) else pick_hi
    | Lt => (lo, k, n)
    end in
  match fuel with
  | O => nearest
  | S fuel' =>
      match ok_lo, ok_hi with
      | true, true => nearest
      | true, false => (lo, k, n)
      | false, true => pick_hi
      | false, false => shortest fuel' x num den n (k + 1)
      end
  end.

Definition format_digits (digits : string) (k n : Z) : string :=
  if (k <=? n) && (n <=? 21) then
    digits ++ repeat_char "0" (Z.to_nat (n - k))
  else if (0 <? n) && (n <=? 21) then
    substring 0 (Z.to_nat n) digits ++ "." ++
    substring (Z.to_nat n) (Z.to_nat (k - n)) digits
  else if (-6 <? n) && (n <=? 0) then
    "0." ++ repeat_char "0" (Z.to_nat (- n)) ++ digits
  else
    let ex := n - 1 in
    let tail := (if ex <? 0 then "e-" else "e+") ++ decimal_digits (Z.abs ex) in
    match digits with
    | String d EmptyString => String d tail
    | String d rest => String d ("." ++ rest ++ tail)
    | EmptyString => tail
    end.

(** [String(x)]. *)
Definition to_string (x : number) : string :=
  match x with
  | S754_nan => "NaN"
  | S754_zero _ => "0"
  | S754_infinity neg => if neg then "-Infinity" else "Infinity"
  | S754_finite neg m e =>
      let '(num, den) := exact_value m e in
      let n := decade num den in
      let '(s, k, n') := shortest 16 (S754_finite false m e) num den n 1 in
      (if neg then "-" else "") ++ format_digits (decimal_digits s) k n'
  end.

(** *** [Math.round], [Math.max], [Math.min] *)

(** [Math.round]: the nearest integer, halves towards [+Infinity]. *)
Definition round (x : number) : number :=
  match x with
  | S754_finite neg m e =>
      if 0 <=? e then x
      else
        let d := 2 ^ (- e) in
        let v := if neg then - Zpos m else Zpos m in
        let r := (2 * v + d) / (2 * d) in
        if r =? 0 then S754_zero neg else of_Z r
  | _ => x
  end.

Definition is_neg_zero (x : number) : bool :=
  match x with S754_zero true => true | _ => false end.

(** [Math.max(x, y)]. *)
Definition max (x y : number) : number :=
  if isNaN x || isNaN y then NaN
  else if ltb x y then y
  else if ltb y x then x
  else if is_neg_zero x then y else x.

(** [Math.min(x, y)]. *)
Definition min (x y : number) : number :=
  if isNaN x || isNaN y then NaN
  else if ltb x y then x
  else if ltb y x then y
  else if is_neg_zero x then x else y.

End JsNumber.

(** ** JavaScript values and exceptions *)
Module Js.
Import JsNumber.

(** A value as the normaliser meets it: what [JSON.parse] builds, with
    [undefined] for what is absent.  An object lists its own properties in
    enumeration order, each key once. *)
#[local] Unset Elimination Schemes.
Inductive value : Type :=
| VUndefined
| VNull
| VBool (b : bool)
| VNum (n : number)
| VStr (s : string)
| VArr (items : list value)
| VObj (fields : list (string * value)).
#[local] Set Elimination Schemes.

(** [Record<string, unknown>]: the own properties of a plain object. *)
Definition record : Type := list (string * value).

(** What the handlers can throw.  [RangeError] is the engine's error for
    calls nested deeper than its call stack allows. *)
Inductive exn : Type :=
| TypeError
| RangeError
| AoryxClientError (message : string) (statusCode : option Z)
| AoryxServiceError (message : value) (code : string) (statusCode errors : value).

Inductive result (A : Type) : Type :=
| Ok (a : A)
| Throw (e : exn).
Arguments Ok {A} a.
Arguments Throw {A} e.

Definition bind {A B : Type} (r : result A) (k : A -> result B) : result B :=
  match r with
  | Ok a => k a
  | Throw e => Throw e
  end.

Fixpoint mapM {A B : Type} (f : A -> result B) (l : list A) : result (list B) :=
  match l with
  | [] => Ok []
  | a :: rest =>
      bind (f a) (fun b => bind (mapM f rest) (fun bs => Ok (b :: bs)))
  end.

(** [typeof value]. *)
Definition typeof (v : value) : string :=
  match v with
  | VUndefined => "undefined"
  | VBool _ => "boolean"
  | VNum _ => "number"
  | VStr _ => "string"
  | VNull | VArr _ | VObj _ => "object"
  end.

(** [Array.isArray]. *)
Definition isArray (v : value) : bool :=
  match v with VArr _ => true | _ => false end.

(** [value === null || value === undefined]. *)
Definition is_nullish (v : value) : bool :=
  match v with VUndefined | VNull => true | _ => false end.

(** [a ?? b]. *)
Definition nullish_or (a b : value) : value := if is_nullish a then b else a.

(** [ToBoolean]: what [!v], [v ? _ : _] and [Boolean(v)] test. *)
Definition truthy (v : value) : bool :=
  match v with
  | VUndefined | VNull => false
  | VBool b => b
  | VNum n =>
      match n with
      | S754_zero _ | S754_nan => false
      | _ => true
      end
  | VStr s => JsString.nonempty s
  | VArr _ | VObj _ => true
  end.

(** The own property [key] of a record, [undefined] when there is none. *)
Fixpoint field (fields : record) (key : string) : value :=
  match fields with
  | [] => VUndefined
  | (k, v) :: rest => if String.eqb k key then v else field rest key
  end.

(** The property [key] of a value that is neither [null] nor [undefined],
    for the data keys the code reads ([Code], [HotelInfo], [hotelCode],
    ...): the own property of an object, and [undefined] on a primitive or
    an array, whose prototypes have no property of these names. *)
Definition prop (o : value) (key : string) : value :=
  match o with
  | VObj fields => field fields key
  | _ => VUndefined
  end.

(** [o.Key]: a [TypeError] on [null] and [undefined]. *)
Definition get (o : value) (key : string) : result value :=
  if is_nullish o then Throw TypeError else Ok (prop o key).

(** [o?.Key]. *)
Definition get_opt (o : value) (key : string) : value :=
  if is_nullish o then VUndefined else prop o key.

(** [r.K1 ?? r.K2 ?? ... ?? r.Kn] on a record. *)
Fixpoint coalesce (fields : record) (keys : list string) : value :=
  match keys with
  | [] => VUndefined
  | [k] => field fields k
  | k :: rest => nullish_or (field fields k) (coalesce fields rest)
  end.

(** [isRecord]: [typeof value === "object" && value !== null &&
    !Array.isArray(value)]. *)
Definition isRecord (v : value) : bool :=
  match v with VObj _ => true | _ => false end.

(** [values.filter(isRecord)], typed by the guard. *)
Fixpoint filter_records (values : list value) : list record :=
  match values with
  | [] => []
  | VObj fields :: rest => fields :: filter_records rest
  | _ :: rest => filter_records rest
  end.

(** [Array.prototype.sort(comparefn)] as a stable insertion sort;
    [after a b] stands for [comparefn(a, b) > 0]. *)
Section Sort.
Variable A : Type.
Variable after : A -> A -> bool.

Fixpoint insert_sorted (x : A) (sorted : list A) : list A :=
  match sorted with
  | [] => [x]
  | y :: rest => if after y x then x :: y :: rest else y :: insert_sorted x rest
  end.

Definition sort (l : list A) : list A :=
  fold_left (fun sorted x => insert_sorted x sorted) l [].
End Sort.
Arguments insert_sorted {A} after x sorted.
Arguments sort {A} after l.

End Js.

Declare Scope js_scope.
Notation "x <- r ;; k" := (Js.bind r (fun x => k))
  (at level 61, r at next level, right associativity) : js_scope.
Local Open Scope js_scope.

(** ** The Aoryx client ([src/lib/aoryx-client.ts]) *)

(** The normalised shapes of [types/aoryx]. *)
Module AoryxHotelSummary.
Record t : Type := {
  code : option string;
  name : option string;
  minPrice : option JsNumber.number;
  currency : option string;
  rating : option JsNumber.number;
  address : option string;
  city : option string;
  imageUrl : option string;
  latitude : option JsNumber.number;
  longitude : option JsNumber.number
}.
End AoryxHotelSummary.

Module AoryxSearchResult.
Record t : Type := {
  sessionId : string;
  currency : option string;
  propertyCount : option JsNumber.number;
  responseTime : option string;
  (** [{ code, name } | null] *)
  destination : option (option string * option string);
  hotels : list AoryxHotelSummary.t
}.
End AoryxSearchResult.

Module AoryxRoomOption.
Record t : Type := {
  id : string;
  name : option string;
  boardType : option string;
  refundable : option bool;
  currency : option string;
  totalPrice : option JsNumber.number;
  availableRooms : option JsNumber.number;
  cancellationPolicy : option string
}.
End AoryxRoomOption.

Module HotelInfo.
Record t : Type := {
  destinationId : option string;
  name : option string;
  systemId : option string;
  rating : option JsNumber.number;
  city : option string;
  address : option string;
  imageUrl : option string;
  latitude : option JsNumber.number;
  longitude : option JsNumber.number
}.
End HotelInfo.

Module AoryxHotelInfoResult.
Record address_t : Type := {
  line1 : option string;
  line2 : option string;
  countryCode : option string;
  countryName : option string;
  cityName : option string;
  stateCode : option string;
  zipCode : option string
}.
Record geoCode_t : Type := {
  lat : option JsNumber.number;
  lon : option JsNumber.number
}.
Record contact_t : Type := {
  phone : option string;
  fax : option string;
  website : option string
}.
Record t : Type := {
  systemId : option string;
  name : option string;
  rating : option JsNumber.number;
  tripAdvisorRating : option JsNumber.number;
  tripAdvisorUrl : option string;
  currencyCode : option string;
  imageUrl : option string;
  imageUrls : list string;
  address : option address_t;
  geoCode : option geoCode_t;
  contact : option contact_t
}.
End AoryxHotelInfoResult.

(** The fields of [AoryxSearchParams] that the service functions test. *)
Module AoryxSearchParams.
Record t : Type := {
  destinationCode : option string;
  hotelCode : option string;
  checkInDate : string;
  checkOutDate : string;
  (** [adults] and [childrenAges] of each room *)
  rooms : list (Z * list Z)
}.
End AoryxSearchParams.

Module Aoryx.
Import JsNumber Js.

(** [a ?? b] on [string | null]. *)
Definition or_else {A : Type} (a b : option A) : option A :=
  match a with Some _ => a | None => b end.

(** *** Utility functions *)

Definition toStringValue (value : value) : option string :=
  match value with
  | VStr s =>
      if JsString.nonempty (JsString.trim s) then Some (JsString.trim s) else None
  | VNum n => if isFinite n then Some (to_string n) else None
  | _ => None
  end.

Definition toNumber (value : value) : option number :=
  match value with
  | VNum n => if isFinite n then Some n else None
  | VStr s =>
      let parsed := parseFloat s in
      if isFinite parsed then Some parsed else None
  | _ => None
  end.

Definition toInteger (value : value) : option number :=
  match toNumber value with
  | Some num => Some (round num)
  | None => None
  end.

(** *** Normalising a hotel of the search response *)

Definition normalizeSearchHotel (hotel : value) (currency : option string)
  : result AoryxHotelSummary.t :=
  info <- get hotel "HotelInfo" ;;
  hotelCode <- get hotel "Code" ;;
  let infoName := get_opt info "Name" in
  hotelName <- get hotel "Name" ;;
  hotelMinPrice <- get hotel "MinPrice" ;;
  let starRating := get_opt info "StarRating" in
  let add1 := get_opt info "Add1" in
  let infoCity := get_opt info "City" in
  let image := get_opt info "Image" in
  let lat := get_opt info "Lat" in
  let lon := get_opt info "Lon" in
  Ok {| AoryxHotelSummary.code := toStringValue hotelCode;
        AoryxHotelSummary.name := or_else (toStringValue infoName) (toStringValue hotelName);
        AoryxHotelSummary.minPrice := toNumber hotelMinPrice;
        AoryxHotelSummary.currency := currency;
        AoryxHotelSummary.rating := toNumber starRating;
        AoryxHotelSummary.address := toStringValue add1;
        AoryxHotelSummary.city := toStringValue infoCity;
        AoryxHotelSummary.imageUrl := toStringValue image;
        AoryxHotelSummary.latitude := toNumber lat;
        AoryxHotelSummary.longitude := toNumber lon |}.

Definition normalizeArray (value : value) : list Js.value :=
  if negb (truthy value) then []
  else match value with
       | VArr items => items
       | _ => [value]
       end.

Definition toBoolean (value : value) : option bool :=
  match value with
  | VBool b => Some b
  | VNum n =>
      if eqb n (of_Z 1) then Some true
      else if eqb n (of_Z 0) then Some false
      else None
  | VStr s =>
      let normalized := JsString.toLowerCase (JsString.trim s) in
      if existsb (String.eqb normalized) ["true"; "yes"; "y"; "1"] then Some true
      else if existsb (String.eqb normalized) ["false"; "no"; "n"; "0"] then Some false
      else None
  | _ => None
  end.

(** *** Money and cancellation policies *)

Record money : Type := {
  amount : option number;
  currency : option string
}.

Definition extractMoney (value : value) : money :=
  match value with
  | VNum _ | VStr _ => {| amount := toNumber value; currency := None |}
  | VObj fields =>
      {| amount :=
           toNumber (coalesce fields
             ["Amount"; "TotalAmount"; "Value"; "Price"; "Net"; "NetAmount"]);
         currency :=
           toStringValue (coalesce fields ["Currency"; "CurrencyCode"; "Curr"]) |}
  | _ => {| amount := None; currency := None |}
  end.

(** [parts.filter((item) => Boolean(item))] on [string | null] items. *)
Fixpoint filter_strings (items : list (option string)) : list string :=
  match items with
  | [] => []
  | Some s :: rest =>
      if JsString.nonempty s then s :: filter_strings rest else filter_strings rest
  | None :: rest => filter_strings rest
  end.

Fixpoint extractCancellationPolicy (value : value) : option string :=
  match value with
  | VStr s =>
      if JsString.nonempty (JsString.trim s) then Some (JsString.trim s) else None
  | VArr items =>
      let parts := filter_strings (map extractCancellationPolicy items) in
      match parts with
      | [] => None
      | _ :: _ => Some (String.concat " " parts)
      end
  | VObj fields =>
      toStringValue (coalesce fields ["Text"; "Policy"; "Description"; "Remark"])
  | _ => None
  end.

(** *** Locating the room list *)

Definition hasRoomSignature (record : record) : bool :=
  existsb
    (fun key =>
       let normalized := JsString.toLowerCase key in
       JsString.includes normalized "room"
       || JsString.includes normalized "rate"
       || JsString.includes normalized "board"
       || JsString.includes normalized "meal"
       || JsString.includes normalized "refundable")
    (map fst record).

(** The candidate arrays in the order [visit] pushes them: an array before
    the arrays below it, the items of an array and the values of an object
    from first to last. *)
Fixpoint visit (node : value) : list (list record) :=
  match node with
  | VArr items =>
      let records := filter_records items in
      (match records with
       | [] => []
       | _ :: _ => if existsb hasRoomSignature records then [records] else []
       end)
      ++ flat_map visit items
  | VObj fields => flat_map (fun kv => visit (snd kv)) fields
  | _ => []
  end.

Definition findRoomCandidates (value : value) : list record :=
  let candidates := visit value in
  match candidates with
  | [] => []
  | _ :: _ =>
      hd [] (sort (fun a b : list record => (List.length a <? List.length b)%nat) candidates)
  end.

(** *** Normalising the room options *)

(** The body of the [priceCandidates] loop: the first candidate whose
    amount is not [null] gives the amount and the currency. *)
Fixpoint first_price (candidates : list value) : option number * option string :=
  match candidates with
  | [] => (None, None)
  | candidate :: rest =>
      let money := extractMoney candidate in
      match amount money with
      | Some a => (Some a, or_else (currency money) None)
      | None => first_price rest
      end
  end.

(** The callback of [resolvedRoomItems.map]. *)
Definition normalizeRoom (room : record) (index : nat) : AoryxRoomOption.t :=
  let id :=
    match toStringValue (coalesce room ["RoomCode"; "RateKey"; "RoomIndex"; "Id"]) with
    | Some s => s
    | None => "room-" ++ to_string (of_Z (Z.of_nat index + 1))
    end in
  let name := toStringValue (coalesce room ["RoomName"; "RoomType"; "Name"; "Room"]) in
  let boardType :=
    toStringValue (coalesce room ["BoardType"; "MealType"; "MealPlan"; "Meal"; "Board"]) in
  let refundableValue := toBoolean (coalesce room ["Refundable"; "IsRefundable"]) in
  let nonRefundableValue := toBoolean (field room "NonRefundable") in
  let refundable :=
    match refundableValue with
    | Some b => Some b
    | None =>
        match nonRefundableValue with
        | Some b => Some (negb b)
        | None => None
        end
    end in
  let priceCandidates :=
    [field room "TotalPrice"; field room "TotalAmount"; field room "RoomRate";
     field room "NetRate"; field room "Price"; field room "NetPrice";
     field room "Amount"] in
  let '(amount, currency) := first_price priceCandidates in
  let currency :=
    match currency with
    | Some c =>
        if JsString.nonempty c then currency
        else toStringValue (coalesce room ["Currency"; "CurrencyCode"; "Curr"])
    | None => toStringValue (coalesce room ["Currency"; "CurrencyCode"; "Curr"])
    end in
  let availableRooms :=
    toInteger (coalesce room ["AvailableRooms"; "RoomAvailable"; "Availability"]) in
  let cancellationPolicy :=
    extractCancellationPolicy
      (coalesce room ["CancellationPolicy"; "CancelPolicy"; "CancellationText"]) in
  {| AoryxRoomOption.id := id;
     AoryxRoomOption.name := name;
     AoryxRoomOption.boardType := boardType;
     AoryxRoomOption.refundable := refundable;
     AoryxRoomOption.currency := currency;
     AoryxRoomOption.totalPrice := amount;
     AoryxRoomOption.availableRooms := availableRooms;
     AoryxRoomOption.cancellationPolicy := cancellationPolicy |}.

(** [items.map((item, index) => f(item, index))], [index] counted from
    [start]. *)
Fixpoint map_indexed {A B : Type} (f : A -> nat -> B) (start : nat) (items : list A)
  : list B :=
  match items with
  | [] => []
  | item :: rest => f item start :: map_indexed f (S start) rest
  end.

(** The reducer over the three known sources: the first source with a
    record in it wins. *)
Definition pick_source (acc : list record) (source : value) : list record :=
  match acc with
  | _ :: _ => acc
  | [] =>
      let candidates := filter_records (normalizeArray source) in
      match candidates with
      | _ :: _ => candidates
      | [] => acc
      end
  end.

(** [sources] of [normalizeRoomOptions]: [RoomDetails.RoomDetail],
    [HotelRooms.HotelRoom], and [Rooms.Room] or [Rooms] itself. *)
Definition room_sources (response : value) : result (list value) :=
  roomDetails <- get response "RoomDetails" ;;
  let roomDetail := get_opt roomDetails "RoomDetail" in
  hotelRooms <- get response "HotelRooms" ;;
  let hotelRoom := get_opt hotelRooms "HotelRoom" in
  rooms <- get response "Rooms" ;;
  room <- (if isRecord rooms then get rooms "Room" else Ok rooms) ;;
  Ok [roomDetail; hotelRoom; room].

(** [resolvedRoomItems] of [normalizeRoomOptions]: the records of the first
    known source that has any, and the fallback scan otherwise. *)
Definition resolvedRoomItems (response : value) : result (list record) :=
  sources <- room_sources response ;;
  let roomItems := fold_left pick_source sources [] in
  Ok match roomItems with
     | _ :: _ => roomItems
     | [] => findRoomCandidates response
     end.

Definition normalizeRoomOptions (response : value) : result (list AoryxRoomOption.t) :=
  resolvedRoomItems <- resolvedRoomItems response ;;
  Ok (map_indexed normalizeRoom 0 resolvedRoomItems).

(** *** Service functions

    [coreRequest] performs the HTTP exchange.  It either throws an
    [AoryxClientError] (missing configuration, time-out, non-2xx status,
    network or body failure) or resolves to the response body with its
    keys pascalised.  A service function is embedded as a function of the
    outcome of each [coreRequest] it awaits. *)

Definition extractSessionId (generalInfo : value) : result string :=
  let sessionIdValue := get_opt generalInfo "SessionId" in
  match toStringValue sessionIdValue with
  | Some sessionId =>
      if JsString.nonempty sessionId then Ok sessionId
      else Throw (AoryxServiceError (VStr "No session ID in search response")
                    "MISSING_SESSION_ID" VUndefined VUndefined)
  | None =>
      Throw (AoryxServiceError (VStr "No session ID in search response")
               "MISSING_SESSION_ID" VUndefined VUndefined)
  end.

(** [!s] on an optional string parameter. *)
Definition missing (s : option string) : bool :=
  match s with
  | Some t => negb (JsString.nonempty t)
  | None => true
  end.

Definition validateSearchParams (params : AoryxSearchParams.t) : result unit :=
  if missing (AoryxSearchParams.destinationCode params)
     && missing (AoryxSearchParams.hotelCode params)
  then Throw (AoryxServiceError (VStr "Either destinationCode or hotelCode is required")
                "INVALID_PARAMS" VUndefined VUndefined)
  else if negb (JsString.nonempty (AoryxSearchParams.checkInDate params))
          || negb (JsString.nonempty (AoryxSearchParams.checkOutDate params))
  then Throw (AoryxServiceError (VStr "Check-in and check-out dates are required")
                "INVALID_PARAMS" VUndefined VUndefined)
  else match AoryxSearchParams.rooms params with
       | [] => Throw (AoryxServiceError (VStr "At least one room is required")
                        "INVALID_PARAMS" VUndefined VUndefined)
       | _ :: _ => Ok tt
       end.

(** [search] from the point where [coreRequest] has resolved to
    [response]. *)
Definition search_response (response : value) : result AoryxSearchResult.t :=
  isSuccess <- get response "IsSuccess" ;;
  exceptionMessage <- get response "ExceptionMessage" ;;
  if negb (truthy isSuccess) && truthy exceptionMessage then
    statusCode <- get response "StatusCode" ;;
    errors <- get response "Errors" ;;
    Throw (AoryxServiceError exceptionMessage "SEARCH_ERROR"
             (nullish_or statusCode VUndefined) errors)
  else
    generalInfo <- get response "GeneralInfo" ;;
    sessionId <- extractSessionId (nullish_or generalInfo VUndefined) ;;
    monetary <- get response "Monetary" ;;
    let monetaryCurrency := get_opt monetary "Currency" in
    let currencyCode := get_opt monetaryCurrency "Code" in
    let currency := toStringValue currencyCode in
    hotelsNode <- get response "Hotels" ;;
    let hotel := get_opt hotelsNode "Hotel" in
    let hotelsRaw := nullish_or hotel (VArr []) in
    let hotelsArray :=
      match hotelsRaw with
      | VArr items => items
      | _ => if truthy hotelsRaw then [hotelsRaw] else []
      end in
    hotels <- mapM (fun h => normalizeSearchHotel h currency) hotelsArray ;;
    audit <- get response "Audit" ;;
    let propertyCount := get_opt audit "PropertyCount" in
    let responseTime := get_opt audit "ResponseTime" in
    let auditDestination := get_opt audit "Destination" in
    destination <-
      (if truthy auditDestination then
         destinationCode <- get auditDestination "Code" ;;
         destinationText <- get auditDestination "Text" ;;
         Ok (Some (toStringValue destinationCode, toStringValue destinationText))
       else Ok None) ;;
    Ok {| AoryxSearchResult.sessionId := sessionId;
          AoryxSearchResult.currency := currency;
          AoryxSearchResult.propertyCount := toInteger propertyCount;
          AoryxSearchResult.responseTime := toStringValue responseTime;
          AoryxSearchResult.destination := destination;
          AoryxSearchResult.hotels := hotels |}.

Definition search (params : AoryxSearchParams.t) (searchRequest : result value)
  : result AoryxSearchResult.t :=
  _ <- validateSearchParams params ;;
  response <- searchRequest ;;
  search_response response.

(** [roomDetails] from the point where its own [coreRequest] has resolved
    to [response]. *)
Definition roomDetails_response (response : value) : result (list AoryxRoomOption.t) :=
  isSuccess <- get response "IsSuccess" ;;
  match isSuccess with
  | VBool false =>
      exceptionMessage <- get response "ExceptionMessage" ;;
      statusCode <- get response "StatusCode" ;;
      errors <- get response "Errors" ;;
      Throw (AoryxServiceError
               (nullish_or exceptionMessage (VStr "RoomDetails request failed"))
               "ROOM_DETAILS_ERROR" (nullish_or statusCode VUndefined) errors)
  | _ => normalizeRoomOptions response
  end.

Definition roomDetails (params : AoryxSearchParams.t)
  (searchRequest roomDetailsRequest : result value) : result (list AoryxRoomOption.t) :=
  _ <- validateSearchParams params ;;
  if missing (AoryxSearchParams.hotelCode params) then
    Throw (AoryxServiceError (VStr "Hotel code is required for room details")
             "INVALID_PARAMS" VUndefined VUndefined)
  else
    _ <- search params searchRequest ;;
    response <- roomDetailsRequest ;;
    roomDetails_response response.

(** [Array.prototype.map] called on a value cast to an array: a
    [TypeError] when it is none (no value built from JSON carries a [map]
    method of its own). *)
Definition array_map {B : Type} (f : value -> result B) (array : value) : result (list B) :=
  match array with
  | VArr items => mapM f items
  | _ => Throw TypeError
  end.

Definition hotelsInfoByDestinationId_response (response : value)
  : result (list HotelInfo.t) :=
  isSuccess <- get response "IsSuccess" ;;
  exceptionMessage <- get response "ExceptionMessage" ;;
  statusCode <- get response "StatusCode" ;;
  errors <- get response "Errors" ;;
  hotelsInformationValue <- get response "HotelsInformation" ;;
  let hotelsInformation := nullish_or hotelsInformationValue (VArr []) in
  if negb (truthy isSuccess) then
    Throw (AoryxServiceError
             (nullish_or exceptionMessage (VStr "HotelsInfoByDestinationId request failed"))
             "HOTELS_INFO_ERROR" (nullish_or statusCode VUndefined) errors)
  else
    array_map
      (fun item =>
         geoCode <- get item "GeoCode" ;;
         destinationId <- get item "DestinationId" ;;
         name <- get item "Name" ;;
         systemId <- get item "SystemId" ;;
         rating <- get item "Rating" ;;
         city <- get item "City" ;;
         address1 <- get item "Address1" ;;
         imageUrl <- get item "ImageUrl" ;;
         let lat := get_opt geoCode "Lat" in
         let lon := get_opt geoCode "Lon" in
         Ok {| HotelInfo.destinationId := toStringValue destinationId;
               HotelInfo.name := toStringValue name;
               HotelInfo.systemId := toStringValue systemId;
               HotelInfo.rating := toNumber rating;
               HotelInfo.city := toStringValue city;
               HotelInfo.address := toStringValue address1;
               HotelInfo.imageUrl := toStringValue imageUrl;
               HotelInfo.latitude := toNumber lat;
               HotelInfo.longitude := toNumber lon |})
      hotelsInformation.

Definition hotelsInfoByDestinationId (request : result value) : result (list HotelInfo.t) :=
  response <- request ;;
  hotelsInfoByDestinationId_response response.

Definition hotelInfo_response (response : value)
  : result (option AoryxHotelInfoResult.t) :=
  isSuccess <- get response "IsSuccess" ;;
  exceptionMessage <- get response "ExceptionMessage" ;;
  statusCode <- get response "StatusCode" ;;
  errors <- get response "Errors" ;;
  if negb (truthy isSuccess) then
    Throw (AoryxServiceError
             (nullish_or exceptionMessage (VStr "HotelInfo request failed"))
             "HOTEL_INFO_ERROR" (nullish_or statusCode VUndefined) errors)
  else
    hotelInformation <- get response "HotelInformation" ;;
    let info := nullish_or hotelInformation VNull in
    if negb (truthy info) then Ok None
    else
      systemId <- get info "SystemId" ;;
      name <- get info "Name" ;;
      rating <- get info "Rating" ;;
      tripAdvisorRating <- get info "TripAdvisorRating" ;;
      tripAdvisorUrl <- get info "TripAdvisorUrl" ;;
      currencyCode <- get info "CurrencyCode" ;;
      imageUrl <- get info "ImageUrl" ;;
      imageUrls <- get info "ImageUrls" ;;
      address <- get info "Address" ;;
      addressResult <-
        (if truthy address then
           line1 <- get address "Line1" ;;
           line2 <- get address "Line2" ;;
           countryCode <- get address "CountryCode" ;;
           countryName <- get address "CountryName" ;;
           cityName <- get address "CityName" ;;
           stateCode <- get address "StateCode" ;;
           zipCode <- get address "ZipCode" ;;
           Ok (Some {| AoryxHotelInfoResult.line1 := toStringValue line1;
                       AoryxHotelInfoResult.line2 := toStringValue line2;
                       AoryxHotelInfoResult.countryCode := toStringValue countryCode;
                       AoryxHotelInfoResult.countryName := toStringValue countryName;
                       AoryxHotelInfoResult.cityName := toStringValue cityName;
                       AoryxHotelInfoResult.stateCode := toStringValue stateCode;
                       AoryxHotelInfoResult.zipCode := toStringValue zipCode |})
         else Ok None) ;;
      geoCode <- get info "GeoCode" ;;
      geoCodeResult <-
        (if truthy geoCode then
           lat <- get geoCode "Lat" ;;
           lon <- get geoCode "Lon" ;;
           Ok (Some {| AoryxHotelInfoResult.lat := toNumber lat;
                       AoryxHotelInfoResult.lon := toNumber lon |})
         else Ok None) ;;
      contact <- get info "Contact" ;;
      contactResult <-
        (if truthy contact then
           phoneNo <- get contact "PhoneNo" ;;
           faxNo <- get contact "FaxNo" ;;
           website <- get contact "Website" ;;
           Ok (Some {| AoryxHotelInfoResult.phone := toStringValue phoneNo;
                       AoryxHotelInfoResult.fax := toStringValue faxNo;
                       AoryxHotelInfoResult.website := toStringValue website |})
         else Ok None) ;;
      Ok (Some {| AoryxHotelInfoResult.systemId := toStringValue systemId;
                  AoryxHotelInfoResult.name := toStringValue name;
                  AoryxHotelInfoResult.rating := toNumber rating;
                  AoryxHotelInfoResult.tripAdvisorRating := toNumber tripAdvisorRating;
                  AoryxHotelInfoResult.tripAdvisorUrl := toStringValue tripAdvisorUrl;
                  AoryxHotelInfoResult.currencyCode := toStringValue currencyCode;
                  AoryxHotelInfoResult.imageUrl := toStringValue imageUrl;
                  AoryxHotelInfoResult.imageUrls :=
                    match imageUrls with
                    | VArr items => filter_strings (map toStringValue items)
                    | _ => []
                    end;
                  AoryxHotelInfoResult.address := addressResult;
                  AoryxHotelInfoResult.geoCode := geoCodeResult;
                  AoryxHotelInfoResult.contact := contactResult |}).

Definition hotelInfo (request : result value) : result (option AoryxHotelInfoResult.t) :=
  response <- request ;;
  hotelInfo_response response.

(** *** The call stack

    [extractCancellationPolicy] calls itself for every item of an array,
    and [visit] for every item of an array and every value of an object:
    the calls nest as deep as the value does, and the engine throws a
    [RangeError] when calls nest deeper than its call stack allows.  The
    definitions below are the same functions with that limit written out:
    [stack] is the number of nested calls the engine still allows.  The
    source does not fix the limit, so nothing is assumed about it. *)

Fixpoint extractCancellationPolicy_within (stack : nat) (value : value)
  : result (option string) :=
  match stack with
  | O => Throw RangeError
  | S stack =>
      match value with
      | VStr s =>
          Ok (if JsString.nonempty (JsString.trim s) then Some (JsString.trim s) else None)
      | VArr items =>
          mapped <- mapM (extractCancellationPolicy_within stack) items ;;
          let parts := filter_strings mapped in
          Ok match parts with
             | [] => None
             | _ :: _ => Some (String.concat " " parts)
             end
      | VObj fields =>
          Ok (toStringValue (coalesce fields ["Text"; "Policy"; "Description"; "Remark"]))
      | _ => Ok None
      end
  end.

Fixpoint visit_within (stack : nat) (node : value) : result (list (list record)) :=
  match stack with
  | O => Throw RangeError
  | S stack =>
      match node with
      | VArr items =>
          let records := filter_records items in
          let pushed :=
            match records with
            | [] => []
            | _ :: _ => if existsb hasRoomSignature records then [records] else []
            end in
          below <- mapM (visit_within stack) items ;;
          Ok (pushed ++ List.concat below)%list
      | VObj fields =>
          below <- mapM (fun kv => visit_within stack (snd kv)) fields ;;
          Ok (List.concat below)
      | _ => Ok []
      end
  end.

Definition findRoomCandidates_within (stack : nat) (value : value)
  : result (list record) :=
  candidates <- visit_within stack value ;;
  Ok match candidates with
     | [] => []
     | _ :: _ =>
         hd [] (sort (fun a b : list record => (List.length a <? List.length b)%nat)
                  candidates)
     end.

(** The callback of [resolvedRoomItems.map], with the stack that the call
    of [extractCancellationPolicy] finds. *)
Definition normalizeRoom_within (stack : nat) (room : record) (index : nat)
  : result AoryxRoomOption.t :=
  let id :=
    match toStringValue (coalesce room ["RoomCode"; "RateKey"; "RoomIndex"; "Id"]) with
    | Some s => s
    | None => "room-" ++ to_string (of_Z (Z.of_nat index + 1))
    end in
  let name := toStringValue (coalesce room ["RoomName"; "RoomType"; "Name"; "Room"]) in
  let boardType :=
    toStringValue (coalesce room ["BoardType"; "MealType"; "MealPlan"; "Meal"; "Board"]) in
  let refundableValue := toBoolean (coalesce room ["Refundable"; "IsRefundable"]) in
  let nonRefundableValue := toBoolean (field room "NonRefundable") in
  let refundable :=
    match refundableValue with
    | Some b => Some b
    | None =>
        match nonRefundableValue with
        | Some b => Some (negb b)
        | None => None
        end
    end in
  let priceCandidates :=
    [field room "TotalPrice"; field room "TotalAmount"; field room "RoomRate";
     field room "NetRate"; field room "Price"; field room "NetPrice";
     field room "Amount"] in
  let '(amount, currency) := first_price priceCandidates in
  let currency :=
    match currency with
    | Some c =>
        if JsString.nonempty c then currency
        else toStringValue (coalesce room ["Currency"; "CurrencyCode"; "Curr"])
    | None => toStringValue (coalesce room ["Currency"; "CurrencyCode"; "Curr"])
    end in
  let availableRooms :=
    toInteger (coalesce room ["AvailableRooms"; "RoomAvailable"; "Availability"]) in
  cancellationPolicy <-
    extractCancellationPolicy_within stack
      (coalesce room ["CancellationPolicy"; "CancelPolicy"; "CancellationText"]) ;;
  Ok {| AoryxRoomOption.id := id;
        AoryxRoomOption.name := name;
        AoryxRoomOption.boardType := boardType;
        AoryxRoomOption.refundable := refundable;
        AoryxRoomOption.currency := currency;
        AoryxRoomOption.totalPrice := amount;
        AoryxRoomOption.availableRooms := availableRooms;
        AoryxRoomOption.cancellationPolicy := cancellationPolicy |}.

(** [items.map((item, index) => f(item, index))] for a callback that can
    throw. *)
Fixpoint mapM_indexed {A B : Type} (f : A -> nat -> result B) (start : nat)
  (items : list A) : result (list B) :=
  match items with
  | [] => Ok []
  | item :: rest =>
      b <- f item start ;;
      bs <- mapM_indexed f (S start) rest ;;
      Ok (b :: bs)
  end.

Definition resolvedRoomItems_within (stack : nat) (response : value)
  : result (list record) :=
  sources <- room_sources response ;;
  let roomItems := fold_left pick_source sources [] in
  match roomItems with
  | _ :: _ => Ok roomItems
  | [] => findRoomCandidates_within stack response
  end.

Definition normalizeRoomOptions_within (stack : nat) (response : value)
  : result (list AoryxRoomOption.t) :=
  resolvedRoomItems <- resolvedRoomItems_within stack response ;;
  mapM_indexed (normalizeRoom_within stack) 0 resolvedRoomItems.

Definition roomDetails_response_within (stack : nat) (response : value)
  : result (list AoryxRoomOption.t) :=
  isSuccess <- get response "IsSuccess" ;;
  match isSuccess with
  | VBool false =>
      exceptionMessage <- get response "ExceptionMessage" ;;
      statusCode <- get response "StatusCode" ;;
      errors <- get response "Errors" ;;
      Throw (AoryxServiceError
               (nullish_or exceptionMessage (VStr "RoomDetails request failed"))
               "ROOM_DETAILS_ERROR" (nullish_or statusCode VUndefined) errors)
  | _ => normalizeRoomOptions_within stack response
  end.

Definition roomDetails_within (stack : nat) (params : AoryxSearchParams.t)
  (searchRequest roomDetailsRequest : result value) : result (list AoryxRoomOption.t) :=
  _ <- validateSearchParams params ;;
  if missing (AoryxSearchParams.hotelCode params) then
    Throw (AoryxServiceError (VStr "Hotel code is required for room details")
             "INVALID_PARAMS" VUndefined VUndefined)
  else
    _ <- search params searchRequest ;;
    response <- roomDetailsRequest ;;
    roomDetails_response_within stack response.

(** *** Dates and destination ids *)

(** [normalizeDate]: a date without a time part gets midnight appended. *)
Definition normalizeDate (value : string) : string :=
  if negb (JsString.nonempty value) then value
  else if JsString.includes value "T" then value
  else value ++ "T00:00:00".

(** [normalizeParentDestinationId]: the trimmed id, with ["-0"] appended
    when it has no dash; [null] for a missing or blank id. *)
Definition normalizeParentDestinationId (rawId : option string) : option string :=
  match rawId with
  | None => None
  | Some rawId =>
      if negb (JsString.nonempty rawId) then None
      else
        let trimmed := JsString.trim rawId in
        if negb (JsString.nonempty trimmed) then None
        else if JsString.includes trimmed "-" then Some trimmed
        else Some (trimmed ++ "-0")
  end.

End Aoryx.

(** ** The favourites route (GET and POST handlers)

    The [user_favorites] collection is a list of documents in storage
    order; [_id] is the identifier the database gives a document when it is
    inserted.  The [userId] field of a document (the [ObjectId] form of the
    user id) is read by no query and is left out. *)
Module Favorites.
Import JsNumber Js.

Record favorite : Type := {
  _id : nat;
  userIdString : string;
  hotelCode : string;
  name : option string;
  city : option string;
  address : option string;
  imageUrl : option string;
  rating : option number;
  source : string;
  savedAt : Z;
  updatedAt : Z;
  createdAt : Z
}.

Record collection : Type := {
  docs : list favorite;
  (** the identifier of the next document inserted *)
  next_id : nat
}.

Definition parseString (value : value) : option string :=
  match value with
  | VStr s =>
      let trimmed := JsString.trim s in
      if JsString.nonempty trimmed then Some trimmed else None
  | _ => None
  end.

Definition parseHotelCode (value : value) : option string := parseString value.

Definition parseNumber (value : value) : option number :=
  match value with
  | VNum n => if isFinite n then Some n else None
  | VStr s =>
      if JsString.nonempty (JsString.trim s) then
        let parsed := of_string s in
        if isFinite parsed then Some parsed else None
      else None
  | _ => None
  end.

Definition clampLimit (value min max : number) : number :=
  JsNumber.min (JsNumber.max value min) max.

(** [Number(limitParam)] for the value of [searchParams.get("limit")],
    which is [null] when the parameter is missing: [Number(null)] is [+0]. *)
Definition rawLimit (limitParam : option string) : number :=
  match limitParam with
  | Some s => of_string s
  | None => zero
  end.

(** The [limit] that GET passes to the cursor. *)
Definition limit (limitParam : option string) : number :=
  let rawLimit := rawLimit limitParam in
  clampLimit (if isFinite rawLimit then rawLimit else of_Z 24) (of_Z 1) (of_Z 48).

(** *** Collection operations *)

(** The filter [{ userIdString, hotelCode }]. *)
Definition matches (user code : string) (doc : favorite) : bool :=
  String.eqb (userIdString doc) user && String.eqb (hotelCode doc) code.

Definition findOne (user code : string) (c : collection) : option favorite :=
  find (matches user code) (docs c).

(** Removes the first document that satisfies [p]. *)
Fixpoint remove_first (p : favorite -> bool) (l : list favorite) : list favorite :=
  match l with
  | [] => []
  | d :: rest => if p d then rest else d :: remove_first p rest
  end.

(** [deleteOne({ _id })]. *)
Definition deleteOne_id (id : nat) (c : collection) : collection :=
  {| docs := remove_first (fun d => Nat.eqb (_id d) id) (docs c);
     next_id := next_id c |}.

(** [deleteOne({ userIdString, hotelCode })]. *)
Definition deleteOne (user code : string) (c : collection) : collection :=
  {| docs := remove_first (matches user code) (docs c);
     next_id := next_id c |}.

(** The fields of [$set]. *)
Record payload : Type := {
  p_name : option string;
  p_city : option string;
  p_address : option string;
  p_imageUrl : option string;
  p_rating : option number;
  p_source : string
}.

Definition set_payload (user code : string) (p : payload) (now : Z) (d : favorite)
  : favorite :=
  {| _id := _id d;
     userIdString := user;
     hotelCode := code;
     name := p_name p;
     city := p_city p;
     address := p_address p;
     imageUrl := p_imageUrl p;
     rating := p_rating p;
     source := p_source p;
     savedAt := now;
     updatedAt := now;
     createdAt := createdAt d |}.

Fixpoint update_first (p : favorite -> bool) (f : favorite -> favorite)
  (l : list favorite) : list favorite :=
  match l with
  | [] => []
  | d :: rest => if p d then f d :: rest else d :: update_first p f rest
  end.

(** [updateOne(filter, { $set: payload, $setOnInsert: { createdAt } },
    { upsert: true })]: the first match is updated, and a new document is
    inserted when there is none. *)
Definition updateOne_upsert (user code : string) (p : payload) (now : Z)
  (c : collection) : collection :=
  if existsb (matches user code) (docs c) then
    {| docs := update_first (matches user code) (set_payload user code p now) (docs c);
       next_id := next_id c |}
  else
    {| docs :=
         docs c ++
         [set_payload user code p now
            {| _id := next_id c; userIdString := user; hotelCode := code;
               name := None; city := None; address := None; imageUrl := None;
               rating := None; source := ""; savedAt := now; updatedAt := now;
               createdAt := now |}];
       next_id := S (next_id c) |}.

(** *** Handlers *)

Inductive response : Type :=
| Unauthorized          (* 401 *)
| MissingHotelCode      (* 400 *)
| IsFavorite (isFavorite : bool).

(** [POST]: [userId] is [session?.user?.id], [body] the parsed request
    body ([null] when it is no JSON), [now] the clock. *)
Definition POST (userId : option string) (body : value) (now : Z) (c : collection)
  : response * collection :=
  match userId with
  | None => (Unauthorized, c)
  | Some userId =>
      if negb (JsString.nonempty userId) then (Unauthorized, c)
      else
        match parseHotelCode (get_opt body "hotelCode") with
        | None => (MissingHotelCode, c)
        | Some hotelCode =>
            let userIdString := JsString.trim userId in
            match findOne userIdString hotelCode c with
            | Some existing => (IsFavorite false, deleteOne_id (_id existing) c)
            | None =>
                let payload :=
                  {| p_name := parseString (get_opt body "name");
                     p_city := parseString (get_opt body "city");
                     p_address := parseString (get_opt body "address");
                     p_imageUrl := parseString (get_opt body "imageUrl");
                     p_rating := parseNumber (get_opt body "rating");
                     p_source :=
                       match parseString (get_opt body "source") with
                       | Some s => s
                       | None => "aoryx"
                       end |} in
                (IsFavorite true, updateOne_upsert userIdString hotelCode payload now c)
            end
        end
  end.

(** The value of [searchParams.get(name)]: a string, or [null] when the
    parameter is missing. *)
Definition param_value (param : option string) : value :=
  match param with
  | Some s => VStr s
  | None => VNull
  end.

(** What [GET] answers.  The listing is what the cursor
    [find({ userIdString }).sort({ savedAt: -1 }).limit(limit)] yields in
    the storage; the handler fixes the user and the limit. *)
Inductive get_response : Type :=
| GetUnauthorized          (* 401 *)
| GetIsFavorite (isFavorite : bool)
| GetItems (userIdString : string) (limit : number).

(** [GET]: [hotelCode] and [limit] are the query parameters. *)
Definition GET (userId : option string) (hotelCodeParam limitParam : option string)
  (c : collection) : get_response :=
  match userId with
  | None => GetUnauthorized
  | Some userId =>
      if negb (JsString.nonempty userId) then GetUnauthorized
      else
        let userIdString := JsString.trim userId in
        match parseString (param_value hotelCodeParam) with
        | Some hotelCode =>
            match findOne userIdString hotelCode c with
            | Some _ => GetIsFavorite true
            | None => GetIsFavorite false
            end
        | None => GetItems userIdString (limit limitParam)
        end
  end.

(** [DELETE]: [hotelCode] is the query parameter. *)
Definition DELETE (userId : option string) (hotelCodeParam : option string)
  (c : collection) : response * collection :=
  match userId with
  | None => (Unauthorized, c)
  | Some userId =>
      if negb (JsString.nonempty userId) then (Unauthorized, c)
      else
        match parseString (param_value hotelCodeParam) with
        | None => (MissingHotelCode, c)
        | Some hotelCode =>
            (IsFavorite false, deleteOne (JsString.trim userId) hotelCode c)
        end
  end.

(** The document of [(userIdString, hotelCode)] is in the collection. *)
Definition present (user code : string) (c : collection) : bool :=
  existsb (matches user code) (docs c).

End Favorites.

(** ** The results page: ordering of the hotel list *)
Module Results.
Import JsNumber Js.

Inductive direction : Type := asc | desc.

(** [typeof a === "number"] is [Some]; [null] and [undefined] are [None]. *)
Definition compareNullable (a b : option number) (direction : direction) : number :=
  match a, b with
  | None, None => of_Z 0
  | None, Some _ => of_Z 1
  | Some _, None => of_Z (-1)
  | Some a, Some b =>
      match direction with
      | asc => sub a b
      | desc => sub b a
      end
  end.

(** [delta !== 0]. *)
Definition nonzero (delta : number) : bool := negb (eqb delta (of_Z 0)).

Definition comparePrice (a b : AoryxHotelSummary.t) (direction : direction) : number :=
  let priceDelta :=
    compareNullable (AoryxHotelSummary.minPrice a) (AoryxHotelSummary.minPrice b) direction in
  if nonzero priceDelta then priceDelta
  else compareNullable (AoryxHotelSummary.rating a) (AoryxHotelSummary.rating b) desc.

Definition compareRating (a b : AoryxHotelSummary.t) (direction : direction) : number :=
  let ratingDelta :=
    compareNullable (AoryxHotelSummary.rating a) (AoryxHotelSummary.rating b) direction in
  if nonzero ratingDelta then ratingDelta
  else compareNullable (AoryxHotelSummary.minPrice a) (AoryxHotelSummary.minPrice b) asc.

(** The comparator that the [switch (sortBy)] selects. *)
Definition comparator (sortBy : string) (a b : AoryxHotelSummary.t) : number :=
  if String.eqb sortBy "price-asc" then comparePrice a b asc
  else if String.eqb sortBy "price-desc" then comparePrice a b desc
  else if String.eqb sortBy "rating-asc" then compareRating a b asc
  else compareRating a b desc.

(** [filteredHotels.sort(comparator)]. *)
Definition sortHotels (sortBy : string) (filteredHotels : list AoryxHotelSummary.t)
  : list AoryxHotelSummary.t :=
  sort (fun a b => ltb (of_Z 0) (comparator sortBy a b)) filteredHotels.

(** The field that [sortBy] orders by is a number. *)
Definition has_sort_field (sortBy : string) (h : AoryxHotelSummary.t) : bool :=
  if String.eqb sortBy "price-asc" || String.eqb sortBy "price-desc"
  then match AoryxHotelSummary.minPrice h with Some _ => true | None => false end
  else match AoryxHotelSummary.rating h with Some _ => true | None => false end.

End Results.

(** ** Notions used to state the properties *)
Module Props.
Import JsNumber Js.

(** [Throws code r]: [r] is an [AoryxServiceError] thrown with [code]. *)
Definition Throws {A : Type} (code : string) (r : result A) : Prop :=
  exists message statusCode errors,
    r = Throw (AoryxServiceError message code statusCode errors).

(** [e] is an [AoryxServiceError]: invalid parameters, the vendor error or
    the missing session id. *)
Definition is_service_error (e : exn) : Prop :=
  exists message code statusCode errors,
    e = AoryxServiceError message code statusCode errors.

(** [e] is the [AoryxClientError] of the transport: missing configuration,
    time-out, a status that is not 2xx, a network or body failure. *)
Definition is_client_error (e : exn) : Prop :=
  exists message statusCode, e = AoryxClientError message statusCode.

(** The declared failures: the errors of the transport and of the vendor. *)
Definition declared_failure (e : exn) : Prop :=
  is_service_error e \/ is_client_error e.

(** The outcome of an exchange with the vendor: the transport's error, or a
    response that is not [null] and has the shape [shape]. *)
Definition exchanged (request : result value) (shape : value -> Prop) : Prop :=
  match request with
  | Ok response => is_nullish response = false /\ shape response
  | Throw e => is_client_error e
  end.

(** A character with which a decimal literal of [parseFloat] can start: a
    digit, a sign, the dot, or the [I] of [Infinity]. *)
Definition starts_number (c : ascii) : bool :=
  match digit_value c with
  | Some _ => true
  | None => existsb (Ascii.eqb c) ["+"; "-"; "."; "I"]%char
  end.

(** How deep the arrays of a value nest: the calls of
    [extractCancellationPolicy] below the first. *)
Fixpoint array_depth (v : value) : nat :=
  match v with
  | VArr items => list_max (map (fun item => S (array_depth item)) items)
  | _ => 0%nat
  end.

(** How deep the arrays and objects of a value nest: the calls of [visit]
    below the first. *)
Fixpoint depth (v : value) : nat :=
  match v with
  | VArr items => list_max (map (fun item => S (depth item)) items)
  | VObj fields => list_max (map (fun kv => S (depth (snd kv))) fields)
  | _ => 0%nat
  end.

(** The vendor response carries an explicit failure flag ([IsSuccess] is
    [false]) or an exception message. *)
Definition failure_indicated (response : value) : bool :=
  match prop response "IsSuccess" with
  | VBool false => true
  | _ => truthy (prop response "ExceptionMessage")
  end.

(** What [normalizeSearchHotel] returns for a hotel that is neither [null]
    nor [undefined]. *)
Definition summary_of (hotel : value) (currency : option string) : AoryxHotelSummary.t :=
  let info := prop hotel "HotelInfo" in
  {| AoryxHotelSummary.code := Aoryx.toStringValue (prop hotel "Code");
     AoryxHotelSummary.name :=
       Aoryx.or_else (Aoryx.toStringValue (get_opt info "Name"))
                     (Aoryx.toStringValue (prop hotel "Name"));
     AoryxHotelSummary.minPrice := Aoryx.toNumber (prop hotel "MinPrice");
     AoryxHotelSummary.currency := currency;
     AoryxHotelSummary.rating := Aoryx.toNumber (get_opt info "StarRating");
     AoryxHotelSummary.address := Aoryx.toStringValue (get_opt info "Add1");
     AoryxHotelSummary.city := Aoryx.toStringValue (get_opt info "City");
     AoryxHotelSummary.imageUrl := Aoryx.toStringValue (get_opt info "Image");
     AoryxHotelSummary.latitude := Aoryx.toNumber (get_opt info "Lat");
     AoryxHotelSummary.longitude := Aoryx.toNumber (get_opt info "Lon") |}.

(** [!response.IsSuccess && response.ExceptionMessage]: the test of [search]
    for a vendor failure. *)
Definition vendor_failed (response : value) : bool :=
  negb (truthy (prop response "IsSuccess")) && truthy (prop response "ExceptionMessage").

(** [response.GeneralInfo?.SessionId]. *)
Definition session_value (response : value) : value :=
  get_opt (nullish_or (prop response "GeneralInfo") VUndefined) "SessionId".

(** The session id is absent, [null], empty or white space only. *)
Definition blank_session (v : value) : bool :=
  match v with
  | VUndefined | VNull => true
  | VStr s => negb (JsString.nonempty (JsString.trim s))
  | _ => false
  end.

(** The session id is nothing that [toStringValue] converts: it is neither a
    string with something other than white space in it nor a finite
    number. *)
Definition unusable_session (v : value) : bool :=
  match v with
  | VStr s => negb (JsString.nonempty (JsString.trim s))
  | VNum n => negb (isFinite n)
  | _ => true
  end.

(** [response.Monetary?.Currency?.Code], converted. *)
Definition search_currency (response : value) : option string :=
  Aoryx.toStringValue (get_opt (get_opt (prop response "Monetary") "Currency") "Code").

(** [response.Hotels?.Hotel]. *)
Definition hotels_raw (response : value) : value :=
  get_opt (prop response "Hotels") "Hotel".

(** [hotelsArray] of [search]. *)
Definition hotels_array (response : value) : list value :=
  let hotelsRaw := nullish_or (hotels_raw response) (VArr []) in
  match hotelsRaw with
  | VArr items => items
  | _ => if truthy hotelsRaw then [hotelsRaw] else []
  end.

(** [destination] of the search result. *)
Definition search_destination (response : value) : option (option string * option string) :=
  let destination := get_opt (prop response "Audit") "Destination" in
  if truthy destination
  then Some (Aoryx.toStringValue (prop destination "Code"),
             Aoryx.toStringValue (prop destination "Text"))
  else None.

(** The result of [search] for the session id and the hotels given. *)
Definition search_result_of (response : value) (sessionId : string)
  (hotels : list AoryxHotelSummary.t) : AoryxSearchResult.t :=
  {| AoryxSearchResult.sessionId := sessionId;
     AoryxSearchResult.currency := search_currency response;
     AoryxSearchResult.propertyCount :=
       Aoryx.toInteger (get_opt (prop response "Audit") "PropertyCount");
     AoryxSearchResult.responseTime :=
       Aoryx.toStringValue (get_opt (prop response "Audit") "ResponseTime");
     AoryxSearchResult.destination := search_destination response;
     AoryxSearchResult.hotels := hotels |}.

(** The error that [extractSessionId] throws. *)
Definition missing_session_id : exn :=
  AoryxServiceError (VStr "No session ID in search response")
    "MISSING_SESSION_ID" VUndefined VUndefined.

(** The outcome of [search] on a response whose hotel list normalises to
    [hotels]: the vendor error, the missing session id, or the result with
    these hotels. *)
Definition search_outcome (response : value) (hotels : list AoryxHotelSummary.t)
  : result AoryxSearchResult.t :=
  if vendor_failed response then
    Throw (AoryxServiceError (prop response "ExceptionMessage") "SEARCH_ERROR"
             (nullish_or (prop response "StatusCode") VUndefined)
             (prop response "Errors"))
  else
    match Aoryx.extractSessionId (nullish_or (prop response "GeneralInfo") VUndefined) with
    | Ok sessionId => Ok (search_result_of response sessionId hotels)
    | Throw e => Throw e
    end.

(** No entry of the hotel list of a search response is [null] or
    [undefined]. *)
Definition hotels_present (response : value) : Prop :=
  Forall (fun h => is_nullish h = false) (hotels_array response).

(** [HotelsInformation] is absent, or an array without a [null] or
    [undefined] entry. *)
Definition hotels_information_listed (response : value) : Prop :=
  is_nullish (prop response "HotelsInformation") = true \/
  exists items,
    prop response "HotelsInformation" = VArr items /\
    Forall (fun item => is_nullish item = false) items.

(** [nested v d]: [d] is [v] or occurs somewhere inside [v], below items of
    arrays and values of objects. *)
Inductive nested : value -> value -> Prop :=
| nested_here : forall v, nested v v
| nested_item : forall items item d,
    In item items -> nested item d -> nested (VArr items) d
| nested_field : forall fields key v d,
    In (key, v) fields -> nested v d -> nested (VObj fields) d.

(** The three known sources of room items: [RoomDetails?.RoomDetail],
    [HotelRooms?.HotelRoom], and [Rooms.Room] or [Rooms] itself. *)
Definition known_sources (response : value) : list value :=
  [get_opt (prop response "RoomDetails") "RoomDetail";
   get_opt (prop response "HotelRooms") "HotelRoom";
   if isRecord (prop response "Rooms")
   then prop (prop response "Rooms") "Room"
   else prop response "Rooms"].

(** The records that the known sources yield: those of the first source
    that has any. *)
Definition known_rooms (response : value) : list record :=
  fold_left Aoryx.pick_source (known_sources response) [].

(** [best] is the first of the longest lists of [candidates]. *)
Definition first_longest {A : Type} (candidates : list (list A)) (best : list A) : Prop :=
  exists before behind,
    candidates = (before ++ best :: behind)%list /\
    (forall c, In c before -> (List.length c < List.length best)%nat) /\
    (forall c, In c behind -> (List.length c <= List.length best)%nat).

(** An array of the response that the fallback scanner accepts: it holds at
    least one object, and one of its objects has a room-like key. *)
Definition room_like (items : list value) : Prop :=
  filter_records items <> [] /\
  existsb Aoryx.hasRoomSignature (filter_records items) = true.

(** The money keys in the order [extractMoney] consults them. *)
Definition money_keys : list string :=
  ["Amount"; "TotalAmount"; "Value"; "Price"; "Net"; "NetAmount"].

(** The id keys in the order [normalizeRoomOptions] consults them. *)
Definition id_keys : list string := ["RoomCode"; "RateKey"; "RoomIndex"; "Id"].

(** The object carries the number [n] under one of the money keys, as a
    number or as a numeric string. *)
Definition carries (fields : record) (n : number) : Prop :=
  exists key, In key money_keys /\ Aoryx.toNumber (field fields key) = Some n.

(** The first usable of the fields [keys] of [room]: the first that
    [toStringValue] accepts. *)
Fixpoint first_usable (room : record) (keys : list string) : option string :=
  match keys with
  | [] => None
  | key :: rest =>
      match Aoryx.toStringValue (field room key) with
      | Some s => Some s
      | None => first_usable room rest
      end
  end.

(** The key of a document of [user_favorites]. *)
Definition key_of (d : Favorites.favorite) : string * string :=
  (Favorites.userIdString d, Favorites.hotelCode d).

(** Each [(userIdString, hotelCode)] has at most one document. *)
Definition unique_keys (c : Favorites.collection) : Prop :=
  NoDup (map key_of (Favorites.docs c)).

(** The identifiers of the documents are distinct and older than
    [next_id]. *)
Definition unique_ids (c : Favorites.collection) : Prop :=
  NoDup (map Favorites._id (Favorites.docs c)) /\
  Forall (fun d => (Favorites._id d < Favorites.next_id c)%nat) (Favorites.docs c).

(** The entries with the field, then the entries without. *)
Definition partitioned {A : Type} (has : A -> bool) (l : list A) : Prop :=
  exists l1 l2,
    l = (l1 ++ l2)%list /\ Forall (fun a => has a = true) l1 /\
    Forall (fun a => has a = false) l2.

(** No entry without the sort field stands before an entry with it. *)
Definition missing_last (sortBy : string) (l : list AoryxHotelSummary.t) : Prop :=
  forall i j a b,
    (i < j)%nat -> nth_error l i = Some a -> nth_error l j = Some b ->
    Results.has_sort_field sortBy a = false ->
    Results.has_sort_field sortBy b = false.

End Props.

(** ** Sample vendor data, for the concrete instances below *)
Module Samples.
Import JsNumber Js.

Definition five : number := of_Z 5.

(** [{ Amount: "N/A", Price: 5 }] *)
Definition money_with_placeholder : record :=
  [("Amount", VStr "N/A"); ("Price", VNum five)].

(** [{ Amount: null, Price: "12.50", Currency: "USD" }] *)
Definition money_under_price : record :=
  [("Amount", VNull); ("Price", VStr "12.50"); ("Currency", VStr "USD")].

(** [{ RoomCode: "", RateKey: "RK1" }] *)
Definition room_with_blank_code : record :=
  [("RoomCode", VStr ""); ("RateKey", VStr "RK1")].

(** [{ RoomName: "Deluxe" }] and [{ RoomCode: 7 }] *)
Definition room_without_id : record := [("RoomName", VStr "Deluxe")].
Definition room_with_code : record := [("RoomCode", VNum (of_Z 7))].

(** [{ RoomDetails: { RoomDetail: [room] } }] *)
Definition room_details_of (rooms : list record) : value :=
  VObj [("RoomDetails", VObj [("RoomDetail", VArr (map VObj rooms))])].

(** [{ Code: "H1", MinPrice: "99.5", HotelInfo: { Name: " Ritz " } }] *)
Definition hotel : value :=
  VObj [("Code", VStr "H1"); ("MinPrice", VStr "99.5");
        ("HotelInfo", VObj [("Name", VStr " Ritz ")])].

(** Parameters that pass [validateSearchParams]. *)
Definition params : AoryxSearchParams.t :=
  {| AoryxSearchParams.destinationCode := Some "160-0";
     AoryxSearchParams.hotelCode := None;
     AoryxSearchParams.checkInDate := "2026-01-10";
     AoryxSearchParams.checkOutDate := "2026-01-12";
     AoryxSearchParams.rooms := [(2, [])] |}.

(** A search response with session id [sessionId] and [Hotels.Hotel = h]. *)
Definition search_response_of (sessionId h : value) : value :=
  VObj [("IsSuccess", VBool true);
        ("GeneralInfo", VObj [("SessionId", sessionId)]);
        ("Hotels", VObj [("Hotel", h)])].

(** [{ HotelInformation: { Name: "Ritz" } }]: no [IsSuccess], no
    [ExceptionMessage]. *)
Definition hotel_info_plain : value :=
  VObj [("HotelInformation", VObj [("Name", VStr "Ritz")])].

(** [{ IsSuccess: false, GeneralInfo: { SessionId: "S1" } }]: the failure
    flag without a message. *)
Definition search_flagged : value :=
  VObj [("IsSuccess", VBool false); ("GeneralInfo", VObj [("SessionId", VStr "S1")])].

(** [{ IsSuccess: false, ExceptionMessage: "No availability" }] *)
Definition failed_response : value :=
  VObj [("IsSuccess", VBool false); ("ExceptionMessage", VStr "No availability")].

(** Parameters for [roomDetails]: a hotel code is given. *)
Definition room_params : AoryxSearchParams.t :=
  {| AoryxSearchParams.destinationCode := None;
     AoryxSearchParams.hotelCode := Some "H1";
     AoryxSearchParams.checkInDate := "2026-01-10";
     AoryxSearchParams.checkOutDate := "2026-01-12";
     AoryxSearchParams.rooms := [(2, [])] |}.

(** The body [{ hotelCode: " H1 ", rating: "4.5" }] of a favourites POST. *)
Definition favorite_body : value :=
  VObj [("hotelCode", VStr " H1 "); ("rating", VStr "4.5")].

(** A collection with one favourite of another user. *)
Definition favorites : Favorites.collection :=
  {| Favorites.docs :=
       [{| Favorites._id := 0; Favorites.userIdString := "u2";
           Favorites.hotelCode := "H1"; Favorites.name := Some "Ritz";
           Favorites.city := None; Favorites.address := None;
           Favorites.imageUrl := None; Favorites.rating := None;
           Favorites.source := "aoryx"; Favorites.savedAt := 10;
           Favorites.updatedAt := 10; Favorites.createdAt := 10 |}];
     Favorites.next_id := 1 |}.

(** A response with no known room list: the rooms are under [Data.Options];
    [Data.Extras] is a shorter room-like array. *)
Definition fallback_options : list value :=
  [VObj [("RoomName", VStr "Deluxe")]; VObj [("Price", VStr "80")]; VStr "note"].

Definition fallback_response : value :=
  VObj [("IsSuccess", VBool true);
        ("Data", VObj [("Extras", VArr [VObj [("MealPlan", VStr "BB")]]);
                       ("Options", VArr fallback_options)])].

(** Parameters without destination and hotel code. *)
Definition params_without_target : AoryxSearchParams.t :=
  {| AoryxSearchParams.destinationCode := Some "";
     AoryxSearchParams.hotelCode := None;
     AoryxSearchParams.checkInDate := "2026-01-10";
     AoryxSearchParams.checkOutDate := "2026-01-12";
     AoryxSearchParams.rooms := [(2, [])] |}.

End Samples.

(** ** Notions used to state the further properties *)
Module MoreProps.
Import JsNumber Js.

(** The codes of every stored favourite are trimmed, and its hotel code is
    not empty. *)
Definition clean_codes (c : Favorites.collection) : Prop :=
  Forall (fun d =>
            JsString.nonempty (Favorites.hotelCode d) = true /\
            JsString.trim (Favorites.hotelCode d) = Favorites.hotelCode d /\
            JsString.trim (Favorites.userIdString d) = Favorites.userIdString d)
         (Favorites.docs c).

(** The hotel has a price or a rating. *)
Definition has_price_or_rating (h : AoryxHotelSummary.t) : bool :=
  match AoryxHotelSummary.minPrice h, AoryxHotelSummary.rating h with
  | None, None => false
  | _, _ => true
  end.

(** A hotel summary with the price and the rating given. *)
Definition hotel_with (minPrice rating : option number) : AoryxHotelSummary.t :=
  {| AoryxHotelSummary.code := None; AoryxHotelSummary.name := None;
     AoryxHotelSummary.minPrice := minPrice; AoryxHotelSummary.currency := None;
     AoryxHotelSummary.rating := rating; AoryxHotelSummary.address := None;
     AoryxHotelSummary.city := None; AoryxHotelSummary.imageUrl := None;
     AoryxHotelSummary.latitude := None; AoryxHotelSummary.longitude := None |}.

End MoreProps.

(** * Properties *)

Import JsNumber Js Props.

(** ** Strings and numbers *)

Lemma digits_fuel_nonempty : forall fuel n acc,
  JsString.nonempty (digits_fuel fuel n acc) = true.
Proof.
  induction fuel as [|fuel IH]; intros n acc; simpl.
  - reflexivity.
  - destruct (n <? 10); [reflexivity | apply IH].
Qed.

Lemma decimal_digits_nonempty : forall n, JsString.nonempty (decimal_digits n) = true.
Proof. intros n. apply digits_fuel_nonempty. Qed.

Lemma nonempty_app_l : forall a b,
  JsString.nonempty a = true -> JsString.nonempty (a ++ b) = true.
Proof. intros [|c a] b H; [discriminate | reflexivity]. Qed.

Lemma nonempty_app_r : forall a b,
  JsString.nonempty b = true -> JsString.nonempty (a ++ b) = true.
Proof. intros [|c a] b H; [exact H | reflexivity]. Qed.

Lemma format_digits_nonempty : forall digits k n,
  JsString.nonempty digits = true ->
  JsString.nonempty (format_digits digits k n) = true.
Proof.
  intros digits k n Hd. unfold format_digits.
  destruct ((k <=? n) && (n <=? 21)).
  - apply nonempty_app_l, Hd.
  - destruct ((0 <? n) && (n <=? 21)).
    + apply nonempty_app_r. reflexivity.
    + destruct ((-6 <? n) && (n <=? 0)); [reflexivity|].
      destruct digits as [|d [|d' rest]]; [discriminate | reflexivity | reflexivity].
Qed.

(** [String(x)] is never the empty string. *)
Lemma to_string_nonempty : forall x, JsString.nonempty (to_string x) = true.
Proof.
  intros [s|s| |s m e]; unfold to_string.
  - reflexivity.
  - destruct s; reflexivity.
  - reflexivity.
  - destruct (exact_value m e) as [num den].
    destruct (shortest 16 (S754_finite false m e) num den (decade num den) 1)
      as [[d k] n'].
    apply nonempty_app_r, format_digits_nonempty, decimal_digits_nonempty.
Qed.

(** [toStringValue] never returns the empty string. *)
Lemma toStringValue_nonempty : forall v s,
  Aoryx.toStringValue v = Some s -> JsString.nonempty s = true.
Proof.
  intros v s H. destruct v; simpl in H; try discriminate.
  - destruct (isFinite n); [|discriminate].
    injection H as <-. apply to_string_nonempty.
  - destruct (JsString.nonempty (JsString.trim s0)) eqn:E; [|discriminate].
    injection H as <-. exact E.
Qed.

(** ** Property access *)

Lemma get_ok : forall o key, is_nullish o = false -> get o key = Ok (prop o key).
Proof. intros o key H. unfold get. rewrite H. reflexivity. Qed.

Lemma get_nullish : forall o key, is_nullish o = true -> get o key = Throw TypeError.
Proof. intros o key H. unfold get. rewrite H. reflexivity. Qed.

Lemma truthy_not_nullish : forall v, truthy v = true -> is_nullish v = false.
Proof. intros []; simpl; intros H; try reflexivity; discriminate. Qed.

Lemma isRecord_not_nullish : forall v, isRecord v = true -> is_nullish v = false.
Proof. intros []; simpl; intros H; try reflexivity; discriminate. Qed.

(** ** The [??] chains *)

Lemma coalesce_cons : forall fields key rest,
  rest <> [] ->
  coalesce fields (key :: rest) = nullish_or (field fields key) (coalesce fields rest).
Proof. intros fields key [|k rest] H; [contradiction | reflexivity]. Qed.

(** A chain yields the first property that is neither [null] nor
    [undefined]. *)
Lemma coalesce_first : forall fields before key rest,
  (forall k, In k before -> is_nullish (field fields k) = true) ->
  is_nullish (field fields key) = false ->
  coalesce fields (before ++ key :: rest) = field fields key.
Proof.
  intros fields before key rest. induction before as [|b before IH]; intros Hb Hk.
  - simpl. destruct rest; [reflexivity|].
    unfold nullish_or. rewrite Hk. reflexivity.
  - change ((b :: before) ++ key :: rest)%list with (b :: (before ++ key :: rest))%list.
    rewrite coalesce_cons by (destruct before; discriminate).
    unfold nullish_or. rewrite (Hb b (or_introl eq_refl)).
    apply IH; [|exact Hk]. intros k Hin. apply Hb. right. exact Hin.
Qed.

(** A chain over properties that are all [null] or [undefined] is itself
    [null] or [undefined]. *)
Lemma coalesce_nullish : forall fields keys,
  (forall k, In k keys -> is_nullish (field fields k) = true) ->
  is_nullish (coalesce fields keys) = true.
Proof.
  intros fields keys. induction keys as [|key rest IH]; intros H.
  - reflexivity.
  - destruct rest as [|k rest].
    + apply H. left. reflexivity.
    + rewrite coalesce_cons by discriminate.
      unfold nullish_or. rewrite (H key (or_introl eq_refl)).
      apply IH. intros k' Hin. apply H. right. exact Hin.
Qed.

Lemma toNumber_nullish : forall v, is_nullish v = true -> Aoryx.toNumber v = None.
Proof. intros []; simpl; intros H; try reflexivity; discriminate. Qed.

Lemma toStringValue_nullish : forall v, is_nullish v = true -> Aoryx.toStringValue v = None.
Proof. intros []; simpl; intros H; try reflexivity; discriminate. Qed.

(** ** Reading back the decimal digits of an integer *)

Lemma small_digit : forall d, 0 <= d < 10 ->
  d = 0 \/ d = 1 \/ d = 2 \/ d = 3 \/ d = 4 \/ d = 5 \/ d = 6 \/ d = 7 \/ d = 8 \/ d = 9.
Proof. intros d H. lia. Qed.

(** A digit character reads back as its digit, and is neither white space,
    a sign nor the start of [Infinity]. *)
Lemma digit_char_facts : forall d, 0 <= d < 10 ->
  digit_value (digit_char d) = Some d /\
  JsString.is_white_space (digit_char d) = false /\
  (forall rest, read_sign (String (digit_char d) rest) = (false, String (digit_char d) rest)) /\
  (forall rest, JsString.strip_prefix "Infinity" (String (digit_char d) rest) = None).
Proof.
  intros d H.
  destruct (small_digit d H) as [->|[->|[->|[->|[->|[->|[->|[->|[->| ->]]]]]]]]];
    repeat split.
Qed.

Lemma read_digits_digit : forall d rest a c, 0 <= d < 10 ->
  read_digits (String (digit_char d) rest) a c = read_digits rest (10 * a + d) (c + 1).
Proof.
  intros d rest a c H.
  change (read_digits (String (digit_char d) rest) a c)
    with (match digit_value (digit_char d) with
          | Some v => read_digits rest (10 * a + v) (c + 1)
          | None => (a, c, String (digit_char d) rest)
          end).
  rewrite (proj1 (digit_char_facts d H)). reflexivity.
Qed.

Lemma read_digits_digits_fuel : forall fuel n acc,
  0 <= n < 2 ^ (Z.of_nat fuel + 1) ->
  exists k, 0 < k /\
    forall a c, read_digits (digits_fuel fuel n acc) a c
                = read_digits acc (a * 10 ^ k + n) (c + k).
Proof.
  induction fuel as [|fuel IH]; intros n acc Hn.
  - exists 1. split; [lia|]. intros a c.
    change (2 ^ (Z.of_nat 0 + 1)) with 2 in Hn.
    change (digits_fuel 0 n acc) with (String (digit_char (n mod 10)) acc).
    rewrite Z.mod_small by lia.
    rewrite read_digits_digit by lia. f_equal. lia.
  - change (digits_fuel (S fuel) n acc)
      with (if n <? 10 then String (digit_char (n mod 10)) acc
            else digits_fuel fuel (n / 10) (String (digit_char (n mod 10)) acc)).
    destruct (n <? 10) eqn:E.
    + apply Z.ltb_lt in E. exists 1. split; [lia|]. intros a c.
      rewrite Z.mod_small by lia.
      rewrite read_digits_digit by lia. f_equal. lia.
    + apply Z.ltb_ge in E.
      assert (Hdiv : 0 <= n / 10 < 2 ^ (Z.of_nat fuel + 1)).
      { split; [apply Z.div_pos; lia|].
        apply Z.div_lt_upper_bound; [lia|].
        replace (Z.of_nat (S fuel) + 1) with (Z.succ (Z.of_nat fuel + 1)) in Hn by lia.
        rewrite Z.pow_succ_r in Hn by lia. lia. }
      destruct (IH (n / 10) (String (digit_char (n mod 10)) acc) Hdiv) as [k [Hk Hread]].
      exists (k + 1). split; [lia|]. intros a c. rewrite Hread.
      rewrite read_digits_digit by (apply Z.mod_pos_bound; lia).
      f_equal; [|lia].
      rewrite Z.pow_add_r by lia. change (10 ^ 1) with 10.
      pose proof (Z.div_mod n 10 ltac:(lia)). lia.
Qed.

Lemma digits_fuel_head : forall fuel n acc,
  0 <= n -> exists d rest, 0 <= d < 10 /\ digits_fuel fuel n acc = String (digit_char d) rest.
Proof.
  induction fuel as [|fuel IH]; intros n acc Hn; simpl.
  - exists (n mod 10), acc. split; [apply Z.mod_pos_bound; lia | reflexivity].
  - destruct (n <? 10).
    + exists (n mod 10), acc. split; [apply Z.mod_pos_bound; lia | reflexivity].
    + apply IH. apply Z.div_pos; lia.
Qed.

Lemma of_decimal_integer : forall z, 0 <= z -> of_decimal false z 0 = of_Z z.
Proof.
  intros [|p|p] H; try reflexivity; [|lia].
  unfold of_decimal, of_Z. cbn [Z.leb Z.compare]. rewrite Z.pow_0_r, Z.mul_1_r. reflexivity.
Qed.

(** [parseFloat] of the decimal digits of an integer is the number nearest
    to that integer. *)
Lemma parseFloat_decimal_digits : forall z, 0 <= z ->
  parseFloat (decimal_digits z) = of_Z z.
Proof.
  intros z Hz. unfold parseFloat, decimal_digits.
  set (fuel := Z.to_nat (Z.log2 z)).
  assert (Hfuel : 0 <= z < 2 ^ (Z.of_nat fuel + 1)).
  { split; [exact Hz|]. unfold fuel. rewrite Z2Nat.id by apply Z.log2_nonneg.
    destruct (Z.eq_dec z 0) as [->|Hne]; [reflexivity|].
    replace (Z.log2 z + 1) with (Z.succ (Z.log2 z)) by lia.
    apply Z.log2_spec. lia. }
  destruct (read_digits_digits_fuel fuel z "" Hfuel) as [k [Hk Hread]].
  destruct (digits_fuel_head fuel z "" Hz) as [d [rest [Hd Hhead]]].
  destruct (digit_char_facts d Hd) as [_ [Hws [Hsign Hinf]]].
  specialize (Hread 0 0). rewrite Hhead in *.
  cbn [JsString.trimStart]. rewrite Hws.
  unfold read_StrDecimalLiteral. rewrite Hsign, Hinf.
  unfold read_unsigned_decimal. rewrite Hread. cbn [read_digits].
  replace (0 * 10 ^ k + z) with z by lia. replace (0 + k) with k by lia.
  assert (Hk' : (0 <? k) = true) by (apply Z.ltb_lt; exact Hk).
  rewrite Hk'. cbn [orb read_exponent]. 
  replace (- 0) with 0 by reflexivity.
  apply of_decimal_integer, Hz.
Qed.

(** ** C2: money extraction *)

(** C2, as stated, fails: the object [{ Amount: "N/A", Price: 5 }] carries
    the number 5 under the key [Price], and [extractMoney] yields the amount
    [null] for it, because the chain stops at [Amount]. *)
Lemma C2_counterexample :
  carries Samples.money_with_placeholder Samples.five /\
  Aoryx.amount (Aoryx.extractMoney (VObj Samples.money_with_placeholder)) = None.
Proof.
  split.
  - exists "Price". split; [|reflexivity].
    unfold money_keys. simpl. tauto.
  - reflexivity.
Qed.

(** C2, amended: [extractMoney(v).amount] is [toNumber] of [v] itself when
    [v] is a number or a string, and of the first of the keys [Amount],
    [TotalAmount], [Value], [Price], [Net], [NetAmount] whose value is
    neither [null] nor [undefined] when [v] is a record.  So the amount is
    [n] for the finite number [n], for a string exactly when its leading
    decimal literal is the finite [n] (so for the decimal digits of an
    integer), and for a record whose first present key holds such a value;
    it is [null] when all six keys are absent or [null] and when [v] is
    neither a number, a string nor a record. *)
Theorem C2_extractMoney_amount :
  (forall n, isFinite n = true ->
     Aoryx.amount (Aoryx.extractMoney (VNum n)) = Some n) /\
  (forall s n,
     Aoryx.amount (Aoryx.extractMoney (VStr s)) = Some n <->
     parseFloat s = n /\ isFinite n = true) /\
  (forall fields before key rest,
     money_keys = (before ++ key :: rest)%list ->
     (forall k, In k before -> is_nullish (field fields k) = true) ->
     is_nullish (field fields key) = false ->
     Aoryx.amount (Aoryx.extractMoney (VObj fields)) = Aoryx.toNumber (field fields key)) /\
  (forall fields,
     (forall k, In k money_keys -> is_nullish (field fields k) = true) ->
     Aoryx.amount (Aoryx.extractMoney (VObj fields)) = None) /\
  (forall v, typeof v <> "number" -> typeof v <> "string" -> isRecord v = false ->
     Aoryx.amount (Aoryx.extractMoney v) = None) /\
  (forall z, 0 <= z -> isFinite (of_Z z) = true ->
     Aoryx.amount (Aoryx.extractMoney (VStr (decimal_digits z))) = Some (of_Z z)).
Proof.
  split; [|split; [|split; [|split; [|split]]]].
  - intros n Hfin. simpl. rewrite Hfin. reflexivity.
  - intros s n. simpl. split.
    + destruct (isFinite (parseFloat s)) eqn:E; intros H; [|discriminate].
      injection H as <-. split; [reflexivity | exact E].
    + intros [<- Hfin]. rewrite Hfin. reflexivity.
  - intros fields before key rest Hkeys Hbefore Hkey.
    unfold Aoryx.extractMoney, Aoryx.amount. fold money_keys. rewrite Hkeys.
    rewrite (coalesce_first fields before key rest Hbefore Hkey). reflexivity.
  - intros fields Hall.
    unfold Aoryx.extractMoney, Aoryx.amount. fold money_keys.
    apply toNumber_nullish, coalesce_nullish, Hall.
  - intros v Hn Hs Hr. destruct v; simpl in *; try reflexivity.
    + exfalso. apply Hn. reflexivity.
    + exfalso. apply Hs. reflexivity.
    + discriminate.
  - intros z Hz Hfin. unfold Aoryx.extractMoney, Aoryx.amount, Aoryx.toNumber.
    rewrite (parseFloat_decimal_digits z Hz), Hfin. reflexivity.
Qed.

(** An instance of C2: [{ Amount: null, Price: "12.50" }] yields 12.5. *)
Lemma C2_extractMoney_amount_witness :
  Aoryx.amount (Aoryx.extractMoney (VObj Samples.money_under_price))
  = Some (parseFloat "12.5").
Proof.
  rewrite (proj1 (proj2 (proj2 C2_extractMoney_amount))
             Samples.money_under_price ["Amount"; "TotalAmount"; "Value"] "Price"
             ["Net"; "NetAmount"]).
  - reflexivity.
  - reflexivity.
  - intros k [<-|[<-|[<-|[]]]]; reflexivity.
  - reflexivity.
Defined.

(** ** C10: the id of a room option *)

Lemma map_indexed_length : forall (A B : Type) (f : A -> nat -> B) items start,
  List.length (Aoryx.map_indexed f start items) = List.length items.
Proof.
  intros A B f items. induction items as [|a items IH]; intros start; simpl.
  - reflexivity.
  - rewrite IH. reflexivity.
Qed.

Lemma map_indexed_nth_error : forall (A B : Type) (f : A -> nat -> B) items start i,
  nth_error (Aoryx.map_indexed f start items) i
  = option_map (fun a => f a (start + i)%nat) (nth_error items i).
Proof.
  intros A B f items. induction items as [|a items IH]; intros start i.
  - destruct i; reflexivity.
  - destruct i as [|i]; simpl.
    + rewrite Nat.add_0_r. reflexivity.
    + rewrite IH. rewrite Nat.add_succ_r. reflexivity.
Qed.

Lemma map_indexed_Forall : forall (A B : Type) (f : A -> nat -> B) (P : B -> Prop) items start,
  (forall a i, P (f a i)) -> Forall P (Aoryx.map_indexed f start items).
Proof.
  intros A B f P items. induction items as [|a items IH]; intros start H; simpl.
  - constructor.
  - constructor; [apply H | apply IH, H].
Qed.

Lemma normalizeRoom_id : forall room index,
  AoryxRoomOption.id (Aoryx.normalizeRoom room index)
  = match Aoryx.toStringValue (coalesce room id_keys) with
    | Some s => s
    | None => "room-" ++ to_string (of_Z (Z.of_nat index + 1))
    end.
Proof.
  intros room index. unfold Aoryx.normalizeRoom.
  destruct (Aoryx.first_price _) as [amount currency]. reflexivity.
Qed.

Lemma normalizeRoom_id_nonempty : forall room index,
  JsString.nonempty (AoryxRoomOption.id (Aoryx.normalizeRoom room index)) = true.
Proof.
  intros room index. rewrite normalizeRoom_id.
  destruct (Aoryx.toStringValue (coalesce room id_keys)) as [s|] eqn:E.
  - exact (toStringValue_nonempty _ _ E).
  - reflexivity.
Qed.

(** C10, as stated, fails: for the room [{ RoomCode: "", RateKey: "RK1" }]
    the first usable of the four fields is [RateKey], yet the id is the
    synthetic ["room-1"]. *)
Lemma C10_counterexample :
  first_usable Samples.room_with_blank_code id_keys = Some "RK1" /\
  option_map (map AoryxRoomOption.id)
    (match Aoryx.normalizeRoomOptions
             (Samples.room_details_of [Samples.room_with_blank_code]) with
     | Ok options => Some options
     | Throw _ => None
     end) = Some ["room-1"].
Proof. split; vm_compute; reflexivity. Qed.

(** C10, amended: every option that [normalizeRoomOptions] produces has a
    non-empty string id.  The id of the room at position [i] (from 0) is
    [toStringValue] of the first of [RoomCode], [RateKey], [RoomIndex], [Id]
    that is neither [null] nor [undefined], when that value is usable, and
    the synthetic ["room-" + (i + 1)] otherwise. *)
Theorem C10_room_id : forall response rooms,
  Aoryx.resolvedRoomItems response = Ok rooms ->
  exists options,
    Aoryx.normalizeRoomOptions response = Ok options /\
    List.length options = List.length rooms /\
    Forall (fun option => JsString.nonempty (AoryxRoomOption.id option) = true) options /\
    forall i room, nth_error rooms i = Some room ->
      exists option,
        nth_error options i = Some option /\
        AoryxRoomOption.id option
        = match Aoryx.toStringValue (coalesce room id_keys) with
          | Some s => s
          | None => "room-" ++ to_string (of_Z (Z.of_nat i + 1))
          end.
Proof.
  intros response rooms Hrooms.
  exists (Aoryx.map_indexed Aoryx.normalizeRoom 0 rooms).
  split; [|split; [|split]].
  - unfold Aoryx.normalizeRoomOptions. rewrite Hrooms. reflexivity.
  - apply map_indexed_length.
  - apply map_indexed_Forall. intros a i. apply normalizeRoom_id_nonempty.
  - intros i room Hi. exists (Aoryx.normalizeRoom room i). split.
    + rewrite map_indexed_nth_error, Hi. reflexivity.
    + apply normalizeRoom_id.
Qed.

(** An instance of C10: rooms [{ RoomName: "Deluxe" }] and [{ RoomCode: 7 }]
    get the ids ["room-1"] and ["7"]. *)
Lemma C10_room_id_witness :
  exists options,
    Aoryx.normalizeRoomOptions
      (Samples.room_details_of [Samples.room_without_id; Samples.room_with_code])
    = Ok options /\
    map AoryxRoomOption.id options = ["room-1"; "7"].
Proof.
  destruct (C10_room_id
              (Samples.room_details_of [Samples.room_without_id; Samples.room_with_code])
              [Samples.room_without_id; Samples.room_with_code] eq_refl)
    as [options [Hok [Hlen [_ Hid]]]].
  exists options. split; [exact Hok|].
  destruct (Hid 0%nat _ eq_refl) as [o0 [H0 E0]].
  destruct (Hid 1%nat _ eq_refl) as [o1 [H1 E1]].
  destruct options as [|a [|b [|c rest]]]; try discriminate Hlen.
  simpl in H0, H1. injection H0 as ->. injection H1 as ->.
  simpl. rewrite E0, E1. reflexivity.
Defined.

(** ** The normalisers on values that are neither [null] nor [undefined] *)

Lemma normalizeSearchHotel_ok : forall hotel currency,
  is_nullish hotel = false ->
  Aoryx.normalizeSearchHotel hotel currency = Ok (summary_of hotel currency).
Proof.
  intros hotel currency H. unfold Aoryx.normalizeSearchHotel.
  rewrite !(get_ok _ _ H). reflexivity.
Qed.

Lemma normalizeSearchHotel_throws : forall hotel currency e,
  Aoryx.normalizeSearchHotel hotel currency = Throw e -> e = TypeError.
Proof.
  intros hotel currency e H. destruct (is_nullish hotel) eqn:E.
  - unfold Aoryx.normalizeSearchHotel in H. rewrite (get_nullish _ _ E) in H.
    simpl in H. congruence.
  - rewrite (normalizeSearchHotel_ok _ _ E) in H. discriminate.
Qed.

Lemma room_sources_ok : forall response,
  is_nullish response = false ->
  exists sources, Aoryx.room_sources response = Ok sources.
Proof.
  intros response H. unfold Aoryx.room_sources.
  rewrite !(get_ok _ _ H). simpl.
  destruct (isRecord (prop response "Rooms")) eqn:E.
  - rewrite (get_ok _ _ (isRecord_not_nullish _ E)). simpl. eauto.
  - simpl. eauto.
Qed.

Lemma resolvedRoomItems_ok : forall response,
  is_nullish response = false ->
  exists rooms, Aoryx.resolvedRoomItems response = Ok rooms.
Proof.
  intros response H. unfold Aoryx.resolvedRoomItems.
  destruct (room_sources_ok _ H) as [sources ->]. simpl. eauto.
Qed.

(** ** The service functions after the exchange *)

Lemma mapM_ok : forall (A B : Type) (f : A -> result B) (g : A -> B) l,
  (forall a, In a l -> f a = Ok (g a)) -> mapM f l = Ok (map g l).
Proof.
  intros A B f g l. induction l as [|a l IH]; intros H; simpl.
  - reflexivity.
  - rewrite (H a (or_introl eq_refl)). simpl.
    rewrite IH by (intros b Hb; apply H; right; exact Hb). reflexivity.
Qed.

Lemma mapM_throw : forall (A B : Type) (f : A -> result B) l e,
  mapM f l = Throw e -> exists a, In a l /\ f a = Throw e.
Proof.
  intros A B f l e. induction l as [|a l IH]; simpl; intros H.
  - discriminate.
  - destruct (f a) as [b|e'] eqn:Ea; simpl in H.
    + destruct (mapM f l) as [bs|e''] eqn:El; simpl in H; [discriminate|].
      injection H as ->. destruct (IH eq_refl) as [x [Hin Hx]].
      exists x. split; [right; exact Hin | exact Hx].
    + injection H as ->. exists a. split; [left; reflexivity | exact Ea].
Qed.

(** [search] on a response that is an object or a primitive. *)
Lemma search_response_unfold : forall response,
  is_nullish response = false ->
  Aoryx.search_response response
  = if vendor_failed response then
      Throw (AoryxServiceError (prop response "ExceptionMessage") "SEARCH_ERROR"
               (nullish_or (prop response "StatusCode") VUndefined)
               (prop response "Errors"))
    else
      sessionId <-
        Aoryx.extractSessionId (nullish_or (prop response "GeneralInfo") VUndefined) ;;
      hotels <-
        mapM (fun h => Aoryx.normalizeSearchHotel h (search_currency response))
             (hotels_array response) ;;
      Ok (search_result_of response sessionId hotels).
Proof.
  intros response H. unfold Aoryx.search_response.
  rewrite !(get_ok _ _ H). cbn [bind]. fold (vendor_failed response).
  destruct (vendor_failed response); [reflexivity|].
  destruct (Aoryx.extractSessionId _) as [sid|e]; [|reflexivity].
  unfold hotels_array, hotels_raw, search_currency. cbn [bind]. cbv zeta.
  destruct (mapM _ _) as [hotels|e]; [|reflexivity].
  cbn [bind]. unfold search_result_of, search_destination, search_currency.
  destruct (truthy (get_opt (prop response "Audit") "Destination")) eqn:E.
  - rewrite !(get_ok _ _ (truthy_not_nullish _ E)). reflexivity.
  - reflexivity.
Qed.

Lemma extractSessionId_blank : forall generalInfo,
  blank_session (get_opt generalInfo "SessionId") = true ->
  Aoryx.extractSessionId generalInfo = Throw missing_session_id.
Proof.
  intros g H. unfold Aoryx.extractSessionId.
  destruct (get_opt g "SessionId"); simpl in *; try reflexivity; try discriminate.
  destruct (JsString.nonempty (JsString.trim s)); [discriminate | reflexivity].
Qed.

Lemma extractSessionId_string : forall generalInfo s,
  get_opt generalInfo "SessionId" = VStr s ->
  JsString.nonempty (JsString.trim s) = true ->
  Aoryx.extractSessionId generalInfo = Ok (JsString.trim s).
Proof.
  intros g s Hs Hne. unfold Aoryx.extractSessionId. rewrite Hs. simpl.
  rewrite Hne, Hne. reflexivity.
Qed.

Lemma extractSessionId_number : forall generalInfo n,
  get_opt generalInfo "SessionId" = VNum n ->
  isFinite n = true ->
  Aoryx.extractSessionId generalInfo = Ok (to_string n).
Proof.
  intros g n Hn Hfin. unfold Aoryx.extractSessionId. rewrite Hn.
  unfold Aoryx.toStringValue. rewrite Hfin, to_string_nonempty. reflexivity.
Qed.

Lemma extractSessionId_unusable : forall generalInfo,
  unusable_session (get_opt generalInfo "SessionId") = true ->
  Aoryx.extractSessionId generalInfo = Throw missing_session_id.
Proof.
  intros g H. unfold Aoryx.extractSessionId.
  destruct (get_opt g "SessionId") as [| |b|n|s|items|fields];
    unfold Aoryx.toStringValue; cbn [unusable_session] in H; try reflexivity.
  - destruct (isFinite n); [discriminate | reflexivity].
  - destruct (JsString.nonempty (JsString.trim s)); [discriminate | reflexivity].
Qed.

Lemma extractSessionId_throws : forall generalInfo e,
  Aoryx.extractSessionId generalInfo = Throw e -> e = missing_session_id.
Proof.
  intros g e. unfold Aoryx.extractSessionId.
  destruct (Aoryx.toStringValue _) as [sid|]; [|intros H; injection H as <-; reflexivity].
  destruct (JsString.nonempty sid); intros H; [discriminate|].
  injection H as <-. reflexivity.
Qed.

Lemma hotels_throw : forall response e,
  mapM (fun h => Aoryx.normalizeSearchHotel h (search_currency response))
       (hotels_array response) = Throw e ->
  e = TypeError.
Proof.
  intros response e H. apply mapM_throw in H. destruct H as [h [_ H]].
  exact (normalizeSearchHotel_throws _ _ _ H).
Qed.

Lemma search_valid : forall params request,
  Aoryx.validateSearchParams params = Ok tt ->
  Aoryx.search params request = (response <- request ;; Aoryx.search_response response).
Proof. intros params request H. unfold Aoryx.search. rewrite H. reflexivity. Qed.

(** [search] on a response whose hotel entries are neither [null] nor
    [undefined]. *)
Lemma search_response_hotels : forall response,
  is_nullish response = false ->
  Forall (fun h => is_nullish h = false) (hotels_array response) ->
  Aoryx.search_response response
  = if vendor_failed response then
      Throw (AoryxServiceError (prop response "ExceptionMessage") "SEARCH_ERROR"
               (nullish_or (prop response "StatusCode") VUndefined)
               (prop response "Errors"))
    else
      sessionId <-
        Aoryx.extractSessionId (nullish_or (prop response "GeneralInfo") VUndefined) ;;
      Ok (search_result_of response sessionId
            (map (fun h => summary_of h (search_currency response))
                 (hotels_array response))).
Proof.
  intros response H Hall. rewrite (search_response_unfold _ H).
  destruct (vendor_failed response); [reflexivity|].
  destruct (Aoryx.extractSessionId _) as [sid|e]; [|reflexivity].
  cbn [bind].
  rewrite (mapM_ok _ _ _ (fun h => summary_of h (search_currency response))).
  - reflexivity.
  - intros h Hin. apply normalizeSearchHotel_ok.
    rewrite Forall_forall in Hall. apply Hall, Hin.
Qed.

Lemma validateSearchParams_throws : forall params e,
  Aoryx.validateSearchParams params = Throw e -> is_service_error e.
Proof.
  intros params e. unfold Aoryx.validateSearchParams, is_service_error.
  destruct (_ && _); [intros H; injection H as <-; eauto 6|].
  destruct (_ || _); [intros H; injection H as <-; eauto 6|].
  destruct (AoryxSearchParams.rooms params); [|discriminate].
  intros H; injection H as <-; eauto 6.
Qed.

(** On a response that is not [null] and has no [null] hotel entry, [search]
    throws nothing but an [AoryxServiceError]. *)
Lemma search_throws_service_error : forall params response e,
  is_nullish response = false ->
  Forall (fun h => is_nullish h = false) (hotels_array response) ->
  Aoryx.search params (Ok response) = Throw e ->
  is_service_error e.
Proof.
  intros params response e Hresp Hall. unfold Aoryx.search.
  destruct (Aoryx.validateSearchParams params) as [[]|e'] eqn:Ev; cbn [bind].
  - rewrite (search_response_hotels _ Hresp Hall).
    destruct (vendor_failed response).
    + intros H. injection H as <-. unfold is_service_error. eauto 6.
    + destruct (Aoryx.extractSessionId _) as [sid|e'] eqn:Es; cbn [bind].
      * discriminate.
      * intros H. injection H as <-. rewrite (extractSessionId_throws _ _ Es).
        unfold is_service_error, missing_session_id. eauto 6.
  - intros H. injection H as <-. exact (validateSearchParams_throws _ _ Ev).
Qed.

(** ** C8: the session id of a search response *)

(** The outcome of [search] on a response that passes the vendor-failure
    test and whose session id [extractSessionId] returns as [text]. *)
Lemma search_with_session : forall params response text,
  Aoryx.validateSearchParams params = Ok tt ->
  is_nullish response = false ->
  vendor_failed response = false ->
  Aoryx.extractSessionId (nullish_or (prop response "GeneralInfo") VUndefined) = Ok text ->
  (forall found, Aoryx.search params (Ok response) = Ok found ->
     AoryxSearchResult.sessionId found = text) /\
  (forall e, Aoryx.search params (Ok response) = Throw e -> e = TypeError) /\
  (Forall (fun h => is_nullish h = false) (hotels_array response) ->
     exists found,
       Aoryx.search params (Ok response) = Ok found /\
       AoryxSearchResult.sessionId found = text).
Proof.
  intros params response text Hvalid Hresp Hvendor Hsid.
  rewrite (search_valid _ _ Hvalid). cbn [bind]. split; [|split].
  - intros found. rewrite (search_response_unfold _ Hresp), Hvendor, Hsid.
    cbn [bind]. destruct (mapM _ _) as [hotels|e]; cbn [bind]; intros H.
    + injection H as <-. reflexivity.
    + discriminate.
  - intros e. rewrite (search_response_unfold _ Hresp), Hvendor, Hsid.
    cbn [bind]. destruct (mapM _ _) as [hotels|e'] eqn:Eh; cbn [bind]; intros H.
    + discriminate.
    + injection H as <-. exact (hotels_throw _ _ Eh).
  - intros Hall. rewrite (search_response_hotels _ Hresp Hall), Hvendor, Hsid.
    cbn [bind]. eexists. split; reflexivity.
Qed.

(** C8, as stated, fails on a session id that is no string: [true] is
    neither absent, [null], empty nor white space, and [search] throws
    [MISSING_SESSION_ID]; for the number [77] the [sessionId] returned is
    the text ["77"], which is no string of the response. *)
Lemma C8_counterexample :
  (blank_session (VBool true) = false /\
   Aoryx.search Samples.params
     (Ok (Samples.search_response_of (VBool true) Samples.hotel))
   = Throw missing_session_id) /\
  (typeof (VNum (of_Z 77)) <> "string" /\
   exists found,
     Aoryx.search Samples.params
       (Ok (Samples.search_response_of (VNum (of_Z 77)) Samples.hotel)) = Ok found /\
     AoryxSearchResult.sessionId found = "77").
Proof.
  split; split.
  - reflexivity.
  - reflexivity.
  - discriminate.
  - eexists. split; vm_compute; reflexivity.
Qed.

(** C8, amended: for a search response that passes the vendor-failure test,
    [search] throws [MISSING_SESSION_ID] when [GeneralInfo.SessionId] is
    absent, [null], empty or white space only, and it throws that error
    exactly when the session id is neither a string with something other
    than white space in it nor a finite number.  A string with other text
    gives its trimmed text as the [sessionId], a finite number its decimal
    text; for both, [search] throws nothing but a [TypeError], every
    result it returns has that [sessionId], and it does return one when no
    entry of the hotel list is [null]. *)
Theorem C8_session_id : forall params response,
  Aoryx.validateSearchParams params = Ok tt ->
  is_nullish response = false ->
  vendor_failed response = false ->
  (blank_session (session_value response) = true ->
     Aoryx.search params (Ok response) = Throw missing_session_id) /\
  (Aoryx.search params (Ok response) = Throw missing_session_id <->
     unusable_session (session_value response) = true) /\
  (forall s,
     session_value response = VStr s ->
     JsString.nonempty (JsString.trim s) = true ->
     (forall found, Aoryx.search params (Ok response) = Ok found ->
        AoryxSearchResult.sessionId found = JsString.trim s) /\
     (forall e, Aoryx.search params (Ok response) = Throw e -> e = TypeError) /\
     (Forall (fun h => is_nullish h = false) (hotels_array response) ->
        exists found,
          Aoryx.search params (Ok response) = Ok found /\
          AoryxSearchResult.sessionId found = JsString.trim s)) /\
  (forall n,
     session_value response = VNum n ->
     isFinite n = true ->
     JsString.nonempty (to_string n) = true /\
     (forall found, Aoryx.search params (Ok response) = Ok found ->
        AoryxSearchResult.sessionId found = to_string n) /\
     (forall e, Aoryx.search params (Ok response) = Throw e -> e = TypeError) /\
     (Forall (fun h => is_nullish h = false) (hotels_array response) ->
        exists found,
          Aoryx.search params (Ok response) = Ok found /\
          AoryxSearchResult.sessionId found = to_string n)).
Proof.
  intros params response Hvalid Hresp Hvendor.
  assert (Hthrow : unusable_session (session_value response) = true ->
                   Aoryx.search params (Ok response) = Throw missing_session_id).
  { intros Hun. rewrite (search_valid _ _ Hvalid). cbn [bind].
    rewrite (search_response_unfold _ Hresp), Hvendor.
    rewrite (extractSessionId_unusable _ Hun). reflexivity. }
  split; [|split; [|split]].
  - intros Hblank. apply Hthrow.
    destruct (session_value response); cbn in *; try reflexivity; try discriminate.
    exact Hblank.
  - split; [|exact Hthrow].
    intros Hmiss. unfold session_value in *.
    destruct (get_opt (nullish_or (prop response "GeneralInfo") VUndefined) "SessionId")
      as [| |b|n|s|items|fields] eqn:Es; try reflexivity; cbn [unusable_session].
    + destruct (isFinite n) eqn:Hfin; [|reflexivity].
      destruct (search_with_session params response _ Hvalid Hresp Hvendor
                  (extractSessionId_number _ _ Es Hfin)) as [_ [Hte _]].
      discriminate (Hte _ Hmiss).
    + destruct (JsString.nonempty (JsString.trim s)) eqn:Hne; [|reflexivity].
      destruct (search_with_session params response _ Hvalid Hresp Hvendor
                  (extractSessionId_string _ _ Es Hne)) as [_ [Hte _]].
      discriminate (Hte _ Hmiss).
  - intros s Hs Hne.
    exact (search_with_session params response _ Hvalid Hresp Hvendor
             (extractSessionId_string _ _ Hs Hne)).
  - intros n Hn Hfin. split; [apply to_string_nonempty|].
    exact (search_with_session params response _ Hvalid Hresp Hvendor
             (extractSessionId_number _ _ Hn Hfin)).
Qed.

(** An instance of C8: the session id ["   "] is missing, and [" S1 "] is
    returned as ["S1"]. *)
Lemma C8_session_id_witness :
  Aoryx.search Samples.params
    (Ok (Samples.search_response_of (VStr "   ") Samples.hotel))
  = Throw missing_session_id /\
  exists found,
    Aoryx.search Samples.params
      (Ok (Samples.search_response_of (VStr " S1 ") Samples.hotel)) = Ok found /\
    AoryxSearchResult.sessionId found = "S1".
Proof.
  split.
  - apply (proj1 (C8_session_id Samples.params
                    (Samples.search_response_of (VStr "   ") Samples.hotel)
                    eq_refl eq_refl eq_refl)).
    reflexivity.
  - destruct (proj1 (proj2 (proj2
                (C8_session_id Samples.params
                   (Samples.search_response_of (VStr " S1 ") Samples.hotel)
                   eq_refl eq_refl eq_refl))) " S1 " eq_refl eq_refl)
      as [_ [_ H]].
    apply H. repeat constructor.
Defined.

(** ** C4: a single hotel object in the search response *)

Lemma hotels_array_single : forall response fields,
  hotels_raw response = VObj fields -> hotels_array response = [VObj fields].
Proof. intros response fields H. unfold hotels_array. rewrite H. reflexivity. Qed.

Lemma hotels_array_absent : forall response,
  is_nullish (hotels_raw response) = true -> hotels_array response = [].
Proof.
  intros response H. unfold hotels_array, nullish_or. rewrite H. reflexivity.
Qed.

Lemma search_outcome_hotels : forall response hotels found,
  search_outcome response hotels = Ok found ->
  AoryxSearchResult.hotels found = hotels.
Proof.
  intros response hotels found. unfold search_outcome.
  destruct (vendor_failed response); [discriminate|].
  destruct (Aoryx.extractSessionId _) as [sid|e]; [|discriminate].
  intros H. injection H as <-. reflexivity.
Qed.

(** C4: when [Hotels.Hotel] of the search response is a single object,
    [search] fails only with the vendor error or the missing session id, and
    otherwise returns the result whose [hotels] is the one-element list with
    the normalisation of that object; when [Hotels.Hotel] is absent or
    [null], the list is empty. *)
Theorem C4_single_hotel : forall params response,
  Aoryx.validateSearchParams params = Ok tt ->
  is_nullish response = false ->
  (forall fields, hotels_raw response = VObj fields ->
     let summary := summary_of (VObj fields) (search_currency response) in
     Aoryx.normalizeSearchHotel (VObj fields) (search_currency response) = Ok summary /\
     Aoryx.search params (Ok response) = search_outcome response [summary] /\
     forall found, Aoryx.search params (Ok response) = Ok found ->
                   AoryxSearchResult.hotels found = [summary]) /\
  (is_nullish (hotels_raw response) = true ->
     Aoryx.search params (Ok response) = search_outcome response [] /\
     forall found, Aoryx.search params (Ok response) = Ok found ->
                   AoryxSearchResult.hotels found = []).
Proof.
  intros params response Hvalid Hresp.
  rewrite (search_valid _ _ Hvalid). cbn [bind]. split.
  - intros fields Hraw.
    set (summary := summary_of (VObj fields) (search_currency response)).
    assert (Hsearch : Aoryx.search_response response = search_outcome response [summary]).
    { rewrite search_response_hotels, (hotels_array_single _ _ Hraw); try assumption.
      - reflexivity.
      - rewrite (hotels_array_single _ _ Hraw). repeat constructor. }
    split; [apply normalizeSearchHotel_ok; reflexivity|].
    split; [exact Hsearch|].
    intros found. rewrite Hsearch. apply search_outcome_hotels.
  - intros Hraw.
    assert (Hsearch : Aoryx.search_response response = search_outcome response []).
    { rewrite search_response_hotels, (hotels_array_absent _ Hraw); try assumption.
      - reflexivity.
      - rewrite (hotels_array_absent _ Hraw). constructor. }
    split; [exact Hsearch|].
    intros found. rewrite Hsearch. apply search_outcome_hotels.
Qed.

(** An instance of C4: the sample hotel as the single object. *)
Lemma C4_single_hotel_witness :
  exists found,
    Aoryx.search Samples.params
      (Ok (Samples.search_response_of (VStr "S1") Samples.hotel)) = Ok found /\
    map AoryxHotelSummary.name (AoryxSearchResult.hotels found) = [Some "Ritz"] /\
    map AoryxHotelSummary.code (AoryxSearchResult.hotels found) = [Some "H1"].
Proof.
  destruct (proj1 (C4_single_hotel Samples.params
                     (Samples.search_response_of (VStr "S1") Samples.hotel)
                     eq_refl eq_refl)
              [("Code", VStr "H1"); ("MinPrice", VStr "99.5");
               ("HotelInfo", VObj [("Name", VStr " Ritz ")])] eq_refl)
    as [_ [Hsearch Hhotels]].
  eexists. split; [exact Hsearch|].
  split; reflexivity.
Defined.

(** ** C7: vendor business errors *)

Lemma normalizeRoomOptions_ok : forall response,
  is_nullish response = false ->
  exists options, Aoryx.normalizeRoomOptions response = Ok options.
Proof.
  intros response H. destruct (resolvedRoomItems_ok _ H) as [rooms Hrooms].
  unfold Aoryx.normalizeRoomOptions. rewrite Hrooms. simpl. eauto.
Qed.

Lemma Throws_Ok : forall (A : Type) code (a : A), ~ Throws code (Ok a).
Proof. intros A code a [m [sc [er H]]]. discriminate. Qed.

Lemma Throws_TypeError : forall (A : Type) code, ~ Throws (A := A) code (Throw TypeError).
Proof. intros A code [m [sc [er H]]]. discriminate. Qed.

Lemma roomDetails_response_spec : forall response,
  is_nullish response = false ->
  (prop response "IsSuccess" = VBool false /\
   Aoryx.roomDetails_response response
   = Throw (AoryxServiceError
              (nullish_or (prop response "ExceptionMessage")
                          (VStr "RoomDetails request failed"))
              "ROOM_DETAILS_ERROR"
              (nullish_or (prop response "StatusCode") VUndefined)
              (prop response "Errors")))
  \/ (prop response "IsSuccess" <> VBool false /\
      exists options, Aoryx.roomDetails_response response = Ok options).
Proof.
  intros response H. unfold Aoryx.roomDetails_response.
  rewrite !(get_ok _ _ H). cbn [bind].
  destruct (normalizeRoomOptions_ok _ H) as [options Hok].
  destruct (prop response "IsSuccess") as [| |[|]| | | |] eqn:E;
    try (right; split; [discriminate | exists options; exact Hok]).
  left. split; reflexivity.
Qed.

Lemma hotelInfo_response_spec : forall response,
  is_nullish response = false ->
  (truthy (prop response "IsSuccess") = false /\
   Aoryx.hotelInfo_response response
   = Throw (AoryxServiceError
              (nullish_or (prop response "ExceptionMessage")
                          (VStr "HotelInfo request failed"))
              "HOTEL_INFO_ERROR"
              (nullish_or (prop response "StatusCode") VUndefined)
              (prop response "Errors")))
  \/ (truthy (prop response "IsSuccess") = true /\
      exists info, Aoryx.hotelInfo_response response = Ok info).
Proof.
  intros response H. unfold Aoryx.hotelInfo_response.
  rewrite !(get_ok _ _ H). cbn [bind].
  destruct (truthy (prop response "IsSuccess")); [right | left; split; reflexivity].
  split; [reflexivity|]. cbn [negb].
  destruct (truthy (nullish_or (prop response "HotelInformation") VNull)) eqn:Ei;
    cbn [negb]; [|eauto].
  rewrite !(get_ok _ _ (truthy_not_nullish _ Ei)). cbn [bind].
  set (info := nullish_or (prop response "HotelInformation") VNull).
  destruct (truthy (prop info "Address")) eqn:Ea;
    [rewrite !(get_ok _ _ (truthy_not_nullish _ Ea))|]; cbn [bind];
  (destruct (truthy (prop info "GeoCode")) eqn:Eg;
    [rewrite !(get_ok _ _ (truthy_not_nullish _ Eg))|]; cbn [bind];
   (destruct (truthy (prop info "Contact")) eqn:Ec;
     [rewrite !(get_ok _ _ (truthy_not_nullish _ Ec))|]; cbn [bind]; eauto)).
Qed.

Lemma hotelsInfo_response_spec : forall response,
  is_nullish response = false ->
  (truthy (prop response "IsSuccess") = false /\
   Aoryx.hotelsInfoByDestinationId_response response
   = Throw (AoryxServiceError
              (nullish_or (prop response "ExceptionMessage")
                          (VStr "HotelsInfoByDestinationId request failed"))
              "HOTELS_INFO_ERROR"
              (nullish_or (prop response "StatusCode") VUndefined)
              (prop response "Errors")))
  \/ (truthy (prop response "IsSuccess") = true /\
      ((exists hotels, Aoryx.hotelsInfoByDestinationId_response response = Ok hotels)
       \/ Aoryx.hotelsInfoByDestinationId_response response = Throw TypeError)).
Proof.
  intros response H. unfold Aoryx.hotelsInfoByDestinationId_response.
  rewrite !(get_ok _ _ H). cbn [bind].
  destruct (truthy (prop response "IsSuccess")); [right | left; split; reflexivity].
  split; [reflexivity|]. cbn [negb].
  destruct (nullish_or (prop response "HotelsInformation") (VArr []));
    try (right; reflexivity).
  unfold Aoryx.array_map.
  destruct (mapM _ items) as [hotels|e] eqn:E; [left; eauto | right].
  apply mapM_throw in E. destruct E as [item [_ E]].
  destruct (is_nullish item) eqn:En.
  - rewrite (get_nullish _ _ En) in E. cbn [bind] in E. congruence.
  - rewrite !(get_ok _ _ En) in E. discriminate.
Qed.

Lemma roomDetails_after_search : forall params searchRequest found request,
  Aoryx.validateSearchParams params = Ok tt ->
  Aoryx.missing (AoryxSearchParams.hotelCode params) = false ->
  Aoryx.search params searchRequest = Ok found ->
  Aoryx.roomDetails params searchRequest request
  = (response <- request ;; Aoryx.roomDetails_response response).
Proof.
  intros params searchRequest found request Hvalid Hcode Hsearch.
  unfold Aoryx.roomDetails. rewrite Hvalid. cbn [bind].
  rewrite Hcode, Hsearch. reflexivity.
Qed.

(** C7, as stated, fails in both directions: [hotelInfo] throws
    [HOTEL_INFO_ERROR] on a response that carries neither a failure flag nor
    an exception message, and [search] returns a result for a response that
    carries the failure flag. *)
Lemma C7_counterexample :
  (failure_indicated Samples.hotel_info_plain = false /\
   Throws "HOTEL_INFO_ERROR" (Aoryx.hotelInfo (Ok Samples.hotel_info_plain))) /\
  (failure_indicated Samples.search_flagged = true /\
   exists found, Aoryx.search Samples.params (Ok Samples.search_flagged) = Ok found).
Proof.
  split; split.
  - reflexivity.
  - unfold Throws. do 3 eexists. reflexivity.
  - reflexivity.
  - eexists. reflexivity.
Qed.

(** C7, amended: on a vendor response (an object), each operation throws its
    vendor error exactly under its own test of the response: [search] throws
    [SEARCH_ERROR] iff [IsSuccess] is falsy and [ExceptionMessage] is truthy;
    [roomDetails] throws [ROOM_DETAILS_ERROR] iff [IsSuccess] is [false];
    [hotelInfo] throws [HOTEL_INFO_ERROR] and [hotelsInfoByDestinationId]
    throws [HOTELS_INFO_ERROR] iff [IsSuccess] is falsy, an absent flag
    included. *)
Theorem C7_vendor_errors : forall response,
  is_nullish response = false ->
  (forall params,
     Aoryx.validateSearchParams params = Ok tt ->
     (Throws "SEARCH_ERROR" (Aoryx.search params (Ok response)) <->
      truthy (prop response "IsSuccess") = false /\
      truthy (prop response "ExceptionMessage") = true)) /\
  (forall params searchRequest found,
     Aoryx.validateSearchParams params = Ok tt ->
     Aoryx.missing (AoryxSearchParams.hotelCode params) = false ->
     Aoryx.search params searchRequest = Ok found ->
     (Throws "ROOM_DETAILS_ERROR" (Aoryx.roomDetails params searchRequest (Ok response)) <->
      prop response "IsSuccess" = VBool false)) /\
  (Throws "HOTEL_INFO_ERROR" (Aoryx.hotelInfo (Ok response)) <->
   truthy (prop response "IsSuccess") = false) /\
  (Throws "HOTELS_INFO_ERROR" (Aoryx.hotelsInfoByDestinationId (Ok response)) <->
   truthy (prop response "IsSuccess") = false).
Proof.
  intros response H. split; [|split; [|split]].
  - intros params Hvalid. rewrite (search_valid _ _ Hvalid). cbn [bind].
    rewrite (search_response_unfold _ H). unfold vendor_failed.
    destruct (truthy (prop response "IsSuccess")); cbn [negb andb].
    + split; [|intros [Hf _]; discriminate].
      intros Ht. exfalso. revert Ht.
      destruct (Aoryx.extractSessionId _) as [sid|e] eqn:Es; cbn [bind].
      * destruct (mapM _ _) as [hotels|e] eqn:Eh; cbn [bind].
        -- apply Throws_Ok.
        -- rewrite (hotels_throw _ _ Eh). apply Throws_TypeError.
      * rewrite (extractSessionId_throws _ _ Es).
        intros [m [sc [er Ht]]]. discriminate.
    + destruct (truthy (prop response "ExceptionMessage")).
      * split; [intros _; split; reflexivity|].
        intros _. unfold Throws. do 3 eexists. reflexivity.
      * split; [|intros [_ Hf]; discriminate].
        intros Ht. exfalso. revert Ht.
        destruct (Aoryx.extractSessionId _) as [sid|e] eqn:Es; cbn [bind].
        -- destruct (mapM _ _) as [hotels|e] eqn:Eh; cbn [bind].
           ++ apply Throws_Ok.
           ++ rewrite (hotels_throw _ _ Eh). apply Throws_TypeError.
        -- rewrite (extractSessionId_throws _ _ Es).
           intros [m [sc [er Ht]]]. discriminate.
  - intros params searchRequest found Hvalid Hcode Hsearch.
    rewrite (roomDetails_after_search _ _ _ _ Hvalid Hcode Hsearch). cbn [bind].
    destruct (roomDetails_response_spec _ H) as [[Hf ->]|[Hf [options ->]]].
    + split; [intros _; exact Hf|].
      intros _. unfold Throws. do 3 eexists. reflexivity.
    + split; [|intros Hc; contradiction].
      intros Ht. exfalso. exact (Throws_Ok _ _ _ Ht).
  - unfold Aoryx.hotelInfo. cbn [bind].
    destruct (hotelInfo_response_spec _ H) as [[Hf ->]|[Ht [info ->]]].
    + split; [intros _; exact Hf|].
      intros _. unfold Throws. do 3 eexists. reflexivity.
    + rewrite Ht. split; [|discriminate].
      intros Hc. exfalso. exact (Throws_Ok _ _ _ Hc).
  - unfold Aoryx.hotelsInfoByDestinationId. cbn [bind].
    destruct (hotelsInfo_response_spec _ H) as [[Hf ->]|[Ht [[hotels ->]| ->]]].
    + split; [intros _; exact Hf|].
      intros _. unfold Throws. do 3 eexists. reflexivity.
    + rewrite Ht. split; [|discriminate].
      intros Hc. exfalso. exact (Throws_Ok _ _ _ Hc).
    + rewrite Ht. split; [|discriminate].
      intros Hc. exfalso. exact (Throws_TypeError _ _ Hc).
Qed.

(** An instance of C7: a response with the failure flag and a message makes
    [search] throw [SEARCH_ERROR], and makes [roomDetails] throw
    [ROOM_DETAILS_ERROR] after a search that succeeded. *)
Lemma C7_vendor_errors_witness :
  Throws "SEARCH_ERROR" (Aoryx.search Samples.params (Ok Samples.failed_response)) /\
  Throws "ROOM_DETAILS_ERROR"
    (Aoryx.roomDetails Samples.room_params
       (Ok (Samples.search_response_of (VStr "S1") Samples.hotel))
       (Ok Samples.failed_response)).
Proof.
  split.
  - apply (proj1 (C7_vendor_errors Samples.failed_response eq_refl) Samples.params eq_refl).
    split; reflexivity.
  - eapply (proj1 (proj2 (C7_vendor_errors Samples.failed_response eq_refl))
              Samples.room_params
              (Ok (Samples.search_response_of (VStr "S1") Samples.hotel))).
    + reflexivity.
    + reflexivity.
    + reflexivity.
    + reflexivity.
Defined.

(** ** C3: the favourites toggle *)

Lemma matches_key : forall user code d,
  Favorites.matches user code d = true <-> key_of d = (user, code).
Proof.
  intros user code d. unfold Favorites.matches, key_of.
  rewrite andb_true_iff, !String.eqb_eq. split.
  - intros [-> ->]. reflexivity.
  - intros H. injection H as -> ->. split; reflexivity.
Qed.

Lemma present_In : forall user code c,
  Favorites.present user code c = true <-> In (user, code) (map key_of (Favorites.docs c)).
Proof.
  intros user code c. unfold Favorites.present.
  rewrite existsb_exists, in_map_iff. split.
  - intros [d [Hin Hm]]. exists d. split; [apply matches_key, Hm | exact Hin].
  - intros [d [Hk Hin]]. exists d. split; [exact Hin | apply matches_key, Hk].
Qed.

Lemma present_docs : forall user code c c',
  (In (user, code) (map key_of (Favorites.docs c')) <->
   In (user, code) (map key_of (Favorites.docs c))) ->
  Favorites.present user code c' = Favorites.present user code c.
Proof.
  intros user code c c' H.
  destruct (Favorites.present user code c) eqn:E.
  - apply present_In, H, present_In, E.
  - destruct (Favorites.present user code c') eqn:E'; [|reflexivity].
    apply present_In, H, present_In in E'. congruence.
Qed.

(** Deleting, by its identifier, the document that [findOne] returned. *)
Lemma remove_found : forall user code existing l,
  NoDup (map Favorites._id l) ->
  NoDup (map key_of l) ->
  find (Favorites.matches user code) l = Some existing ->
  let l' := Favorites.remove_first
              (fun d => Nat.eqb (Favorites._id d) (Favorites._id existing)) l in
  ~ In (user, code) (map key_of l') /\
  (forall k, k <> (user, code) -> (In k (map key_of l') <-> In k (map key_of l))) /\
  NoDup (map Favorites._id l') /\
  NoDup (map key_of l') /\
  (forall d, In d l' -> In d l).
Proof.
  intros user code existing l. induction l as [|d l IH]; intros Hid Hkey Hfind.
  - discriminate.
  - simpl in Hfind. inversion Hid as [|? ? Hd_id Hid']; subst.
    inversion Hkey as [|? ? Hd_key Hkey']; subst.
    destruct (Favorites.matches user code d) eqn:Em.
    + injection Hfind as <-. simpl. rewrite Nat.eqb_refl.
      apply matches_key in Em. rewrite <- Em.
      repeat split; try assumption.
      * intros Hin. simpl. right. exact Hin.
      * intros [Hd|Hin]; [congruence | exact Hin].
      * intros d' Hin. right. exact Hin.
    + assert (Hex : In existing l) by (apply find_some in Hfind; tauto).
      assert (Hne : Nat.eqb (Favorites._id d) (Favorites._id existing) = false).
      { apply Nat.eqb_neq. intros Heq. apply Hd_id. rewrite Heq.
        apply in_map, Hex. }
      simpl. rewrite Hne.
      destruct (IH Hid' Hkey' Hfind) as [Hgone [Hother [Hid2 [Hkey2 Hsub]]]].
      assert (Hdk : key_of d <> (user, code)).
      { intros Hk. apply matches_key in Hk. congruence. }
      repeat split.
      * simpl. intros [Hk|Hin]; [exact (Hdk Hk) | exact (Hgone Hin)].
      * simpl. intros [Hk|Hin]; [left; exact Hk | right; apply (Hother k H), Hin].
      * simpl. intros [Hk|Hin]; [left; exact Hk | right; apply (Hother k H), Hin].
      * simpl. constructor; [|exact Hid2].
        intros Hin. apply Hd_id. apply in_map_iff in Hin.
        destruct Hin as [x [Hx Hin]]. rewrite <- Hx. apply in_map, Hsub, Hin.
      * simpl. constructor; [|exact Hkey2].
        intros Hin. apply Hd_key. apply in_map_iff in Hin.
        destruct Hin as [x [Hx Hin]]. rewrite <- Hx. apply in_map, Hsub, Hin.
      * intros d' [<-|Hin]; [left; reflexivity | right; apply Hsub, Hin].
Qed.

Lemma find_none_present : forall user code c,
  Favorites.findOne user code c = None -> Favorites.present user code c = false.
Proof.
  intros user code c H. unfold Favorites.present.
  destruct (existsb _ _) eqn:E; [|reflexivity].
  apply existsb_exists in E. destruct E as [d [Hin Hm]].
  unfold Favorites.findOne in H. rewrite (find_none _ _ H d Hin) in Hm. discriminate.
Qed.

Lemma find_some_present : forall user code c d,
  Favorites.findOne user code c = Some d -> Favorites.present user code c = true.
Proof.
  intros user code c d H. unfold Favorites.findOne in H. apply find_some in H.
  unfold Favorites.present. apply existsb_exists. exists d. exact H.
Qed.

(** One [POST] of an authenticated user with a hotel code: it answers the
    opposite of the former presence, which is the new presence, touches no
    other key, and keeps the collection well formed. *)
Lemma POST_step : forall userId body code now c,
  JsString.nonempty userId = true ->
  Favorites.parseHotelCode (get_opt body "hotelCode") = Some code ->
  unique_keys c -> unique_ids c ->
  let user := JsString.trim userId in
  let c' := snd (Favorites.POST (Some userId) body now c) in
  fst (Favorites.POST (Some userId) body now c)
  = Favorites.IsFavorite (negb (Favorites.present user code c)) /\
  Favorites.present user code c' = negb (Favorites.present user code c) /\
  (forall user' code', (user', code') <> (user, code) ->
     Favorites.present user' code' c' = Favorites.present user' code' c) /\
  unique_keys c' /\ unique_ids c'.
Proof.
  intros userId body code now c Hu Hcode Hkeys [Hids Hlt] user c'.
  subst c'. unfold Favorites.POST. rewrite Hu, Hcode. cbn [negb]. fold user.
  destruct (Favorites.findOne user code c) as [existing|] eqn:Ef.
  - rewrite (find_some_present _ _ _ _ Ef). cbn [fst snd negb].
    destruct (remove_found user code existing (Favorites.docs c) Hids Hkeys Ef)
      as [Hgone [Hother [Hid2 [Hkey2 Hsub]]]].
    split; [reflexivity|]. split; [|split; [|split; [|split]]].
    + destruct (Favorites.present user code _) eqn:E; [|reflexivity].
      apply present_In in E. contradiction.
    + intros user' code' Hne. apply present_docs. apply Hother, Hne.
    + exact Hkey2.
    + exact Hid2.
    + apply Forall_forall. intros d Hin. rewrite Forall_forall in Hlt.
      apply Hlt, Hsub, Hin.
  - rewrite (find_none_present _ _ _ Ef). cbn [fst snd negb].
    unfold Favorites.updateOne_upsert.
    pose proof (find_none_present _ _ _ Ef) as Hp. unfold Favorites.present in Hp.
    rewrite Hp.
    assert (Hnot : ~ In (user, code) (map key_of (Favorites.docs c))).
    { intros Hin. apply present_In in Hin.
      rewrite (find_none_present _ _ _ Ef) in Hin. discriminate. }
    split; [reflexivity|]. split; [|split; [|split; [|split]]].
    + apply present_In. cbn [Favorites.docs]. rewrite map_app, in_app_iff.
      right. left. reflexivity.
    + intros user' code' Hne. apply present_docs. cbn [Favorites.docs].
      rewrite map_app, in_app_iff. split; [|tauto].
      intros [Hin|[Heq|[]]]; [exact Hin|].
      exfalso. apply Hne. symmetry. exact Heq.
    + unfold unique_keys. cbn [Favorites.docs]. rewrite map_app.
      apply NoDup_app; [exact Hkeys | |].
      * constructor; [intros [] | constructor].
      * intros k Hin [Heq|[]]. apply Hnot. cbn in Heq. subst k. exact Hin.
    + cbn [Favorites.docs]. rewrite map_app.
      apply NoDup_app; [exact Hids | |].
      * constructor; [intros [] | constructor].
      * intros i Hin [Heq|[]]. cbn in Heq. subst i.
        apply in_map_iff in Hin. destruct Hin as [d [Hd Hin]].
        rewrite Forall_forall in Hlt. specialize (Hlt d Hin). lia.
    + cbn [Favorites.docs Favorites.next_id]. apply Forall_app. split.
      * apply Forall_forall. intros d Hin. rewrite Forall_forall in Hlt.
        specialize (Hlt d Hin). lia.
      * constructor; [cbn; lia | constructor].
Qed.

(** C3: for an authenticated user and a hotel code, on a collection that
    holds at most one document per [(userIdString, hotelCode)], two
    successive POSTs answer [isFavorite] with the opposite of the original
    presence and then with the original presence; after each POST the answer
    equals the presence of the document in the collection; and after the
    second the presence of every key is what it was at the start. *)
Theorem C3_toggle_twice : forall userId body code now1 now2 c,
  JsString.nonempty userId = true ->
  Favorites.parseHotelCode (get_opt body "hotelCode") = Some code ->
  unique_keys c -> unique_ids c ->
  let user := JsString.trim userId in
  let first := Favorites.POST (Some userId) body now1 c in
  let second := Favorites.POST (Some userId) body now2 (snd first) in
  fst first = Favorites.IsFavorite (negb (Favorites.present user code c)) /\
  fst first = Favorites.IsFavorite (Favorites.present user code (snd first)) /\
  fst second = Favorites.IsFavorite (Favorites.present user code c) /\
  fst second = Favorites.IsFavorite (Favorites.present user code (snd second)) /\
  (forall user' code',
     Favorites.present user' code' (snd second) = Favorites.present user' code' c) /\
  unique_keys (snd second).
Proof.
  intros userId body code now1 now2 c Hu Hcode Hkeys Hids user first second.
  destruct (POST_step userId body code now1 c Hu Hcode Hkeys Hids)
    as [Hr1 [Hp1 [Ho1 [Hk1 Hi1]]]].
  fold user in Hr1, Hp1, Ho1. fold first in Hr1, Hp1, Ho1, Hk1, Hi1.
  destruct (POST_step userId body code now2 (snd first) Hu Hcode Hk1 Hi1)
    as [Hr2 [Hp2 [Ho2 [Hk2 Hi2]]]].
  fold user in Hr2, Hp2, Ho2. fold second in Hr2, Hp2, Ho2, Hk2.
  assert (Hback : Favorites.present user code (snd second)
                  = Favorites.present user code c).
  { rewrite Hp2, Hp1. apply negb_involutive. }
  split; [exact Hr1|]. split; [rewrite Hp1; exact Hr1|].
  split; [rewrite Hr2, Hp1, negb_involutive; reflexivity|].
  split; [rewrite Hback, Hr2, Hp1, negb_involutive; reflexivity|].
  split; [|exact Hk2].
  intros user' code'.
  destruct (string_dec user' user) as [->|Hne].
  - destruct (string_dec code' code) as [->|Hne].
    + exact Hback.
    + rewrite Ho2, Ho1; [reflexivity | congruence | congruence].
  - rewrite Ho2, Ho1; [reflexivity | congruence | congruence].
Qed.

(** An instance of C3: user ["u1"] toggles hotel ["H1"] twice in a
    collection where only another user has it. *)
Lemma C3_toggle_twice_witness :
  fst (Favorites.POST (Some "u1") Samples.favorite_body 20 Samples.favorites)
  = Favorites.IsFavorite true /\
  fst (Favorites.POST (Some "u1") Samples.favorite_body 21
         (snd (Favorites.POST (Some "u1") Samples.favorite_body 20 Samples.favorites)))
  = Favorites.IsFavorite false.
Proof.
  assert (Hkeys : unique_keys Samples.favorites).
  { unfold unique_keys. simpl. constructor; [intros [] | constructor]. }
  assert (Hids : unique_ids Samples.favorites).
  { split; simpl; repeat constructor. intros []. }
  destruct (C3_toggle_twice "u1" Samples.favorite_body "H1" 20 21 Samples.favorites
              eq_refl eq_refl Hkeys Hids)
    as [H1 [_ [H2 _]]].
  split; [exact H1 | exact H2].
Defined.

(** ** C6: entries without the sort field come last *)

Section SortPartition.
Variable A : Type.
Variable after : A -> A -> bool.
Variable has : A -> bool.

(** An entry without the field compares greater than one with it, and an
    entry with the field does not compare greater than one without. *)
Hypothesis missing_after_has :
  forall y x, has y = false -> has x = true -> after y x = true.
Hypothesis has_not_after_missing :
  forall y x, has y = true -> has x = false -> after y x = false.

Lemma insert_sorted_Forall : forall (P : A -> Prop) x l,
  P x -> Forall P l -> Forall P (insert_sorted after x l).
Proof.
  intros P x l Hx. induction l as [|y l IH]; intros Hl; simpl.
  - constructor; [exact Hx | constructor].
  - inversion Hl as [|? ? Hy Hl']; subst.
    destruct (after y x).
    + constructor; [exact Hx | exact Hl].
    + constructor; [exact Hy | apply IH, Hl'].
Qed.

Lemma insert_sorted_partitioned : forall x l,
  partitioned has l -> partitioned has (insert_sorted after x l).
Proof.
  intros x l [l1 [l2 [-> [H1 H2]]]].
  induction l1 as [|y l1 IH].
  - simpl. destruct (has x) eqn:Ex.
    + exists [x], l2. split; [|split; [repeat constructor; exact Ex | exact H2]].
      destruct l2 as [|y l2]; [reflexivity|].
      inversion H2 as [|? ? Hy _]; subst. simpl.
      rewrite (missing_after_has y x Hy Ex). reflexivity.
    + exists [], (insert_sorted after x l2).
      split; [reflexivity|]. split; [constructor|].
      apply insert_sorted_Forall; assumption.
  - inversion H1 as [|? ? Hy H1']; subst. simpl.
    destruct (after y x) eqn:Ea.
    + assert (Ex : has x = true).
      { destruct (has x) eqn:Ex; [reflexivity|].
        rewrite (has_not_after_missing y x Hy Ex) in Ea. discriminate. }
      exists (x :: y :: l1), l2. split; [reflexivity|].
      split; [constructor; [exact Ex | exact H1] | exact H2].
    + destruct (IH H1') as [k1 [k2 [Hk [Hk1 Hk2]]]].
      exists (y :: k1), k2. split; [simpl; rewrite Hk; reflexivity|].
      split; [constructor; assumption | exact Hk2].
Qed.

Lemma sort_partitioned : forall l, partitioned has (sort after l).
Proof.
  intros l. unfold sort.
  assert (H : forall acc, partitioned has acc ->
                partitioned has
                  (fold_left (fun sorted x => insert_sorted after x sorted) l acc)).
  { induction l as [|x l IH]; intros acc Hacc; simpl.
    - exact Hacc.
    - apply IH, insert_sorted_partitioned, Hacc. }
  apply H. exists [], []. repeat split; constructor.
Qed.

Lemma partitioned_nth : forall l i j a b,
  partitioned has l -> (i < j)%nat ->
  nth_error l i = Some a -> nth_error l j = Some b ->
  has a = false -> has b = false.
Proof.
  intros l i j a b [l1 [l2 [-> [H1 H2]]]] Hij Ha Hb Hmissing.
  destruct (Nat.lt_ge_cases i (List.length l1)) as [Hlt|Hge].
  - rewrite nth_error_app1 in Ha by exact Hlt.
    apply nth_error_In in Ha. rewrite Forall_forall in H1.
    rewrite (H1 a Ha) in Hmissing. discriminate.
  - rewrite nth_error_app2 in Hb by lia.
    apply nth_error_In in Hb. rewrite Forall_forall in H2. exact (H2 b Hb).
Qed.

End SortPartition.

Lemma insert_sorted_perm : forall (A : Type) (after : A -> A -> bool) x l,
  Permutation (x :: l) (insert_sorted after x l).
Proof.
  intros A after x l. induction l as [|y l IH]; simpl.
  - apply Permutation_refl.
  - destruct (after y x).
    + apply Permutation_refl.
    + apply Permutation_trans with (y :: x :: l); [apply perm_swap|].
      apply perm_skip, IH.
Qed.

(** [sort] rearranges the list and drops or adds nothing. *)
Lemma sort_perm : forall (A : Type) (after : A -> A -> bool) l,
  Permutation l (sort after l).
Proof.
  intros A after l. unfold sort.
  assert (H : forall acc,
             Permutation (acc ++ l)%list
               (fold_left (fun sorted x => insert_sorted after x sorted) l acc)).
  { induction l as [|x l IH]; intros acc; simpl.
    - rewrite app_nil_r. apply Permutation_refl.
    - eapply Permutation_trans; [|apply IH].
      apply Permutation_trans with ((x :: acc) ++ l)%list.
      + apply Permutation_sym, Permutation_middle.
      + apply Permutation_app_tail, insert_sorted_perm. }
  apply (H []).
Qed.

Lemma comparator_missing_has : forall sortBy y x,
  Results.has_sort_field sortBy y = false ->
  Results.has_sort_field sortBy x = true ->
  Results.comparator sortBy y x = of_Z 1.
Proof.
  intros sortBy y x. unfold Results.has_sort_field, Results.comparator.
  destruct (String.eqb sortBy "price-asc"); [|destruct (String.eqb sortBy "price-desc")];
    cbn [orb]; [| |destruct (String.eqb sortBy "rating-asc")];
    unfold Results.comparePrice, Results.compareRating;
    destruct (AoryxHotelSummary.minPrice y), (AoryxHotelSummary.minPrice x),
             (AoryxHotelSummary.rating y), (AoryxHotelSummary.rating x);
    intros Hy Hx; try discriminate; reflexivity.
Qed.

Lemma comparator_has_missing : forall sortBy y x,
  Results.has_sort_field sortBy y = true ->
  Results.has_sort_field sortBy x = false ->
  Results.comparator sortBy y x = of_Z (-1).
Proof.
  intros sortBy y x. unfold Results.has_sort_field, Results.comparator.
  destruct (String.eqb sortBy "price-asc"); [|destruct (String.eqb sortBy "price-desc")];
    cbn [orb]; [| |destruct (String.eqb sortBy "rating-asc")];
    unfold Results.comparePrice, Results.compareRating;
    destruct (AoryxHotelSummary.minPrice y), (AoryxHotelSummary.minPrice x),
             (AoryxHotelSummary.rating y), (AoryxHotelSummary.rating x);
    intros Hy Hx; try discriminate; reflexivity.
Qed.

(** Whatever the sort algorithm, a list in which no entry compares greater
    than a later one has the entries without the sort field last. *)
Lemma ordered_missing_last : forall sortBy l,
  (forall i j a b, (i < j)%nat -> nth_error l i = Some a -> nth_error l j = Some b ->
     ltb (of_Z 0) (Results.comparator sortBy a b) = false) ->
  missing_last sortBy l.
Proof.
  intros sortBy l Hord i j a b Hij Ha Hb Hmissing.
  destruct (Results.has_sort_field sortBy b) eqn:Eb; [|reflexivity].
  specialize (Hord i j a b Hij Ha Hb).
  rewrite (comparator_missing_has sortBy a b Hmissing Eb) in Hord. discriminate.
Qed.

(** C6: for every [sortBy] (["price-asc"] and ["price-desc"] order by
    [minPrice], ["rating-asc"] and the default by [rating]), the sorted list
    is a rearrangement of the hotels in which no entry without the sort
    field stands before an entry with it. *)
Theorem C6_missing_sort_field_last : forall sortBy hotels,
  Permutation hotels (Results.sortHotels sortBy hotels) /\
  missing_last sortBy (Results.sortHotels sortBy hotels).
Proof.
  intros sortBy hotels. split; [apply sort_perm|].
  intros i j a b Hij Ha Hb Hmissing.
  apply (partitioned_nth _ (Results.has_sort_field sortBy)
           (Results.sortHotels sortBy hotels) i j a b); try assumption.
  apply sort_partitioned.
  - intros y x Hy Hx. rewrite (comparator_missing_has sortBy y x Hy Hx). reflexivity.
  - intros y x Hy Hx. rewrite (comparator_has_missing sortBy y x Hy Hx). reflexivity.
Qed.

(** ** C5: the fallback scan for room items *)

(** Induction over a value and the values inside it. *)
Lemma value_nested_ind : forall P : value -> Prop,
  P VUndefined -> P VNull -> (forall b, P (VBool b)) -> (forall n, P (VNum n)) ->
  (forall s, P (VStr s)) ->
  (forall items, Forall P items -> P (VArr items)) ->
  (forall fields, Forall (fun kv => P (snd kv)) fields -> P (VObj fields)) ->
  forall v, P v.
Proof.
  intros P Hu Hn Hb Hnum Hs Harr Hobj.
  fix IH 1. intros v. destruct v as [| |b|n|s|items|fields].
  - exact Hu.
  - exact Hn.
  - apply Hb.
  - apply Hnum.
  - apply Hs.
  - apply Harr. induction items as [|item items IHitems].
    + constructor.
    + constructor; [apply IH | exact IHitems].
  - apply Hobj. induction fields as [|[k v] fields IHfields].
    + constructor.
    + constructor; [apply IH | exact IHfields].
Qed.

Lemma visit_array : forall items,
  Aoryx.visit (VArr items)
  = ((match filter_records items with
      | [] => []
      | _ :: _ =>
          if existsb Aoryx.hasRoomSignature (filter_records items)
          then [filter_records items] else []
      end) ++ flat_map Aoryx.visit items)%list.
Proof. reflexivity. Qed.

Lemma visit_object : forall fields,
  Aoryx.visit (VObj fields) = flat_map (fun kv => Aoryx.visit (snd kv)) fields.
Proof. reflexivity. Qed.

(** Every room-like array inside the value is a candidate. *)
Lemma visit_complete : forall v items,
  nested v (VArr items) -> room_like items -> In (filter_records items) (Aoryx.visit v).
Proof.
  intros v items Hnested [Hne Hsig].
  remember (VArr items) as d eqn:Ed.
  induction Hnested as [v|items0 item d Hin Hnested IH|fields key v d Hin Hnested IH].
  - subst v. rewrite visit_array. apply in_or_app. left.
    destruct (filter_records items) as [|r rs] eqn:E; [contradiction|].
    rewrite Hsig. left. reflexivity.
  - rewrite visit_array. apply in_or_app. right.
    apply in_flat_map. exists item. split; [exact Hin | apply IH, Ed].
  - rewrite visit_object. apply in_flat_map.
    exists (key, v). split; [exact Hin | apply IH, Ed].
Qed.

(** Every candidate is the record list of a room-like array inside the
    value. *)
Lemma visit_sound : forall v c,
  In c (Aoryx.visit v) ->
  exists items, nested v (VArr items) /\ room_like items /\ c = filter_records items.
Proof.
  intros v. induction v as [| |b|n|s|items IH|fields IH] using value_nested_ind;
    intros c Hin; try contradiction.
  - rewrite visit_array in Hin. apply in_app_or in Hin. destruct Hin as [Hin|Hin].
    + destruct (filter_records items) as [|r rs] eqn:E; [contradiction|].
      destruct (existsb Aoryx.hasRoomSignature (r :: rs)) eqn:Es; [|contradiction].
      destruct Hin as [<-|[]].
      exists items. split; [apply nested_here|]. split; [|symmetry; exact E].
      unfold room_like. rewrite E. split; [discriminate | exact Es].
    + apply in_flat_map in Hin. destruct Hin as [item [Hitem Hin]].
      rewrite Forall_forall in IH.
      destruct (IH item Hitem c Hin) as [items' [Hn [Hr Hc]]].
      exists items'. split; [|split; assumption].
      exact (nested_item items item (VArr items') Hitem Hn).
  - rewrite visit_object in Hin. apply in_flat_map in Hin.
    destruct Hin as [[k v] [Hkv Hin]]. rewrite Forall_forall in IH.
    destruct (IH (k, v) Hkv c Hin) as [items' [Hn [Hr Hc]]].
    exists items'. split; [|split; assumption].
    exact (nested_field fields k v (VArr items') Hkv Hn).
Qed.

(** Sorting by descending length puts the first of the longest lists in
    front. *)
Lemma sort_by_length_head : forall (A : Type) (candidates : list (list A)),
  candidates <> [] ->
  exists best rest,
    sort (fun a b => (List.length a <? List.length b)%nat) candidates = best :: rest /\
    first_longest candidates best.
Proof.
  intros A candidates Hne. unfold sort.
  set (after := fun a b : list A => (List.length a <? List.length b)%nat).
  assert (H : forall l seen acc,
             match acc with
             | [] => seen = []
             | best :: _ => first_longest seen best
             end ->
             match fold_left (fun sorted x => insert_sorted after x sorted) l acc with
             | [] => (seen ++ l)%list = []
             | best :: _ => first_longest (seen ++ l)%list best
             end).
  { induction l as [|x l IH]; intros seen acc Hacc; simpl.
    - rewrite app_nil_r. exact Hacc.
    - replace (seen ++ x :: l)%list with ((seen ++ [x]) ++ l)%list
        by (rewrite <- app_assoc; reflexivity).
      apply IH. destruct acc as [|h t].
      + subst seen. simpl. exists [], []. split; [reflexivity|].
        split; intros c [].
      + destruct Hacc as [before [behind [-> [Hb Ha]]]]. simpl. unfold after at 1.
        destruct (List.length h <? List.length x)%nat eqn:E.
        * apply Nat.ltb_lt in E. exists (before ++ h :: behind)%list, [].
          split; [reflexivity|]. split; [|intros c []].
          intros c Hin. apply in_app_or in Hin. destruct Hin as [Hin|[<-|Hin]].
          -- specialize (Hb c Hin). lia.
          -- exact E.
          -- specialize (Ha c Hin). lia.
        * apply Nat.ltb_ge in E. exists before, (behind ++ [x])%list.
          split; [rewrite <- app_assoc; reflexivity|]. split; [exact Hb|].
          intros c Hin. apply in_app_or in Hin. destruct Hin as [Hin|[<-|[]]].
          -- exact (Ha c Hin).
          -- exact E. }
  specialize (H candidates [] [] eq_refl). simpl in H.
  destruct (fold_left _ candidates []) as [|best rest].
  - contradiction.
  - exists best, rest. split; [reflexivity | exact H].
Qed.

Lemma findRoomCandidates_first_longest : forall v,
  Aoryx.visit v <> [] -> first_longest (Aoryx.visit v) (Aoryx.findRoomCandidates v).
Proof.
  intros v Hne. unfold Aoryx.findRoomCandidates.
  destruct (sort_by_length_head _ (Aoryx.visit v) Hne) as [best [rest [Hs Hbest]]].
  destruct (Aoryx.visit v) as [|c cs] eqn:E; [contradiction|].
  rewrite Hs. exact Hbest.
Qed.

Lemma first_longest_max : forall (A : Type) (candidates : list (list A)) best,
  first_longest candidates best ->
  In best candidates /\
  forall c, In c candidates -> (List.length c <= List.length best)%nat.
Proof.
  intros A candidates best [before [behind [-> [Hb Ha]]]]. split.
  - apply in_or_app. right. left. reflexivity.
  - intros c Hin. apply in_app_or in Hin. destruct Hin as [Hin|[<-|Hin]].
    + specialize (Hb c Hin). lia.
    + lia.
    + exact (Ha c Hin).
Qed.

Lemma room_sources_known : forall response,
  is_nullish response = false ->
  Aoryx.room_sources response = Ok (known_sources response).
Proof.
  intros response H. unfold Aoryx.room_sources, known_sources.
  rewrite !(get_ok _ _ H). cbn [bind].
  destruct (isRecord (prop response "Rooms")) eqn:E.
  - rewrite (get_ok _ _ (isRecord_not_nullish _ E)). reflexivity.
  - reflexivity.
Qed.

(** A record has the room signature when one of its keys, in lower case,
    contains [room], [rate], [board], [meal] or [refundable]. *)
Lemma hasRoomSignature_iff : forall record,
  Aoryx.hasRoomSignature record = true <->
  exists key word,
    In key (map fst record) /\
    In word ["room"; "rate"; "board"; "meal"; "refundable"] /\
    JsString.includes (JsString.toLowerCase key) word = true.
Proof.
  intros record. unfold Aoryx.hasRoomSignature. rewrite existsb_exists. split.
  - intros [key [Hin H]]. rewrite !orb_true_iff in H. exists key.
    destruct H as [[[[H|H]|H]|H]|H]; eexists; (split; [exact Hin|]);
      (split; [|exact H]); simpl; tauto.
  - intros [key [word [Hin [Hw H]]]]. exists key. split; [exact Hin|].
    rewrite !orb_true_iff. simpl in Hw.
    destruct Hw as [<-|[<-|[<-|[<-|[<-|[]]]]]]; tauto.
Qed.

(** C5: when no known source of the room-details response yields a record
    and some array inside the response holds objects of which one has a
    room-like key, [normalizeRoomOptions] returns the normalisation of the
    records of such an array: the first, in scan order, of those with the
    most records.  The options are as many as the records of that array,
    at least one, and no room-like array of the response has more. *)
Theorem C5_fallback_scanner : forall response items,
  is_nullish response = false ->
  known_rooms response = [] ->
  nested response (VArr items) ->
  room_like items ->
  exists found,
    nested response (VArr found) /\ room_like found /\
    first_longest (Aoryx.visit response) (filter_records found) /\
    (forall other, nested response (VArr other) -> room_like other ->
       (List.length (filter_records other) <= List.length (filter_records found))%nat) /\
    Aoryx.normalizeRoomOptions response
    = Ok (Aoryx.map_indexed Aoryx.normalizeRoom 0 (filter_records found)) /\
    exists options,
      Aoryx.normalizeRoomOptions response = Ok options /\
      List.length options = List.length (filter_records found) /\
      (0 < List.length options)%nat.
Proof.
  intros response items Hresp Hknown Hnested Hlike.
  pose proof (visit_complete _ _ Hnested Hlike) as Hin.
  assert (Hne : Aoryx.visit response <> []).
  { intros E. rewrite E in Hin. contradiction. }
  pose proof (findRoomCandidates_first_longest _ Hne) as Hfirst.
  destruct (first_longest_max _ _ _ Hfirst) as [Hbest Hmax].
  destruct (visit_sound _ _ Hbest) as [found [Hn [Hl Hc]]].
  assert (Hnorm : Aoryx.normalizeRoomOptions response
                  = Ok (Aoryx.map_indexed Aoryx.normalizeRoom 0 (filter_records found))).
  { unfold Aoryx.normalizeRoomOptions, Aoryx.resolvedRoomItems.
    rewrite (room_sources_known _ Hresp). cbn [bind].
    fold (known_rooms response). rewrite Hknown, Hc. reflexivity. }
  rewrite Hc in Hfirst, Hmax.
  exists found.
  split; [exact Hn|]. split; [exact Hl|]. split; [exact Hfirst|]. split; [|split].
  - intros other Ho Hlo. apply Hmax, visit_complete; assumption.
  - exact Hnorm.
  - exists (Aoryx.map_indexed Aoryx.normalizeRoom 0 (filter_records found)).
    split; [exact Hnorm|]. rewrite map_indexed_length. split; [reflexivity|].
    destruct Hl as [Hl _]. destruct (filter_records found); [contradiction | simpl; lia].
Qed.

(** An instance of C5: the rooms of the sample response are found under
    [Data.Options]. *)
Lemma C5_fallback_scanner_witness :
  exists found,
    nested Samples.fallback_response (VArr found) /\ room_like found /\
    Aoryx.normalizeRoomOptions Samples.fallback_response
    = Ok (Aoryx.map_indexed Aoryx.normalizeRoom 0 (filter_records found)).
Proof.
  assert (Hnested : nested Samples.fallback_response (VArr Samples.fallback_options)).
  { apply nested_field with (key := "Data")
      (v := VObj [("Extras", VArr [VObj [("MealPlan", VStr "BB")]]);
                  ("Options", VArr Samples.fallback_options)]).
    - right. left. reflexivity.
    - apply nested_field with (key := "Options") (v := VArr Samples.fallback_options).
      + right. left. reflexivity.
      + apply nested_here. }
  assert (Hlike : room_like Samples.fallback_options).
  { split; [discriminate | reflexivity]. }
  destruct (C5_fallback_scanner Samples.fallback_response Samples.fallback_options
              eq_refl eq_refl Hnested Hlike)
    as [found [Hn [Hl [_ [_ [Hnorm _]]]]]].
  exists found. split; [exact Hn|]. split; [exact Hl | exact Hnorm].
Defined.

(** The sample response gets the two options of [Data.Options]. *)
Example fallback_response_options :
  option_map (map AoryxRoomOption.name)
    (match Aoryx.normalizeRoomOptions Samples.fallback_response with
     | Ok options => Some options
     | Throw _ => None
     end) = Some [Some "Deluxe"; None].
Proof. vm_compute. reflexivity. Qed.

(** ** C9: the limit of the favourites list *)

(** Comparing the other way round gives the opposite answer. *)
Lemma SFcompare_antisym : forall x y,
  SFcompare y x = option_map CompOpp (SFcompare x y).
Proof.
  intros [sx|sx| |sx mx ex] [sy|sy| |sy my ey]; simpl; try reflexivity;
    try (destruct sx; reflexivity); try (destruct sy; reflexivity);
    try (destruct sx, sy; reflexivity).
  destruct sx, sy; simpl; try reflexivity.
  - rewrite (Z.compare_antisym ex ey). destruct (ex ?= ey); simpl; try reflexivity.
    rewrite CompOpp_involutive. f_equal. exact (Pos.compare_cont_antisym my mx Eq).
  - rewrite (Z.compare_antisym ex ey). destruct (ex ?= ey); simpl; try reflexivity.
    f_equal. symmetry. exact (Pos.compare_cont_antisym mx my Eq).
Qed.

Lemma SFcompare_finite : forall s m e y,
  isFinite y = true ->
  exists c, SFcompare (S754_finite s m e) y = Some c.
Proof. intros s m e [sy|sy| |sy my ey] H; try discriminate; simpl; eauto. Qed.

(** The bounds 1 and 48 of [clampLimit]. *)
Lemma limit_bounds :
  isFinite (of_Z 1) = true /\ isNaN (of_Z 1) = false /\
  JsNumber.min (of_Z 1) (of_Z 48) = of_Z 1 /\
  leb (of_Z 1) (of_Z 1) = true /\ leb (of_Z 1) (of_Z 48) = true /\
  isFinite (of_Z 48) = true /\ isNaN (of_Z 48) = false /\
  leb (of_Z 48) (of_Z 48) = true.
Proof. vm_compute. repeat split. Qed.

(** [clampLimit] brings every finite number into [1, 48]. *)
Lemma clampLimit_range : forall v,
  isFinite v = true ->
  leb (of_Z 1) (Favorites.clampLimit v (of_Z 1) (of_Z 48)) = true /\
  leb (Favorites.clampLimit v (of_Z 1) (of_Z 48)) (of_Z 48) = true.
Proof.
  intros v Hfin. unfold Favorites.clampLimit.
  destruct v as [s|s| |s m e]; try discriminate.
  - destruct s; vm_compute; split; reflexivity.
  - destruct limit_bounds as [F1 [N1 [M1 [L11 [L148 [F48 [N48 L4848]]]]]]].
    set (one := of_Z 1) in *. set (top := of_Z 48) in *.
    clearbody one top.
    destruct (SFcompare_finite s m e one F1) as [c1 H1].
    destruct (SFcompare_finite s m e top F48) as [c48 H48].
    assert (Nx : isNaN (S754_finite s m e) = false) by reflexivity.
    assert (Zx : is_neg_zero (S754_finite s m e) = false) by reflexivity.
    set (x := S754_finite s m e) in *. clearbody x.
    assert (Hmax : JsNumber.max x one = one \/
                   (JsNumber.max x one = x /\ leb one x = true)).
    { unfold JsNumber.max, ltb, leb, SFltb, SFleb. rewrite Nx, N1, Zx.
      rewrite (SFcompare_antisym x one), H1.
      destruct c1; cbn; auto. }
    destruct Hmax as [->|[-> Hge]].
    + rewrite M1. split; assumption.
    + unfold JsNumber.min, ltb, SFltb. rewrite Nx, N48, Zx.
      rewrite (SFcompare_antisym x top), H48.
      destruct c48; cbn.
      * split; assumption.
      * split; [exact Hge|]. unfold leb, SFleb. rewrite H48. reflexivity.
      * split; assumption.
Qed.

(** The limit that GET asks of the storage is at least 1 and at most 48. *)
Lemma limit_range : forall limitParam,
  leb (of_Z 1) (Favorites.limit limitParam) = true /\
  leb (Favorites.limit limitParam) (of_Z 48) = true.
Proof.
  intros limitParam. unfold Favorites.limit.
  destruct (isFinite (Favorites.rawLimit limitParam)) eqn:E.
  - apply clampLimit_range, E.
  - apply clampLimit_range. reflexivity.
Qed.

(** C9, at the failing input: with no [limit] parameter, [Number(null)] is
    0, which is finite, so the default 24 is not taken and the limit is
    clamped to 1.  The empty parameter behaves alike; a parameter that is
    no number gives 24, and numbers are clamped into [1, 48]. *)
Theorem C9_limit_of_missing_parameter :
  Favorites.limit None = of_Z 1 /\
  Favorites.limit None <> of_Z 24 /\
  Favorites.limit (Some "") = of_Z 1 /\
  Favorites.limit (Some "abc") = of_Z 24 /\
  Favorites.limit (Some "10") = of_Z 10 /\
  Favorites.limit (Some "100") = of_Z 48 /\
  Favorites.limit (Some "-3") = of_Z 1.
Proof. vm_compute. repeat split; discriminate. Qed.

(** * Further properties of the code *)

Import MoreProps.

(** ** Trimming *)

Lemma trimStart_shape : forall s,
  JsString.trimStart s = EmptyString \/
  exists c rest, JsString.trimStart s = String c rest /\ JsString.is_white_space c = false.
Proof.
  induction s as [|c s IH]; simpl.
  - left. reflexivity.
  - destruct (JsString.is_white_space c) eqn:E; [exact IH|].
    right. exists c, s. split; [reflexivity | exact E].
Qed.

Lemma trimEnd_head : forall c rest,
  JsString.trimEnd (String c rest) = EmptyString \/
  exists kept, JsString.trimEnd (String c rest) = String c kept.
Proof.
  intros c rest. simpl. destruct (JsString.trimEnd rest) as [|k kept].
  - destruct (JsString.is_white_space c); [left | right; exists EmptyString]; reflexivity.
  - right. exists (String k kept). reflexivity.
Qed.

(** A trimmed string is empty or starts with a character that is no white
    space. *)
Lemma trim_shape : forall s,
  JsString.trim s = EmptyString \/
  exists c rest, JsString.trim s = String c rest /\ JsString.is_white_space c = false.
Proof.
  intros s. unfold JsString.trim.
  destruct (trimStart_shape s) as [->|[c [rest [-> Hc]]]].
  - left. reflexivity.
  - destruct (trimEnd_head c rest) as [->|[kept ->]].
    + left. reflexivity.
    + right. exists c, kept. split; [reflexivity | exact Hc].
Qed.

Lemma trimEnd_idempotent : forall s,
  JsString.trimEnd (JsString.trimEnd s) = JsString.trimEnd s.
Proof.
  induction s as [|c s IH]; [reflexivity|].
  simpl. destruct (JsString.trimEnd s) as [|k kept] eqn:E.
  - destruct (JsString.is_white_space c) eqn:Ec; [reflexivity|].
    simpl. rewrite Ec. reflexivity.
  - change (JsString.trimEnd (String c (String k kept)))
      with (match JsString.trimEnd (String k kept) with
            | EmptyString =>
                if JsString.is_white_space c then EmptyString else String c EmptyString
            | kept' => String c kept'
            end).
    rewrite IH. reflexivity.
Qed.

(** [trim] changes nothing in a string that is already trimmed. *)
Lemma trim_idempotent : forall s, JsString.trim (JsString.trim s) = JsString.trim s.
Proof.
  intros s. destruct (trim_shape s) as [E|[c [rest [E Hc]]]].
  - rewrite E. reflexivity.
  - unfold JsString.trim at 1. rewrite E. simpl JsString.trimStart. rewrite Hc.
    rewrite <- E. unfold JsString.trim. apply trimEnd_idempotent.
Qed.

Lemma trimEnd_app : forall a b,
  JsString.trimEnd b = b -> b <> EmptyString ->
  JsString.trimEnd (a ++ b) = a ++ b.
Proof.
  intros a b Hb Hne. induction a as [|c a IH]; [exact Hb|].
  change (JsString.trimEnd (String c a ++ b))
    with (match JsString.trimEnd (a ++ b) with
          | EmptyString =>
              if JsString.is_white_space c then EmptyString else String c EmptyString
          | kept => String c kept
          end).
  rewrite IH. change (String c a ++ b) with (String c (a ++ b)).
  destruct (a ++ b) as [|k kept] eqn:E; [|reflexivity].
  destruct a; [simpl in E; contradiction | discriminate].
Qed.

(** Appending a suffix that is trimmed and not empty to a trimmed string
    that is not empty gives a trimmed string. *)
Lemma trim_app : forall a b,
  JsString.trim a = a -> a <> EmptyString ->
  JsString.trimEnd b = b -> b <> EmptyString ->
  JsString.trim (a ++ b) = a ++ b.
Proof.
  intros a b Ha Hne Hb Hbne.
  destruct (trim_shape a) as [E|[c [rest [E Hc]]]]; rewrite Ha in E.
  - contradiction.
  - subst a. unfold JsString.trim.
    change (String c rest ++ b) with (String c (rest ++ b)).
    cbn [JsString.trimStart]. rewrite Hc.
    change (String c (rest ++ b)) with (String c rest ++ b).
    apply trimEnd_app; assumption.
Qed.

Lemma includes_app_r : forall a b sub,
  JsString.includes b sub = true -> JsString.includes (a ++ b) sub = true.
Proof.
  intros a b sub H. induction a as [|c a IH]; [exact H|].
  change (JsString.includes (String c a ++ b) sub)
    with (prefix sub (String c (a ++ b)) || JsString.includes (a ++ b) sub).
  rewrite IH. apply orb_true_r.
Qed.

Lemma nonempty_true : forall s, JsString.nonempty s = true <-> s <> EmptyString.
Proof. intros [|c s]; simpl; split; intros H; try congruence; discriminate. Qed.

(** ** Dates and destination ids of the client *)

(** [normalizeDate] leaves an empty date and a date with a time part as
    they are and appends [T00:00:00] to every other date; so it is
    idempotent, and its result has a time part exactly when the date is not
    empty. *)
Theorem normalizeDate_idempotent : forall value,
  (value = EmptyString -> Aoryx.normalizeDate value = EmptyString) /\
  (JsString.includes value "T" = true -> Aoryx.normalizeDate value = value) /\
  (value <> EmptyString -> JsString.includes value "T" = false ->
   Aoryx.normalizeDate value = value ++ "T00:00:00") /\
  Aoryx.normalizeDate (Aoryx.normalizeDate value) = Aoryx.normalizeDate value /\
  JsString.includes (Aoryx.normalizeDate value) "T" = JsString.nonempty value.
Proof.
  intros value. unfold Aoryx.normalizeDate.
  destruct (JsString.nonempty value) eqn:En; cbn [negb].
  - assert (Hne : value <> EmptyString) by (apply nonempty_true, En).
    destruct (JsString.includes value "T") eqn:Ei.
    + rewrite En, Ei. cbn [negb].
      split; [intros H; contradiction|]. split; [reflexivity|].
      split; [intros _ H; discriminate H|]. split; reflexivity.
    + assert (Hi : JsString.includes (value ++ "T00:00:00") "T" = true).
      { apply includes_app_r. reflexivity. }
      rewrite Hi, (nonempty_app_l _ _ En). cbn [negb].
      split; [intros H; contradiction|]. split; [intros H; discriminate H|].
      split; [reflexivity|]. split; reflexivity.
  - rewrite En. cbn [negb].
    assert (He : value = EmptyString) by (destruct value; [reflexivity | discriminate]).
    split; [intros _; exact He|]. split; [reflexivity|].
    split; [intros H; contradiction|]. split; [reflexivity|].
    subst value. reflexivity.
Qed.

(** An instance: a date without a time part gets midnight appended, and the
    result is left as it is. *)
Lemma normalizeDate_idempotent_witness :
  Aoryx.normalizeDate "2026-01-10" = "2026-01-10T00:00:00" /\
  Aoryx.normalizeDate "2026-01-10T00:00:00" = "2026-01-10T00:00:00".
Proof.
  split.
  - apply (proj1 (proj2 (proj2 (normalizeDate_idempotent "2026-01-10")))).
    + discriminate.
    + reflexivity.
  - apply (proj1 (proj2 (normalizeDate_idempotent "2026-01-10T00:00:00"))).
    reflexivity.
Defined.

(** [normalizeParentDestinationId] returns [null] exactly for a missing id
    and for one that is blank after trimming.  Every other id gives its
    trimmed text when that contains a dash, and its trimmed text followed
    by [-0] when it does not; the id returned is trimmed, not empty,
    contains a dash, and is returned unchanged when it is passed in
    again. *)
Theorem normalizeParentDestinationId_result : forall rawId,
  (Aoryx.normalizeParentDestinationId rawId = None <->
   rawId = None \/ exists raw, rawId = Some raw /\ JsString.trim raw = EmptyString) /\
  (forall raw,
     rawId = Some raw -> JsString.trim raw <> EmptyString ->
     exists id,
       Aoryx.normalizeParentDestinationId rawId = Some id /\
       (JsString.includes (JsString.trim raw) "-" = true -> id = JsString.trim raw) /\
       (JsString.includes (JsString.trim raw) "-" = false ->
        id = JsString.trim raw ++ "-0") /\
       JsString.nonempty id = true /\
       JsString.includes id "-" = true /\
       JsString.trim id = id /\
       Aoryx.normalizeParentDestinationId (Some id) = Some id).
Proof.
  intros rawId.
  assert (Hfix : forall id,
            JsString.nonempty id = true -> JsString.includes id "-" = true ->
            JsString.trim id = id ->
            Aoryx.normalizeParentDestinationId (Some id) = Some id).
  { intros id Hne Hi Ht. unfold Aoryx.normalizeParentDestinationId.
    rewrite Hne. cbn [negb]. cbv zeta. rewrite Ht, Hne, Hi. reflexivity. }
  assert (Hblank : forall raw, JsString.trim raw = EmptyString ->
            Aoryx.normalizeParentDestinationId (Some raw) = None).
  { intros raw Ht. unfold Aoryx.normalizeParentDestinationId.
    destruct (JsString.nonempty raw); cbn [negb]; [|reflexivity].
    cbv zeta. rewrite Ht. reflexivity. }
  assert (Hsome : forall raw, JsString.trim raw <> EmptyString ->
            JsString.nonempty raw = true /\
            JsString.nonempty (JsString.trim raw) = true).
  { intros raw Ht. split.
    - destruct raw; [exfalso; apply Ht; reflexivity | reflexivity].
    - apply nonempty_true, Ht. }
  split.
  - split.
    + intros Hnone. destruct rawId as [raw|]; [|left; reflexivity].
      right. exists raw. split; [reflexivity|].
      destruct (JsString.trim raw) as [|c rest] eqn:Et; [reflexivity|].
      exfalso. destruct (Hsome raw) as [Hr Htr]; [rewrite Et; discriminate|].
      unfold Aoryx.normalizeParentDestinationId in Hnone.
      rewrite Hr in Hnone. cbn [negb] in Hnone. cbv zeta in Hnone.
      rewrite Htr in Hnone. cbn [negb] in Hnone.
      destruct (JsString.includes (JsString.trim raw) "-"); discriminate Hnone.
    + intros [->|[raw [-> Ht]]]; [reflexivity | exact (Hblank raw Ht)].
  - intros raw -> Ht. destruct (Hsome raw Ht) as [Hr Htr].
    unfold Aoryx.normalizeParentDestinationId at 1.
    rewrite Hr. cbn [negb]. cbv zeta. rewrite Htr. cbn [negb].
    destruct (JsString.includes (JsString.trim raw) "-") eqn:Ei.
    + exists (JsString.trim raw). split; [reflexivity|].
      split; [reflexivity|]. split; [intros H; discriminate H|].
      pose proof (trim_idempotent raw) as Hid.
      split; [exact Htr|]. split; [exact Ei|]. split; [exact Hid|].
      apply Hfix; assumption.
    + exists (JsString.trim raw ++ "-0"). split; [reflexivity|].
      split; [intros H; discriminate H|]. split; [reflexivity|].
      assert (Hne : JsString.nonempty (JsString.trim raw ++ "-0") = true)
        by (apply nonempty_app_l, Htr).
      assert (Hi : JsString.includes (JsString.trim raw ++ "-0") "-" = true)
        by (apply includes_app_r; reflexivity).
      assert (Htrim : JsString.trim (JsString.trim raw ++ "-0")
                      = JsString.trim raw ++ "-0").
      { apply trim_app.
        - apply trim_idempotent.
        - exact Ht.
        - reflexivity.
        - discriminate. }
      split; [exact Hne|]. split; [exact Hi|]. split; [exact Htrim|].
      apply Hfix; assumption.
Qed.

(** An instance: [" 160 "] becomes ["160-0"], which is returned as it is. *)
Lemma normalizeParentDestinationId_result_witness :
  Aoryx.normalizeParentDestinationId (Some " 160 ") = Some "160-0" /\
  Aoryx.normalizeParentDestinationId (Some "160-0") = Some "160-0".
Proof.
  destruct (proj2 (normalizeParentDestinationId_result (Some " 160 ")) " 160 "
              eq_refl ltac:(discriminate))
    as [id [Hid [_ [Hno [_ [_ [_ Hfix]]]]]]].
  rewrite (Hno eq_refl) in Hid, Hfix. split; [exact Hid | exact Hfix].
Defined.

(** ** What the conversions never return *)

(** [toStringValue] never returns an empty string, and the string it returns
    for a string is trimmed. *)
Theorem toStringValue_never_blank : forall v text,
  Aoryx.toStringValue v = Some text ->
  JsString.nonempty text = true /\
  (typeof v = "string" -> JsString.trim text = text).
Proof.
  intros v text H. split; [exact (toStringValue_nonempty _ _ H)|].
  intros Ht. destruct v; try discriminate Ht. simpl in H.
  destruct (JsString.nonempty (JsString.trim s)); [|discriminate].
  injection H as <-. apply trim_idempotent.
Qed.

(** An instance: ["  Ritz "] is returned as ["Ritz"]. *)
Lemma toStringValue_never_blank_witness :
  Aoryx.toStringValue (VStr "  Ritz ") = Some "Ritz" /\
  JsString.nonempty "Ritz" = true /\ JsString.trim "Ritz" = "Ritz".
Proof.
  destruct (toStringValue_never_blank (VStr "  Ritz ") "Ritz" eq_refl) as [H1 H2].
  split; [reflexivity|]. split; [exact H1 | exact (H2 eq_refl)].
Defined.

Lemma toNumber_finite : forall v n, Aoryx.toNumber v = Some n -> isFinite n = true.
Proof.
  intros v n H. destruct v; simpl in H; try discriminate.
  - destruct (isFinite n0) eqn:E; [|discriminate]. injection H as <-. exact E.
  - destruct (isFinite (parseFloat s)) eqn:E; [|discriminate]. injection H as <-. exact E.
Qed.

Lemma extractMoney_finite : forall v n,
  Aoryx.amount (Aoryx.extractMoney v) = Some n -> isFinite n = true.
Proof.
  intros v n H. destruct v; try discriminate H; exact (toNumber_finite _ _ H).
Qed.

Lemma first_price_finite : forall candidates n,
  fst (Aoryx.first_price candidates) = Some n -> isFinite n = true.
Proof.
  induction candidates as [|candidate rest IH]; intros n H; simpl in H.
  - discriminate.
  - destruct (Aoryx.amount (Aoryx.extractMoney candidate)) as [a|] eqn:E.
    + simpl in H. injection H as <-. exact (extractMoney_finite _ _ E).
    + apply IH, H.
Qed.

Lemma normalizeRoom_totalPrice : forall room index,
  AoryxRoomOption.totalPrice (Aoryx.normalizeRoom room index)
  = fst (Aoryx.first_price
           [field room "TotalPrice"; field room "TotalAmount"; field room "RoomRate";
            field room "NetRate"; field room "Price"; field room "NetPrice";
            field room "Amount"]).
Proof.
  intros room index. unfold Aoryx.normalizeRoom.
  destruct (Aoryx.first_price _) as [amount currency]. reflexivity.
Qed.

Lemma map_indexed_In : forall (A B : Type) (f : A -> nat -> B) items start b,
  In b (Aoryx.map_indexed f start items) -> exists a i, In a items /\ b = f a i.
Proof.
  intros A B f items. induction items as [|a items IH]; intros start b H; simpl in H.
  - contradiction.
  - destruct H as [<-|H].
    + exists a, start. split; [left; reflexivity | reflexivity].
    + destruct (IH _ _ H) as [a' [i [Hin Hb]]].
      exists a', i. split; [right; exact Hin | exact Hb].
Qed.

(** No number that the client hands on is [NaN] or an infinity: not a
    result of [toNumber], not the [totalPrice] of a room option, not the
    [minPrice] or [rating] of a hotel summary. *)
Theorem normalized_numbers_finite :
  (forall v n, Aoryx.toNumber v = Some n -> isFinite n = true) /\
  (forall response options option n,
     Aoryx.normalizeRoomOptions response = Ok options ->
     In option options ->
     AoryxRoomOption.totalPrice option = Some n -> isFinite n = true) /\
  (forall hotel currency summary n,
     Aoryx.normalizeSearchHotel hotel currency = Ok summary ->
     AoryxHotelSummary.minPrice summary = Some n \/
     AoryxHotelSummary.rating summary = Some n ->
     isFinite n = true).
Proof.
  split; [exact toNumber_finite|]. split.
  - intros response options option n Hok Hin Hn.
    unfold Aoryx.normalizeRoomOptions in Hok.
    destruct (Aoryx.resolvedRoomItems response) as [rooms|e]; [|discriminate].
    cbn [bind] in Hok. injection Hok as <-.
    apply map_indexed_In in Hin. destruct Hin as [room [i [_ ->]]].
    rewrite normalizeRoom_totalPrice in Hn. exact (first_price_finite _ _ Hn).
  - intros hotel currency summary n Hok Hn.
    destruct (is_nullish hotel) eqn:E.
    + unfold Aoryx.normalizeSearchHotel in Hok. rewrite (get_nullish _ _ E) in Hok.
      discriminate.
    + rewrite (normalizeSearchHotel_ok _ _ E) in Hok. injection Hok as <-.
      destruct Hn as [Hn|Hn]; exact (toNumber_finite _ _ Hn).
Qed.

(** An instance: the amount ["Infinity"] of a price is dropped, the amount
    ["80"] is kept. *)
Lemma normalized_numbers_finite_witness :
  Aoryx.toNumber (VStr "Infinity") = None /\
  Aoryx.toNumber (VStr "80") = Some (of_Z 80) /\ isFinite (of_Z 80) = true.
Proof.
  split; [reflexivity|]. split; [reflexivity|].
  exact (proj1 normalized_numbers_finite (VStr "80") (of_Z 80) eq_refl).
Defined.

Lemma filter_strings_nonempty : forall items,
  Forall (fun s => JsString.nonempty s = true) (Aoryx.filter_strings items).
Proof.
  induction items as [|[s|] items IH]; simpl.
  - constructor.
  - destruct (JsString.nonempty s) eqn:E; [constructor; assumption | exact IH].
  - exact IH.
Qed.

(** [extractCancellationPolicy] never returns an empty string: blank texts
    and arrays without a usable text give [null]. *)
Theorem extractCancellationPolicy_never_blank : forall v text,
  Aoryx.extractCancellationPolicy v = Some text -> JsString.nonempty text = true.
Proof.
  intros v text H. destruct v as [| |b|n|s|items|fields]; try discriminate H.
  - simpl in H. destruct (JsString.nonempty (JsString.trim s)) eqn:E; [|discriminate].
    injection H as <-. exact E.
  - change (Aoryx.extractCancellationPolicy (VArr items))
      with (match Aoryx.filter_strings (map Aoryx.extractCancellationPolicy items) with
            | [] => None
            | _ :: _ =>
                Some (String.concat " "
                        (Aoryx.filter_strings (map Aoryx.extractCancellationPolicy items)))
            end) in H.
    pose proof (filter_strings_nonempty (map Aoryx.extractCancellationPolicy items)) as Hall.
    destruct (Aoryx.filter_strings _) as [|p ps]; [discriminate|].
    injection H as <-. inversion Hall as [|? ? Hp _]; subst.
    destruct ps as [|q ps]; [exact Hp|].
    change (String.concat " " (p :: q :: ps))
      with (p ++ " " ++ String.concat " " (q :: ps)).
    apply nonempty_app_l, Hp.
  - exact (toStringValue_nonempty _ _ H).
Qed.

(** An instance: blank entries are skipped and the texts are joined. *)
Lemma extractCancellationPolicy_never_blank_witness :
  Aoryx.extractCancellationPolicy
    (VArr [VStr "  "; VObj [("Text", VStr " Free until 6 pm ")]; VStr "No refund after"])
  = Some "Free until 6 pm No refund after" /\
  JsString.nonempty "Free until 6 pm No refund after" = true.
Proof.
  split; [reflexivity|].
  exact (extractCancellationPolicy_never_blank
           (VArr [VStr "  "; VObj [("Text", VStr " Free until 6 pm ")];
                  VStr "No refund after"]) _ eq_refl).
Defined.

(** ** The result of a search *)

Lemma mapM_Forall2 : forall (A B : Type) (f : A -> result B) l bs,
  mapM f l = Ok bs -> Forall2 (fun a b => f a = Ok b) l bs.
Proof.
  intros A B f l. induction l as [|a l IH]; intros bs H; simpl in H.
  - injection H as <-. constructor.
  - destruct (f a) as [b|e] eqn:Ea; [|discriminate]. cbn [bind] in H.
    destruct (mapM f l) as [bs'|e]; [|discriminate]. cbn [bind] in H.
    injection H as <-. constructor; [exact Ea | apply IH; reflexivity].
Qed.

Lemma search_response_not_null : forall response found,
  Aoryx.search_response response = Ok found -> is_nullish response = false.
Proof.
  intros response found H. destruct (is_nullish response) eqn:E; [|reflexivity].
  unfold Aoryx.search_response in H. rewrite (get_nullish _ _ E) in H. discriminate.
Qed.

(** When [search] returns, the outcome of the exchange was a response, the
    result has one hotel for each entry of the response's hotel list, in
    order, and every hotel carries the currency of the result. *)
Theorem search_hotels_of_response : forall params request found,
  Aoryx.search params request = Ok found ->
  exists response,
    request = Ok response /\
    Forall2 (fun entry hotel =>
               Aoryx.normalizeSearchHotel entry (AoryxSearchResult.currency found)
               = Ok hotel)
            (hotels_array response) (AoryxSearchResult.hotels found) /\
    Forall (fun hotel =>
              AoryxHotelSummary.currency hotel = AoryxSearchResult.currency found)
           (AoryxSearchResult.hotels found).
Proof.
  intros params request found H. unfold Aoryx.search in H.
  destruct (Aoryx.validateSearchParams params) as [[]|e]; [|discriminate].
  cbn [bind] in H. destruct request as [response|e]; [|discriminate].
  cbn [bind] in H. exists response. split; [reflexivity|].
  pose proof (search_response_not_null _ _ H) as Hresp.
  rewrite (search_response_unfold _ Hresp) in H.
  destruct (vendor_failed response); [discriminate|].
  destruct (Aoryx.extractSessionId _) as [sid|e]; [|discriminate]. cbn [bind] in H.
  destruct (mapM _ (hotels_array response)) as [hotels|e] eqn:Eh; [|discriminate].
  cbn [bind] in H. injection H as <-. cbn [AoryxSearchResult.hotels AoryxSearchResult.currency].
  apply mapM_Forall2 in Eh. split; [exact Eh|].
  clear -Eh. induction Eh as [|entry hotel entries hotels Hn _ IH]; constructor.
  - destruct (is_nullish entry) eqn:E.
    + unfold Aoryx.normalizeSearchHotel in Hn. rewrite (get_nullish _ _ E) in Hn.
      discriminate.
    + rewrite (normalizeSearchHotel_ok _ _ E) in Hn. injection Hn as <-. reflexivity.
  - exact IH.
Qed.

(** An instance: the search over the sample hotel. *)
Lemma search_hotels_of_response_witness :
  exists found,
    Aoryx.search Samples.params
      (Ok (Samples.search_response_of (VStr "S1") (VArr [Samples.hotel; Samples.hotel])))
    = Ok found /\
    List.length (AoryxSearchResult.hotels found) = 2%nat.
Proof.
  eexists. split; [reflexivity|].
  destruct (search_hotels_of_response Samples.params
              (Ok (Samples.search_response_of (VStr "S1")
                     (VArr [Samples.hotel; Samples.hotel]))) _ eq_refl)
    as [response [Hr [H2 _]]].
  injection Hr as <-. apply Forall2_length in H2. symmetry. exact H2.
Defined.

(** ** The sources of the room list *)

(** The first known source wins: when [RoomDetails.RoomDetail] holds
    records, in an array or as a single object, the options are the
    normalisation of exactly those records, whatever [HotelRooms], [Rooms]
    and the rest of the response hold; entries that are no objects are
    dropped. *)
Theorem roomDetail_source_first : forall response rooms,
  is_nullish response = false ->
  filter_records
    (Aoryx.normalizeArray (get_opt (prop response "RoomDetails") "RoomDetail")) = rooms ->
  rooms <> [] ->
  Aoryx.normalizeRoomOptions response
  = Ok (Aoryx.map_indexed Aoryx.normalizeRoom 0 rooms).
Proof.
  intros response rooms Hresp Hrooms Hne.
  unfold Aoryx.normalizeRoomOptions, Aoryx.resolvedRoomItems.
  rewrite (room_sources_known _ Hresp). cbn [bind]. unfold known_sources.
  destruct rooms as [|r rooms]; [contradiction|].
  assert (H1 : Aoryx.pick_source [] (get_opt (prop response "RoomDetails") "RoomDetail")
               = r :: rooms).
  { unfold Aoryx.pick_source. rewrite Hrooms. reflexivity. }
  cbn [fold_left]. rewrite H1. reflexivity.
Qed.

(** An instance: a single room object under [RoomDetails.RoomDetail] next to
    a longer list under [HotelRooms.HotelRoom]. *)
Lemma roomDetail_source_first_witness :
  option_map (map AoryxRoomOption.id)
    (match Aoryx.normalizeRoomOptions
             (VObj [("HotelRooms",
                     VObj [("HotelRoom", VArr [VObj [("RoomCode", VStr "A")];
                                               VObj [("RoomCode", VStr "B")]])]);
                    ("RoomDetails", VObj [("RoomDetail", VObj [("RoomCode", VStr "C")])])])
     with
     | Ok options => Some options
     | Throw _ => None
     end) = Some ["C"].
Proof.
  rewrite (roomDetail_source_first
             (VObj [("HotelRooms",
                     VObj [("HotelRoom", VArr [VObj [("RoomCode", VStr "A")];
                                               VObj [("RoomCode", VStr "B")]])]);
                    ("RoomDetails", VObj [("RoomDetail", VObj [("RoomCode", VStr "C")])])])
             [[("RoomCode", VStr "C")]] eq_refl eq_refl).
  - reflexivity.
  - discriminate.
Defined.

(** The fallback scan finds nothing exactly when no array inside the value
    holds an object with a room-like key; with no record under the known
    sources either, [normalizeRoomOptions] then returns the empty list. *)
Theorem no_room_candidates : forall response,
  (Aoryx.findRoomCandidates response = [] <->
   forall items, nested response (VArr items) -> ~ room_like items) /\
  (is_nullish response = false ->
   known_rooms response = [] ->
   (forall items, nested response (VArr items) -> ~ room_like items) ->
   Aoryx.normalizeRoomOptions response = Ok []).
Proof.
  intros response.
  assert (Hiff : Aoryx.findRoomCandidates response = [] <->
                 forall items, nested response (VArr items) -> ~ room_like items).
  { split.
    - intros Hnil items Hnested Hlike.
      pose proof (visit_complete _ _ Hnested Hlike) as Hin.
      assert (Hne : Aoryx.visit response <> [])
        by (intros E; rewrite E in Hin; contradiction).
      destruct (first_longest_max _ _ _ (findRoomCandidates_first_longest _ Hne))
        as [Hbest _].
      destruct (visit_sound _ _ Hbest) as [found [_ [[Hf _] Hc]]].
      rewrite Hnil in Hc. apply Hf. symmetry. exact Hc.
    - intros Hnone. unfold Aoryx.findRoomCandidates.
      destruct (Aoryx.visit response) as [|c cs] eqn:E; [reflexivity|].
      exfalso. destruct (visit_sound response c) as [items [Hn [Hl _]]].
      + rewrite E. left. reflexivity.
      + exact (Hnone items Hn Hl). }
  split; [exact Hiff|].
  intros Hresp Hknown Hnone.
  unfold Aoryx.normalizeRoomOptions, Aoryx.resolvedRoomItems.
  rewrite (room_sources_known _ Hresp). cbn [bind].
  fold (known_rooms response). rewrite Hknown.
  rewrite (proj2 Hiff Hnone). reflexivity.
Qed.

(** An instance: a response with nothing room-like in it. *)
Lemma no_room_candidates_witness :
  Aoryx.normalizeRoomOptions
    (VObj [("IsSuccess", VBool true); ("Data", VArr [VObj [("Note", VStr "none")]])])
  = Ok [].
Proof.
  apply (proj2 (no_room_candidates
                  (VObj [("IsSuccess", VBool true);
                         ("Data", VArr [VObj [("Note", VStr "none")]])]))).
  - reflexivity.
  - reflexivity.
  - apply (proj1 (no_room_candidates
                    (VObj [("IsSuccess", VBool true);
                           ("Data", VArr [VObj [("Note", VStr "none")]])]))).
    reflexivity.
Defined.

(** ** [roomDetails] and its search *)

Lemma normalizeRoomOptions_null : forall response,
  is_nullish response = true -> Aoryx.normalizeRoomOptions response = Throw TypeError.
Proof.
  intros response H. unfold Aoryx.normalizeRoomOptions, Aoryx.resolvedRoomItems,
    Aoryx.room_sources.
  rewrite (get_nullish _ _ H). reflexivity.
Qed.

(** [roomDetails] asks for the hotel code before anything is requested,
    fails with the failure of its search whatever the room-details exchange
    gives, and, after a search that succeeded, returns the normalisation of
    a response whose [IsSuccess] is not [false]. *)
Theorem roomDetails_steps : forall params searchRequest roomRequest,
  (Aoryx.validateSearchParams params = Ok tt ->
   Aoryx.missing (AoryxSearchParams.hotelCode params) = true ->
   Aoryx.roomDetails params searchRequest roomRequest
   = Throw (AoryxServiceError (VStr "Hotel code is required for room details")
              "INVALID_PARAMS" VUndefined VUndefined)) /\
  (forall e,
     Aoryx.missing (AoryxSearchParams.hotelCode params) = false ->
     Aoryx.search params searchRequest = Throw e ->
     Aoryx.roomDetails params searchRequest roomRequest = Throw e) /\
  (forall found response,
     Aoryx.missing (AoryxSearchParams.hotelCode params) = false ->
     Aoryx.search params searchRequest = Ok found ->
     roomRequest = Ok response ->
     prop response "IsSuccess" <> VBool false ->
     Aoryx.roomDetails params searchRequest roomRequest
     = Aoryx.normalizeRoomOptions response).
Proof.
  intros params searchRequest roomRequest. split; [|split].
  - intros Hvalid Hcode. unfold Aoryx.roomDetails. rewrite Hvalid. cbn [bind].
    rewrite Hcode. reflexivity.
  - intros e Hcode Hsearch. unfold Aoryx.roomDetails.
    destruct (Aoryx.validateSearchParams params) as [[]|e'] eqn:Ev; cbn [bind].
    + rewrite Hcode, Hsearch. reflexivity.
    + unfold Aoryx.search in Hsearch. rewrite Ev in Hsearch. cbn [bind] in Hsearch.
      injection Hsearch as ->. reflexivity.
  - intros found response Hcode Hsearch -> Hflag.
    assert (Hvalid : Aoryx.validateSearchParams params = Ok tt).
    { unfold Aoryx.search in Hsearch.
      destruct (Aoryx.validateSearchParams params) as [[]|e']; [reflexivity | discriminate]. }
    rewrite (roomDetails_after_search _ _ _ _ Hvalid Hcode Hsearch). cbn [bind].
    unfold Aoryx.roomDetails_response.
    destruct (is_nullish response) eqn:E.
    + rewrite (get_nullish _ _ E), (normalizeRoomOptions_null _ E). reflexivity.
    + rewrite !(get_ok _ _ E). cbn [bind].
      destruct (prop response "IsSuccess") as [| |[|]| | | |]; try reflexivity.
      exfalso. apply Hflag. reflexivity.
Qed.

(** An instance: a search that fails for the missing session id makes
    [roomDetails] fail the same way, although the room response is fine. *)
Lemma roomDetails_steps_witness :
  Aoryx.roomDetails Samples.room_params
    (Ok (Samples.search_response_of (VStr " ") Samples.hotel))
    (Ok (Samples.room_details_of [Samples.room_with_code]))
  = Throw missing_session_id.
Proof.
  apply (proj1 (proj2 (roomDetails_steps Samples.room_params
                         (Ok (Samples.search_response_of (VStr " ") Samples.hotel))
                         (Ok (Samples.room_details_of [Samples.room_with_code]))))).
  - reflexivity.
  - reflexivity.
Defined.

(** ** Hotel information *)

Lemma hotelInfo_response_imageUrls : forall response info,
  Aoryx.hotelInfo_response response = Ok (Some info) ->
  AoryxHotelInfoResult.imageUrls info
  = match prop (nullish_or (prop response "HotelInformation") VNull) "ImageUrls" with
    | VArr items => Aoryx.filter_strings (map Aoryx.toStringValue items)
    | _ => []
    end.
Proof.
  intros response info H. destruct (is_nullish response) eqn:E.
  - unfold Aoryx.hotelInfo_response in H. rewrite (get_nullish _ _ E) in H. discriminate.
  - unfold Aoryx.hotelInfo_response in H. rewrite !(get_ok _ _ E) in H. cbn [bind] in H.
    destruct (truthy (prop response "IsSuccess")); cbn [negb] in H; [|discriminate].
    destruct (truthy (nullish_or (prop response "HotelInformation") VNull)) eqn:Ei;
      cbn [negb] in H; [|discriminate].
    rewrite !(get_ok _ _ (truthy_not_nullish _ Ei)) in H. cbn [bind] in H.
    set (i := nullish_or (prop response "HotelInformation") VNull) in *.
    destruct (truthy (prop i "Address")) eqn:Ea;
      [rewrite !(get_ok _ _ (truthy_not_nullish _ Ea)) in H|]; cbn [bind] in H;
    (destruct (truthy (prop i "GeoCode")) eqn:Eg;
      [rewrite !(get_ok _ _ (truthy_not_nullish _ Eg)) in H|]; cbn [bind] in H;
     (destruct (truthy (prop i "Contact")) eqn:Ec;
       [rewrite !(get_ok _ _ (truthy_not_nullish _ Ec)) in H|]; cbn [bind] in H;
      injection H as <-; reflexivity)).
Qed.

(** [hotelInfo] returns [null] for a successful response without hotel
    information, and the image gallery of a result holds no empty string. *)
Theorem hotelInfo_gallery :
  (forall request info,
     Aoryx.hotelInfo request = Ok (Some info) ->
     Forall (fun url => JsString.nonempty url = true)
            (AoryxHotelInfoResult.imageUrls info)) /\
  (forall response,
     is_nullish response = false ->
     truthy (prop response "IsSuccess") = true ->
     truthy (nullish_or (prop response "HotelInformation") VNull) = false ->
     Aoryx.hotelInfo (Ok response) = Ok None).
Proof.
  split.
  - intros request info H. unfold Aoryx.hotelInfo in H.
    destruct request as [response|e]; [|discriminate]. cbn [bind] in H.
    rewrite (hotelInfo_response_imageUrls _ _ H).
    destruct (prop _ "ImageUrls"); try constructor.
    apply filter_strings_nonempty.
  - intros response Hresp Hok Hinfo. unfold Aoryx.hotelInfo, Aoryx.hotelInfo_response.
    cbn [bind]. rewrite !(get_ok _ _ Hresp). cbn [bind].
    rewrite Hok. cbn [negb]. rewrite Hinfo. reflexivity.
Qed.

(** An instance: a gallery with a blank and a non-string entry. *)
Lemma hotelInfo_gallery_witness :
  option_map (option_map AoryxHotelInfoResult.imageUrls)
    (match Aoryx.hotelInfo
             (Ok (VObj [("IsSuccess", VBool true);
                        ("HotelInformation",
                         VObj [("ImageUrls", VArr [VStr " a.jpg "; VStr "  "; VNull])])]))
     with
     | Ok info => Some info
     | Throw _ => None
     end) = Some (Some ["a.jpg"]) /\
  Aoryx.hotelInfo (Ok (VObj [("IsSuccess", VBool true)])) = Ok None.
Proof.
  split; [reflexivity|].
  apply (proj2 hotelInfo_gallery); reflexivity.
Defined.

Lemma mapM_throw_first : forall (A B : Type) (f : A -> result B) e l,
  (forall a, (exists b, f a = Ok b) \/ f a = Throw e) ->
  Exists (fun a => f a = Throw e) l ->
  mapM f l = Throw e.
Proof.
  intros A B f e l Hf Hex. induction Hex as [a l Ha|a l Hex IH]; simpl.
  - rewrite Ha. reflexivity.
  - destruct (Hf a) as [[b ->]| ->]; [|reflexivity]. cbn [bind].
    rewrite IH. reflexivity.
Qed.

Lemma hotelsInfo_item : forall item,
  let f := fun item =>
    geoCode <- get item "GeoCode" ;;
    destinationId <- get item "DestinationId" ;;
    name <- get item "Name" ;;
    systemId <- get item "SystemId" ;;
    rating <- get item "Rating" ;;
    city <- get item "City" ;;
    address1 <- get item "Address1" ;;
    imageUrl <- get item "ImageUrl" ;;
    let lat := get_opt geoCode "Lat" in
    let lon := get_opt geoCode "Lon" in
    Ok {| HotelInfo.destinationId := Aoryx.toStringValue destinationId;
          HotelInfo.name := Aoryx.toStringValue name;
          HotelInfo.systemId := Aoryx.toStringValue systemId;
          HotelInfo.rating := Aoryx.toNumber rating;
          HotelInfo.city := Aoryx.toStringValue city;
          HotelInfo.address := Aoryx.toStringValue address1;
          HotelInfo.imageUrl := Aoryx.toStringValue imageUrl;
          HotelInfo.latitude := Aoryx.toNumber lat;
          HotelInfo.longitude := Aoryx.toNumber lon |} in
  (is_nullish item = false -> exists hotel, f item = Ok hotel) /\
  (is_nullish item = true -> f item = Throw TypeError).
Proof.
  intros item f. subst f. cbv beta. split; intros H.
  - rewrite !(get_ok _ _ H). cbn [bind]. eauto.
  - rewrite (get_nullish _ _ H). reflexivity.
Qed.

(** [hotelsInfoByDestinationId] on a successful response: no list gives the
    empty result, a list of entries none of which is [null] gives one hotel
    per entry, and a [null] entry or a list that is no array makes it throw
    a [TypeError]. *)
Theorem hotelsInfo_list_shapes : forall response,
  is_nullish response = false ->
  truthy (prop response "IsSuccess") = true ->
  (is_nullish (prop response "HotelsInformation") = true ->
   Aoryx.hotelsInfoByDestinationId (Ok response) = Ok []) /\
  (forall items,
     prop response "HotelsInformation" = VArr items ->
     Forall (fun item => is_nullish item = false) items ->
     exists hotels,
       Aoryx.hotelsInfoByDestinationId (Ok response) = Ok hotels /\
       List.length hotels = List.length items) /\
  (forall items,
     prop response "HotelsInformation" = VArr items ->
     Exists (fun item => is_nullish item = true) items ->
     Aoryx.hotelsInfoByDestinationId (Ok response) = Throw TypeError) /\
  (is_nullish (prop response "HotelsInformation") = false ->
   isArray (prop response "HotelsInformation") = false ->
   Aoryx.hotelsInfoByDestinationId (Ok response) = Throw TypeError).
Proof.
  intros response Hresp Hok.
  unfold Aoryx.hotelsInfoByDestinationId, Aoryx.hotelsInfoByDestinationId_response.
  cbn [bind]. rewrite !(get_ok _ _ Hresp). cbn [bind]. rewrite Hok. cbn [negb].
  split; [|split; [|split]].
  - intros Hnull. unfold nullish_or. rewrite Hnull. reflexivity.
  - intros items -> Hall. unfold nullish_or. cbn [is_nullish Aoryx.array_map].
    destruct (mapM _ items) as [hotels|e] eqn:E.
    + exists hotels. split; [reflexivity|].
      apply mapM_Forall2, Forall2_length in E. symmetry. exact E.
    + exfalso. apply mapM_throw in E. destruct E as [item [Hin E]].
      rewrite Forall_forall in Hall.
      destruct (proj1 (hotelsInfo_item item) (Hall item Hin)) as [hotel Hh].
      cbv beta zeta in Hh. rewrite Hh in E. discriminate.
  - intros items -> Hex. unfold nullish_or. cbn [is_nullish Aoryx.array_map].
    apply mapM_throw_first.
    + intros item. destruct (is_nullish item) eqn:E.
      * right. exact (proj2 (hotelsInfo_item item) E).
      * left. exact (proj1 (hotelsInfo_item item) E).
    + apply Exists_exists in Hex. destruct Hex as [item [Hin E]].
      apply Exists_exists. exists item. split; [exact Hin|].
      exact (proj2 (hotelsInfo_item item) E).
  - intros Hnn Harr. unfold nullish_or. rewrite Hnn.
    destruct (prop response "HotelsInformation"); try reflexivity; discriminate.
Qed.

(** An instance: two entries give two hotels. *)
Lemma hotelsInfo_list_shapes_witness :
  exists hotels,
    Aoryx.hotelsInfoByDestinationId
      (Ok (VObj [("IsSuccess", VBool true);
                 ("HotelsInformation",
                  VArr [VObj [("Name", VStr "Ritz")]; VObj [("Name", VStr "Plaza")]])]))
    = Ok hotels /\
    List.length hotels = 2%nat.
Proof.
  apply (proj1 (proj2 (hotelsInfo_list_shapes
                         (VObj [("IsSuccess", VBool true);
                                ("HotelsInformation",
                                 VArr [VObj [("Name", VStr "Ritz")];
                                       VObj [("Name", VStr "Plaza")]])])
                         eq_refl eq_refl))
           [VObj [("Name", VStr "Ritz")]; VObj [("Name", VStr "Plaza")]] eq_refl).
  repeat constructor.
Defined.

(** ** The favourites route: reading and deleting *)

Lemma parseString_clean : forall v s,
  Favorites.parseString v = Some s ->
  JsString.nonempty s = true /\ JsString.trim s = s.
Proof.
  intros v s H. destruct v; try discriminate H. simpl in H.
  destruct (JsString.nonempty (JsString.trim s0)) eqn:E; [|discriminate].
  injection H as <-. split; [exact E | apply trim_idempotent].
Qed.

Lemma GET_present : forall userId hotelCodeParam limitParam code c,
  JsString.nonempty userId = true ->
  Favorites.parseString (Favorites.param_value hotelCodeParam) = Some code ->
  Favorites.GET (Some userId) hotelCodeParam limitParam c
  = Favorites.GetIsFavorite (Favorites.present (JsString.trim userId) code c).
Proof.
  intros userId hc lp code c Hu Hcode. unfold Favorites.GET.
  rewrite Hu, Hcode. cbn [negb]. cbv zeta.
  destruct (Favorites.findOne (JsString.trim userId) code c) as [d|] eqn:E.
  - rewrite (find_some_present _ _ _ _ E). reflexivity.
  - rewrite (find_none_present _ _ _ E). reflexivity.
Qed.

(** Whatever the [limit] parameter is (missing, empty, no number, negative,
    huge), the limit that GET passes to the storage is at least 1 and at
    most 48, and the listing is that of the trimmed session user. *)
Theorem GET_limit_bounds : forall userId hotelCodeParam limitParam c user n,
  Favorites.GET userId hotelCodeParam limitParam c = Favorites.GetItems user n ->
  leb (of_Z 1) n = true /\ leb n (of_Z 48) = true /\
  exists id, userId = Some id /\ user = JsString.trim id.
Proof.
  intros userId hc lp c user n H. unfold Favorites.GET in H.
  destruct userId as [id|]; [|discriminate].
  destruct (JsString.nonempty id); cbn [negb] in H; [|discriminate].
  cbv zeta in H.
  destruct (Favorites.parseString (Favorites.param_value hc)) as [code|].
  - destruct (Favorites.findOne _ _ _); discriminate.
  - injection H as <- <-.
    destruct (limit_range lp) as [H1 H2].
    split; [exact H1|]. split; [exact H2|]. exists id. split; reflexivity.
Qed.

(** An instance: [limit=1000] asks the storage for 48 favourites. *)
Lemma GET_limit_bounds_witness :
  Favorites.GET (Some "u1") None (Some "1000") Samples.favorites
  = Favorites.GetItems "u1" (of_Z 48) /\
  leb (of_Z 1) (of_Z 48) = true /\ leb (of_Z 48) (of_Z 48) = true.
Proof.
  split; [reflexivity|].
  destruct (GET_limit_bounds (Some "u1") None (Some "1000") Samples.favorites
              "u1" (of_Z 48) eq_refl) as [H1 [H2 _]].
  split; [exact H1 | exact H2].
Defined.

(** After a POST, a GET of the same user for the same hotel code answers
    what the POST answered. *)
Theorem GET_after_POST : forall userId body code now c hotelCodeParam limitParam,
  JsString.nonempty userId = true ->
  Favorites.parseHotelCode (get_opt body "hotelCode") = Some code ->
  Favorites.parseString (Favorites.param_value hotelCodeParam) = Some code ->
  unique_keys c -> unique_ids c ->
  exists isFavorite,
    fst (Favorites.POST (Some userId) body now c) = Favorites.IsFavorite isFavorite /\
    Favorites.GET (Some userId) hotelCodeParam limitParam
      (snd (Favorites.POST (Some userId) body now c))
    = Favorites.GetIsFavorite isFavorite.
Proof.
  intros userId body code now c hc lp Hu Hbody Hparam Hkeys Hids.
  destruct (POST_step userId body code now c Hu Hbody Hkeys Hids) as [Hr [Hp _]].
  exists (negb (Favorites.present (JsString.trim userId) code c)).
  split; [exact Hr|].
  rewrite (GET_present userId hc lp code _ Hu Hparam), Hp. reflexivity.
Qed.

Lemma sample_favorites_unique :
  unique_keys Samples.favorites /\ unique_ids Samples.favorites.
Proof.
  split.
  - unfold unique_keys. simpl. constructor; [intros [] | constructor].
  - split; simpl; repeat constructor. intros [].
Qed.

(** An instance: user ["u1"] saves hotel ["H1"] and asks for it. *)
Lemma GET_after_POST_witness :
  Favorites.GET (Some "u1") (Some "H1 ") None
    (snd (Favorites.POST (Some "u1") Samples.favorite_body 20 Samples.favorites))
  = Favorites.GetIsFavorite true.
Proof.
  destruct (GET_after_POST "u1" Samples.favorite_body "H1" 20 Samples.favorites
              (Some "H1 ") None eq_refl eq_refl eq_refl
              (proj1 sample_favorites_unique) (proj2 sample_favorites_unique))
    as [b [Hb Hget]].
  rewrite Hget. injection Hb as <-. reflexivity.
Defined.

Lemma remove_first_none : forall p l,
  (forall d, In d l -> p d = false) -> Favorites.remove_first p l = l.
Proof.
  intros p l. induction l as [|d l IH]; intros H; simpl.
  - reflexivity.
  - rewrite (H d (or_introl eq_refl)). rewrite IH; [reflexivity|].
    intros d' Hin. apply H. right. exact Hin.
Qed.

Lemma remove_first_In : forall p l d, In d (Favorites.remove_first p l) -> In d l.
Proof.
  intros p l. induction l as [|x l IH]; intros d H; simpl in H.
  - contradiction.
  - destruct (p x); [right; exact H|].
    destruct H as [<-|H]; [left; reflexivity | right; apply IH, H].
Qed.

(** Deleting the first document of a key, in a list with one document per
    key at most. *)
Lemma remove_first_key : forall user code l,
  NoDup (map key_of l) ->
  let l' := Favorites.remove_first (Favorites.matches user code) l in
  ~ In (user, code) (map key_of l') /\
  (forall k, k <> (user, code) -> (In k (map key_of l') <-> In k (map key_of l))) /\
  NoDup (map key_of l').
Proof.
  intros user code l. induction l as [|d l IH]; intros Hkey.
  - simpl. split; [tauto|]. split; [tauto | constructor].
  - inversion Hkey as [|? ? Hd Hkey']; subst. simpl.
    destruct (Favorites.matches user code d) eqn:Em.
    + apply matches_key in Em. rewrite <- Em. split; [exact Hd|]. split; [|exact Hkey'].
      intros k Hk. simpl. split; [tauto|]. intros [H|H]; [congruence | exact H].
    + destruct (IH Hkey') as [Hgone [Hother Hnd]].
      assert (Hdk : key_of d <> (user, code)).
      { intros Hk. apply matches_key in Hk. congruence. }
      split; [|split].
      * simpl. intros [H|H]; [exact (Hdk H) | exact (Hgone H)].
      * intros k Hk. simpl. rewrite (Hother k Hk). tauto.
      * simpl. constructor; [|exact Hnd].
        intros Hin. apply Hd. apply in_map_iff in Hin.
        destruct Hin as [x [Hx Hin]]. rewrite <- Hx.
        apply in_map, (remove_first_In _ _ _ Hin).
Qed.

(** DELETE of an authenticated user with a hotel code, on a collection with
    at most one document per key: it answers [isFavorite: false], the
    document is gone, no other key is touched, a GET confirms the answer,
    and a second DELETE changes nothing. *)
Theorem DELETE_removes : forall userId hotelCodeParam limitParam code c,
  JsString.nonempty userId = true ->
  Favorites.parseString (Favorites.param_value hotelCodeParam) = Some code ->
  unique_keys c ->
  let user := JsString.trim userId in
  let c' := snd (Favorites.DELETE (Some userId) hotelCodeParam c) in
  fst (Favorites.DELETE (Some userId) hotelCodeParam c) = Favorites.IsFavorite false /\
  Favorites.present user code c' = false /\
  (forall user' code', (user', code') <> (user, code) ->
     Favorites.present user' code' c' = Favorites.present user' code' c) /\
  unique_keys c' /\
  Favorites.GET (Some userId) hotelCodeParam limitParam c' = Favorites.GetIsFavorite false /\
  Favorites.DELETE (Some userId) hotelCodeParam c' = (Favorites.IsFavorite false, c').
Proof.
  intros userId hc lp code c Hu Hcode Hkeys user c'.
  assert (Hdel : Favorites.DELETE (Some userId) hc c
                 = (Favorites.IsFavorite false, Favorites.deleteOne user code c)).
  { unfold Favorites.DELETE. rewrite Hu, Hcode. reflexivity. }
  subst c'. rewrite Hdel. cbn [fst snd].
  destruct (remove_first_key user code (Favorites.docs c) Hkeys) as [Hgone [Hother Hnd]].
  assert (Hp : Favorites.present user code (Favorites.deleteOne user code c) = false).
  { destruct (Favorites.present user code _) eqn:E; [|reflexivity].
    apply present_In in E. contradiction. }
  split; [reflexivity|]. split; [exact Hp|]. split; [|split; [exact Hnd|split]].
  - intros user' code' Hne. apply present_docs. apply Hother, Hne.
  - rewrite (GET_present userId hc lp code _ Hu Hcode). fold user. rewrite Hp. reflexivity.
  - unfold Favorites.DELETE. rewrite Hu, Hcode. cbn [negb]. fold user. f_equal.
    unfold Favorites.deleteOne at 1. cbn [Favorites.docs Favorites.next_id].
    rewrite remove_first_none; [reflexivity|].
    intros d Hin. destruct (Favorites.matches user code d) eqn:Em; [|reflexivity].
    exfalso. apply Hgone. apply matches_key in Em. rewrite <- Em. apply in_map, Hin.
Qed.

(** An instance: user ["u2"] deletes the favourite ["H1"] of the sample. *)
Lemma DELETE_removes_witness :
  Favorites.DELETE (Some "u2") (Some " H1") Samples.favorites
  = (Favorites.IsFavorite false,
     {| Favorites.docs := []; Favorites.next_id := 1 |}) /\
  Favorites.present "u2" "H1"
    (snd (Favorites.DELETE (Some "u2") (Some " H1") Samples.favorites)) = false.
Proof.
  split; [reflexivity|].
  exact (proj1 (proj2 (DELETE_removes "u2" (Some " H1") None "H1" Samples.favorites
                         eq_refl eq_refl (proj1 sample_favorites_unique)))).
Defined.

(** ** The favourites route: what a toggle leaves alone *)

(** Deleting, by its identifier, the document that [findOne] returned takes
    exactly that document out of the list. *)
Lemma remove_found_split : forall user code existing l,
  NoDup (map Favorites._id l) ->
  find (Favorites.matches user code) l = Some existing ->
  exists before behind,
    l = (before ++ existing :: behind)%list /\
    Favorites.remove_first
      (fun d => Nat.eqb (Favorites._id d) (Favorites._id existing)) l
    = (before ++ behind)%list /\
    key_of existing = (user, code).
Proof.
  intros user code existing l. induction l as [|d l IH]; intros Hid Hfind.
  - discriminate.
  - simpl in Hfind. inversion Hid as [|? ? Hd Hid']; subst.
    destruct (Favorites.matches user code d) eqn:Em.
    + injection Hfind as <-. exists [], l. simpl. rewrite Nat.eqb_refl.
      split; [reflexivity|]. split; [reflexivity | apply matches_key, Em].
    + destruct (IH Hid' Hfind) as [before [behind [Hl [Hr Hk]]]].
      assert (Hex : In existing l) by (apply find_some in Hfind; tauto).
      assert (Hne : Nat.eqb (Favorites._id d) (Favorites._id existing) = false).
      { apply Nat.eqb_neq. intros Heq. apply Hd. rewrite Heq. apply in_map, Hex. }
      exists (d :: before), behind. simpl. rewrite Hne, Hr, Hl.
      split; [reflexivity|]. split; [reflexivity | exact Hk].
Qed.

(** A POST of an authenticated user with a hotel code adds one document or
    removes one, and every document of another user or hotel is in the
    collection afterwards exactly when it was there before. *)
Theorem POST_touches_one_key : forall userId body code now c,
  JsString.nonempty userId = true ->
  Favorites.parseHotelCode (get_opt body "hotelCode") = Some code ->
  unique_ids c ->
  let user := JsString.trim userId in
  let c' := snd (Favorites.POST (Some userId) body now c) in
  (forall d, key_of d <> (user, code) ->
     (In d (Favorites.docs c') <-> In d (Favorites.docs c))) /\
  (List.length (Favorites.docs c') = S (List.length (Favorites.docs c)) \/
   S (List.length (Favorites.docs c')) = List.length (Favorites.docs c)).
Proof.
  intros userId body code now c Hu Hcode [Hids _] user c'. subst c'.
  unfold Favorites.POST. rewrite Hu, Hcode. cbn [negb]. fold user.
  destruct (Favorites.findOne user code c) as [existing|] eqn:Ef.
  - cbn [snd]. unfold Favorites.deleteOne_id. cbn [Favorites.docs].
    destruct (remove_found_split user code existing (Favorites.docs c) Hids Ef)
      as [before [behind [Hl [-> Hk]]]].
    rewrite Hl. split.
    + intros d Hd. rewrite !in_app_iff. simpl. split; [tauto|].
      intros [H|[H|H]]; [tauto | | tauto].
      exfalso. apply Hd. rewrite <- H. exact Hk.
    + right. rewrite !length_app. simpl. lia.
  - cbn [snd]. unfold Favorites.updateOne_upsert.
    pose proof (find_none_present _ _ _ Ef) as Hp. unfold Favorites.present in Hp.
    rewrite Hp. cbn [Favorites.docs]. split.
    + intros d Hd. rewrite in_app_iff. simpl. split; [|tauto].
      intros [H|[H|[]]]; [exact H|].
      exfalso. apply Hd. rewrite <- H. reflexivity.
    + left. rewrite length_app. simpl. lia.
Qed.

(** An instance: the favourite of ["u2"] stays when ["u1"] toggles. *)
Lemma POST_touches_one_key_witness :
  List.length
    (Favorites.docs
       (snd (Favorites.POST (Some "u1") Samples.favorite_body 20 Samples.favorites)))
  = 2%nat.
Proof.
  destruct (POST_touches_one_key "u1" Samples.favorite_body "H1" 20 Samples.favorites
              eq_refl eq_refl (proj2 sample_favorites_unique)) as [_ [H|H]].
  - exact H.
  - discriminate H.
Defined.

Lemma remove_first_Forall : forall (P : Favorites.favorite -> Prop) p l,
  Forall P l -> Forall P (Favorites.remove_first p l).
Proof.
  intros P p l H. apply Forall_forall. intros d Hin.
  rewrite Forall_forall in H. apply H, (remove_first_In _ _ _ Hin).
Qed.

Lemma update_first_Forall : forall (P : Favorites.favorite -> Prop) p f l,
  (forall d, P (f d)) -> Forall P l -> Forall P (Favorites.update_first p f l).
Proof.
  intros P p f l Hf H. induction H as [|d l Hd Hl IH]; simpl.
  - constructor.
  - destruct (p d); constructor; auto.
Qed.

(** Every POST, whatever the session and the body, keeps the stored codes
    clean: the hotel code of each document is trimmed and not empty, and its
    user id is trimmed. *)
Theorem POST_keeps_codes_clean : forall userId body now c,
  clean_codes c -> clean_codes (snd (Favorites.POST userId body now c)).
Proof.
  intros userId body now c Hclean. unfold Favorites.POST.
  destruct userId as [userId|]; [|exact Hclean].
  destruct (JsString.nonempty userId); cbn [negb]; [|exact Hclean].
  destruct (Favorites.parseHotelCode (get_opt body "hotelCode")) as [code|] eqn:Ec;
    [|exact Hclean].
  destruct (parseString_clean _ _ Ec) as [Hne Htrim].
  destruct (Favorites.findOne (JsString.trim userId) code c) as [existing|]; cbn [snd].
  - apply remove_first_Forall, Hclean.
  - unfold Favorites.updateOne_upsert, clean_codes.
    destruct (existsb _ _); cbn [Favorites.docs].
    + apply update_first_Forall; [|exact Hclean].
      intros d. cbn. split; [exact Hne|]. split; [exact Htrim | apply trim_idempotent].
    + apply Forall_app. split; [exact Hclean|].
      constructor; [|constructor].
      cbn. split; [exact Hne|]. split; [exact Htrim | apply trim_idempotent].
Qed.

(** An instance: the code [" H1 "] of the body is stored as ["H1"]. *)
Lemma POST_keeps_codes_clean_witness :
  map Favorites.hotelCode
    (Favorites.docs
       (snd (Favorites.POST (Some " u1") Samples.favorite_body 20 Samples.favorites)))
  = ["H1"; "H1"] /\
  clean_codes (snd (Favorites.POST (Some " u1") Samples.favorite_body 20 Samples.favorites)).
Proof.
  split; [reflexivity|].
  apply POST_keeps_codes_clean.
  unfold clean_codes. simpl. repeat constructor.
Defined.

(** ** The results page: entries without price and rating *)

Lemma of_Z_signs :
  ltb (of_Z 0) (of_Z 1) = true /\ ltb (of_Z 0) (of_Z (-1)) = false /\
  Results.nonzero (of_Z 0) = false /\ Results.nonzero (of_Z 1) = true /\
  Results.nonzero (of_Z (-1)) = true.
Proof. vm_compute. repeat split. Qed.

Lemma comparator_without_both : forall sortBy y x,
  has_price_or_rating y = false -> has_price_or_rating x = true ->
  Results.comparator sortBy y x = of_Z 1.
Proof.
  intros sortBy y x. unfold has_price_or_rating, Results.comparator.
  destruct (String.eqb sortBy "price-asc"); [|destruct (String.eqb sortBy "price-desc")];
    [| |destruct (String.eqb sortBy "rating-asc")];
    unfold Results.comparePrice, Results.compareRating;
    destruct (AoryxHotelSummary.minPrice y), (AoryxHotelSummary.minPrice x),
             (AoryxHotelSummary.rating y), (AoryxHotelSummary.rating x);
    intros Hy Hx; try discriminate; reflexivity.
Qed.

Lemma comparator_with_either : forall sortBy y x,
  has_price_or_rating y = true -> has_price_or_rating x = false ->
  Results.comparator sortBy y x = of_Z (-1).
Proof.
  intros sortBy y x. unfold has_price_or_rating, Results.comparator.
  destruct (String.eqb sortBy "price-asc"); [|destruct (String.eqb sortBy "price-desc")];
    [| |destruct (String.eqb sortBy "rating-asc")];
    unfold Results.comparePrice, Results.compareRating;
    destruct (AoryxHotelSummary.minPrice y), (AoryxHotelSummary.minPrice x),
             (AoryxHotelSummary.rating y), (AoryxHotelSummary.rating x);
    intros Hy Hx; try discriminate; reflexivity.
Qed.

(** Under every sort order, the hotels with neither a price nor a rating
    come after all the others: the tie-break of each comparator puts them
    last also among the hotels without the sort field. *)
Theorem hotels_without_price_and_rating_last : forall sortBy hotels i j a b,
  (i < j)%nat ->
  nth_error (Results.sortHotels sortBy hotels) i = Some a ->
  nth_error (Results.sortHotels sortBy hotels) j = Some b ->
  has_price_or_rating a = false ->
  has_price_or_rating b = false.
Proof.
  intros sortBy hotels i j a b Hij Ha Hb Hnone.
  apply (partitioned_nth _ has_price_or_rating
           (Results.sortHotels sortBy hotels) i j a b); try assumption.
  apply sort_partitioned.
  - intros y x Hy Hx. rewrite (comparator_without_both sortBy y x Hy Hx). reflexivity.
  - intros y x Hy Hx. rewrite (comparator_with_either sortBy y x Hy Hx). reflexivity.
Qed.

(** An instance: sorted by price, the hotels with nothing stand behind the
    hotel with a rating only. *)
Lemma hotels_without_price_and_rating_last_witness :
  map has_price_or_rating
    (Results.sortHotels "price-asc"
       [hotel_with None None; hotel_with None (Some (of_Z 4)); hotel_with None None])
  = [true; false; false] /\
  has_price_or_rating (hotel_with None None) = false.
Proof.
  split; [reflexivity|].
  exact (hotels_without_price_and_rating_last "price-asc"
           [hotel_with None None; hotel_with None (Some (of_Z 4)); hotel_with None None]
           1 2 (hotel_with None None) (hotel_with None None)
           ltac:(lia) eq_refl eq_refl eq_refl).
Defined.

(** An instance of [ordered_missing_last]: a list in price order. *)
Lemma ordered_missing_last_witness :
  missing_last "price-asc"
    [hotel_with (Some (of_Z 90)) None; hotel_with None (Some (of_Z 4))].
Proof.
  apply ordered_missing_last.
  intros i j a b Hij Ha Hb.
  destruct i as [|i]; destruct j as [|[|j]]; try lia; simpl in Ha, Hb.
  - injection Ha as <-. injection Hb as <-. reflexivity.
  - destruct j; discriminate Hb.
  - destruct j; discriminate Hb.
Defined.

(** ** Invalid search parameters *)

(** [validateSearchParams] accepts the parameters exactly when a destination
    or a hotel code is given, both dates are given and there is a room; when
    it does not, [search] and [roomDetails] throw [INVALID_PARAMS] whatever
    the exchanges with the vendor would give. *)
Theorem invalid_params_fail_first : forall params,
  (Aoryx.validateSearchParams params = Ok tt <->
   (Aoryx.missing (AoryxSearchParams.destinationCode params) = false \/
    Aoryx.missing (AoryxSearchParams.hotelCode params) = false) /\
   JsString.nonempty (AoryxSearchParams.checkInDate params) = true /\
   JsString.nonempty (AoryxSearchParams.checkOutDate params) = true /\
   AoryxSearchParams.rooms params <> []) /\
  (Aoryx.validateSearchParams params <> Ok tt ->
   forall searchRequest roomRequest,
     Throws "INVALID_PARAMS" (Aoryx.search params searchRequest) /\
     Throws "INVALID_PARAMS" (Aoryx.roomDetails params searchRequest roomRequest)).
Proof.
  intros params. split.
  - unfold Aoryx.validateSearchParams.
    destruct (Aoryx.missing (AoryxSearchParams.destinationCode params));
      destruct (Aoryx.missing (AoryxSearchParams.hotelCode params));
      destruct (JsString.nonempty (AoryxSearchParams.checkInDate params));
      destruct (JsString.nonempty (AoryxSearchParams.checkOutDate params));
      destruct (AoryxSearchParams.rooms params) as [|room rooms];
      cbn [andb orb negb];
      (split; [intros H; try discriminate H;
               (split; [tauto|]); (split; [reflexivity|]); (split; [reflexivity|]);
               discriminate
              |intros [[H|H] [H1 [H2 H3]]]; try discriminate; try reflexivity;
               exfalso; apply H3; reflexivity]).
  - intros Hbad searchRequest roomRequest.
    unfold Aoryx.search, Aoryx.roomDetails.
    destruct (Aoryx.validateSearchParams params) as [[]|e] eqn:Ev;
      [exfalso; apply Hbad; reflexivity|].
    cbn [bind]. unfold Aoryx.validateSearchParams in Ev.
    destruct (_ && _); [injection Ev as <-; split; unfold Throws; eauto|].
    destruct (_ || _); [injection Ev as <-; split; unfold Throws; eauto|].
    destruct (AoryxSearchParams.rooms params); [|discriminate].
    injection Ev as <-; split; unfold Throws; eauto.
Qed.

(** An instance: an empty destination code and no hotel code. *)
Lemma invalid_params_fail_first_witness :
  Throws "INVALID_PARAMS"
    (Aoryx.search Samples.params_without_target
       (Ok (Samples.search_response_of (VStr "S1") Samples.hotel))).
Proof.
  apply (proj2 (invalid_params_fail_first Samples.params_without_target)).
  - discriminate.
  - exact (Ok VNull).
Defined.

(** * C1: the contract of the normalisers *)

(** ** The recursive normalisers and the call stack *)

Lemma list_max_In : forall (A : Type) (f : A -> nat) l a,
  In a l -> (f a <= list_max (map f l))%nat.
Proof.
  intros A f l a. induction l as [|b l IH]; intros Hin; [contradiction|].
  cbn [map list_max fold_right]. destruct Hin as [->|Hin].
  - apply Nat.le_max_l.
  - etransitivity; [apply IH, Hin | apply Nat.le_max_r].
Qed.

Lemma list_max_map_le : forall (A : Type) (f g : A -> nat) l,
  Forall (fun a => (f a <= g a)%nat) l ->
  (list_max (map f l) <= list_max (map g l))%nat.
Proof.
  intros A f g l H. induction H as [|a l Ha _ IH]; [reflexivity|].
  cbn [map list_max fold_right]. apply Nat.max_le_compat; assumption.
Qed.

(** A [map] whose callback throws the [RangeError] beyond the stack. *)
Lemma mapM_within : forall (A B : Type) (f : A -> result B) (g : A -> B)
    (d : A -> nat) stack l,
  (forall a, In a l ->
     f a = if (d a <? stack)%nat then Ok (g a) else Throw RangeError) ->
  mapM f l
  = if (list_max (map (fun a => S (d a)) l) <? S stack)%nat
    then Ok (map g l) else Throw RangeError.
Proof.
  intros A B f g d stack l. induction l as [|a l IH]; intros H.
  - reflexivity.
  - cbn [mapM map list_max fold_right].
    rewrite (H a (or_introl eq_refl)).
    rewrite IH by (intros b Hb; apply H; right; exact Hb).
    change (fold_right Nat.max 0%nat (map (fun a0 => S (d a0)) l))
      with (list_max (map (fun a0 => S (d a0)) l)).
    destruct (d a <? stack)%nat eqn:Ea; cbn [bind].
    + apply Nat.ltb_lt in Ea.
      destruct (list_max (map (fun a0 => S (d a0)) l) <? S stack)%nat eqn:El; cbn [bind].
      * apply Nat.ltb_lt in El.
        replace (Nat.max (S (d a)) (list_max (map (fun a0 => S (d a0)) l)) <? S stack)%nat
          with true by (symmetry; apply Nat.ltb_lt; lia).
        reflexivity.
      * apply Nat.ltb_ge in El.
        replace (Nat.max (S (d a)) (list_max (map (fun a0 => S (d a0)) l)) <? S stack)%nat
          with false by (symmetry; apply Nat.ltb_ge; lia).
        reflexivity.
    + apply Nat.ltb_ge in Ea.
      replace (Nat.max (S (d a)) (list_max (map (fun a0 => S (d a0)) l)) <? S stack)%nat
        with false by (symmetry; apply Nat.ltb_ge; lia).
      reflexivity.
Qed.

Lemma array_depth_array : forall items,
  array_depth (VArr items) = list_max (map (fun item => S (array_depth item)) items).
Proof. reflexivity. Qed.

Lemma depth_array : forall items,
  depth (VArr items) = list_max (map (fun item => S (depth item)) items).
Proof. reflexivity. Qed.

Lemma depth_object : forall fields,
  depth (VObj fields) = list_max (map (fun kv => S (depth (snd kv))) fields).
Proof. reflexivity. Qed.

Lemma extractCancellationPolicy_array : forall items,
  Aoryx.extractCancellationPolicy (VArr items)
  = match Aoryx.filter_strings (map Aoryx.extractCancellationPolicy items) with
    | [] => None
    | _ :: _ =>
        Some (String.concat " "
                (Aoryx.filter_strings (map Aoryx.extractCancellationPolicy items)))
    end.
Proof. reflexivity. Qed.

(** [extractCancellationPolicy] with the stack written out: the result of
    [extractCancellationPolicy] when the arrays nest within the stack, the
    [RangeError] when they do not. *)
Lemma extractCancellationPolicy_within_spec : forall stack v,
  Aoryx.extractCancellationPolicy_within stack v
  = if (array_depth v <? stack)%nat
    then Ok (Aoryx.extractCancellationPolicy v) else Throw RangeError.
Proof.
  induction stack as [|stack IH]; intros v.
  - reflexivity.
  - destruct v as [| |b|n|s|items|fields]; try reflexivity.
    cbn [Aoryx.extractCancellationPolicy_within].
    rewrite (mapM_within _ _ _ Aoryx.extractCancellationPolicy array_depth stack items)
      by (intros item _; apply IH).
    rewrite array_depth_array, extractCancellationPolicy_array.
    destruct (_ <? S stack)%nat; reflexivity.
Qed.

Lemma visit_within_spec : forall stack v,
  Aoryx.visit_within stack v
  = if (depth v <? stack)%nat then Ok (Aoryx.visit v) else Throw RangeError.
Proof.
  induction stack as [|stack IH]; intros v.
  - reflexivity.
  - destruct v as [| |b|n|s|items|fields]; try reflexivity.
    + cbn [Aoryx.visit_within]. cbv zeta.
      rewrite (mapM_within _ _ _ Aoryx.visit depth stack items)
        by (intros item _; apply IH).
      rewrite depth_array, visit_array, flat_map_concat_map.
      destruct (_ <? S stack)%nat; reflexivity.
    + cbn [Aoryx.visit_within].
      rewrite (mapM_within _ _ _ (fun kv => Aoryx.visit (snd kv))
                 (fun kv => depth (snd kv)) stack fields)
        by (intros kv _; apply IH).
      rewrite depth_object, visit_object, flat_map_concat_map.
      destruct (_ <? S stack)%nat; reflexivity.
Qed.

(** *** Nesting of the values inside a value *)

Lemma array_depth_le_depth : forall v, (array_depth v <= depth v)%nat.
Proof.
  intros v. induction v as [| |b|n|s|items IH|fields IH] using value_nested_ind;
    try (apply Nat.le_0_l).
  rewrite array_depth_array, depth_array. apply list_max_map_le.
  apply Forall_impl with (2 := IH). intros item H. apply le_n_S, H.
Qed.

Lemma depth_item : forall items item,
  In item items -> (S (depth item) <= depth (VArr items))%nat.
Proof.
  intros items item H. rewrite depth_array.
  exact (list_max_In _ (fun item => S (depth item)) items item H).
Qed.

Lemma depth_field : forall fields key v,
  In (key, v) fields -> (S (depth v) <= depth (VObj fields))%nat.
Proof.
  intros fields key v H. rewrite depth_object.
  exact (list_max_In _ (fun kv => S (depth (snd kv))) fields (key, v) H).
Qed.

Lemma nested_depth : forall v d, nested v d -> (depth d <= depth v)%nat.
Proof.
  intros v d H. induction H as [v|items item d Hin _ IH|fields key v d Hin _ IH].
  - reflexivity.
  - pose proof (depth_item _ _ Hin). lia.
  - pose proof (depth_field _ _ _ Hin). lia.
Qed.

Lemma field_depth : forall fields key,
  (depth (field fields key) <= depth (VObj fields))%nat.
Proof.
  intros fields key.
  assert (H : field fields key = VUndefined \/ exists k, In (k, field fields key) fields).
  { induction fields as [|[k v] fields IH]; [left; reflexivity|].
    cbn [field]. destruct (String.eqb k key).
    - right. exists k. left. reflexivity.
    - destruct IH as [IH|[k' IH]]; [left; exact IH|].
      right. exists k'. right. exact IH. }
  destruct H as [->|[k H]]; [apply Nat.le_0_l|].
  pose proof (depth_field _ _ _ H). lia.
Qed.

Lemma coalesce_depth : forall fields keys,
  (depth (coalesce fields keys) <= depth (VObj fields))%nat.
Proof.
  intros fields keys. induction keys as [|key rest IH]; [apply Nat.le_0_l|].
  destruct rest as [|k rest]; [apply field_depth|].
  rewrite coalesce_cons by discriminate. unfold nullish_or.
  destruct (is_nullish (field fields key)); [exact IH | apply field_depth].
Qed.

Lemma prop_depth : forall o key, (depth (prop o key) <= depth o)%nat.
Proof.
  intros o key. destruct o; try (apply Nat.le_0_l). apply field_depth.
Qed.

Lemma get_opt_depth : forall o key, (depth (get_opt o key) <= depth o)%nat.
Proof.
  intros o key. unfold get_opt.
  destruct (is_nullish o); [apply Nat.le_0_l | apply prop_depth].
Qed.

Lemma filter_records_In : forall items r,
  In r (filter_records items) <-> In (VObj r) items.
Proof.
  intros items r. induction items as [|item items IH]; [reflexivity|].
  destruct item; cbn [filter_records In]; rewrite ?IH;
    try (split; [intros H; right; exact H | intros [H|H]; [discriminate | exact H]]).
  split; (intros [H|H]; [left; congruence | right; exact H]).
Qed.

Lemma normalizeArray_depth : forall source r,
  In r (filter_records (Aoryx.normalizeArray source)) ->
  (depth (VObj r) <= depth source)%nat.
Proof.
  intros source r H. apply filter_records_In in H. unfold Aoryx.normalizeArray in H.
  destruct (truthy source); cbn [negb] in H; [|contradiction].
  destruct source as [| |b|n|s|items|fields];
    try (destruct H as [H|[]]; rewrite <- H; reflexivity).
  pose proof (depth_item _ _ H). lia.
Qed.

Lemma pick_source_In : forall sources acc r,
  In r (fold_left Aoryx.pick_source sources acc) ->
  In r acc \/
  exists source, In source sources /\
                 In r (filter_records (Aoryx.normalizeArray source)).
Proof.
  induction sources as [|source sources IH]; intros acc r H; [left; exact H|].
  cbn [fold_left] in H. apply IH in H. destruct H as [H|[s [Hs H]]].
  - unfold Aoryx.pick_source in H. destruct acc as [|a acc]; [|left; exact H].
    destruct (filter_records (Aoryx.normalizeArray source)) as [|c cs] eqn:E;
      [contradiction|].
    right. exists source. split; [left; reflexivity|]. rewrite E. exact H.
  - right. exists s. split; [right; exact Hs | exact H].
Qed.

Lemma known_sources_depth : forall response source,
  In source (known_sources response) -> (depth source <= depth response)%nat.
Proof.
  intros response source H. unfold known_sources in H.
  destruct H as [<-|[<-|[<-|[]]]].
  - pose proof (get_opt_depth (prop response "RoomDetails") "RoomDetail").
    pose proof (prop_depth response "RoomDetails"). lia.
  - pose proof (get_opt_depth (prop response "HotelRooms") "HotelRoom").
    pose proof (prop_depth response "HotelRooms"). lia.
  - destruct (isRecord (prop response "Rooms")).
    + pose proof (prop_depth (prop response "Rooms") "Room").
      pose proof (prop_depth response "Rooms"). lia.
    + apply prop_depth.
Qed.

Lemma findRoomCandidates_depth : forall v r,
  In r (Aoryx.findRoomCandidates v) -> (depth (VObj r) <= depth v)%nat.
Proof.
  intros v r H.
  destruct (Aoryx.visit v) as [|c cs] eqn:E.
  - unfold Aoryx.findRoomCandidates in H. rewrite E in H. contradiction.
  - assert (Hne : Aoryx.visit v <> []) by (rewrite E; discriminate).
    destruct (first_longest_max _ _ _ (findRoomCandidates_first_longest _ Hne))
      as [Hin _].
    destruct (visit_sound _ _ Hin) as [items [Hnested [_ Hbest]]].
    rewrite Hbest in H. apply filter_records_In in H.
    pose proof (nested_depth _ _ Hnested). pose proof (depth_item _ _ H). lia.
Qed.

(** The room items that [normalizeRoomOptions] resolves lie inside the
    response. *)
Lemma resolvedRoomItems_depth : forall response rooms r,
  is_nullish response = false ->
  Aoryx.resolvedRoomItems response = Ok rooms ->
  In r rooms -> (depth (VObj r) <= depth response)%nat.
Proof.
  intros response rooms r Hresp Hrooms Hin.
  unfold Aoryx.resolvedRoomItems in Hrooms.
  rewrite (room_sources_known _ Hresp) in Hrooms.
  change (Ok match fold_left Aoryx.pick_source (known_sources response) [] with
             | [] => Aoryx.findRoomCandidates response
             | _ :: _ => fold_left Aoryx.pick_source (known_sources response) []
             end = Ok rooms) in Hrooms.
  remember (fold_left Aoryx.pick_source (known_sources response) []) as picked eqn:E.
  destruct picked as [|c cs]; injection Hrooms as <-.
  - apply findRoomCandidates_depth, Hin.
  - rewrite E in Hin. apply pick_source_In in Hin.
    destruct Hin as [[]|[source [Hs Hin]]].
    pose proof (normalizeArray_depth _ _ Hin).
    pose proof (known_sources_depth _ _ Hs). lia.
Qed.

(** *** The room options within the stack *)

Lemma normalizeRoom_within_ok : forall stack room index,
  (depth (VObj room) < stack)%nat ->
  Aoryx.normalizeRoom_within stack room index = Ok (Aoryx.normalizeRoom room index).
Proof.
  intros stack room index H.
  unfold Aoryx.normalizeRoom_within, Aoryx.normalizeRoom.
  rewrite extractCancellationPolicy_within_spec.
  replace (array_depth
             (coalesce room ["CancellationPolicy"; "CancelPolicy"; "CancellationText"])
           <? stack)%nat with true.
  - destruct (Aoryx.first_price _) as [amount currency]. reflexivity.
  - symmetry. apply Nat.ltb_lt.
    pose proof (array_depth_le_depth
                  (coalesce room ["CancellationPolicy"; "CancelPolicy"; "CancellationText"])).
    pose proof (coalesce_depth room
                  ["CancellationPolicy"; "CancelPolicy"; "CancellationText"]).
    lia.
Qed.

Lemma mapM_indexed_ok : forall (A B : Type) (f : A -> nat -> result B)
    (g : A -> nat -> B) l start,
  (forall a i, In a l -> f a i = Ok (g a i)) ->
  Aoryx.mapM_indexed f start l = Ok (Aoryx.map_indexed g start l).
Proof.
  intros A B f g l. induction l as [|a l IH]; intros start H; [reflexivity|].
  cbn [Aoryx.mapM_indexed Aoryx.map_indexed].
  rewrite (H a start (or_introl eq_refl)). cbn [bind].
  rewrite IH by (intros b i Hb; apply H; right; exact Hb). reflexivity.
Qed.

(** Within the stack, [normalizeRoomOptions] is the function of the
    embedding without the stack. *)
Lemma normalizeRoomOptions_within_ok : forall stack response,
  is_nullish response = false ->
  (depth response < stack)%nat ->
  Aoryx.normalizeRoomOptions_within stack response = Aoryx.normalizeRoomOptions response.
Proof.
  intros stack response Hresp Hdepth.
  destruct (resolvedRoomItems_ok _ Hresp) as [rooms Hrooms].
  assert (Hw : Aoryx.resolvedRoomItems_within stack response = Ok rooms).
  { revert Hrooms. unfold Aoryx.resolvedRoomItems_within, Aoryx.resolvedRoomItems.
    destruct (Aoryx.room_sources response) as [sources|e]; cbn [bind]; [|discriminate].
    destruct (fold_left Aoryx.pick_source sources []) as [|c cs]; [|exact (fun H => H)].
    unfold Aoryx.findRoomCandidates_within, Aoryx.findRoomCandidates.
    rewrite visit_within_spec.
    replace (depth response <? stack)%nat with true
      by (symmetry; apply Nat.ltb_lt; exact Hdepth).
    exact (fun H => H). }
  unfold Aoryx.normalizeRoomOptions_within, Aoryx.normalizeRoomOptions.
  rewrite Hw, Hrooms. cbn [bind].
  apply mapM_indexed_ok. intros room i Hin.
  apply normalizeRoom_within_ok.
  pose proof (resolvedRoomItems_depth _ _ _ Hresp Hrooms Hin). lia.
Qed.

Lemma roomDetails_response_within_ok : forall stack response,
  is_nullish response = false ->
  (depth response < stack)%nat ->
  Aoryx.roomDetails_response_within stack response = Aoryx.roomDetails_response response.
Proof.
  intros stack response Hresp Hdepth.
  unfold Aoryx.roomDetails_response_within, Aoryx.roomDetails_response.
  rewrite (normalizeRoomOptions_within_ok _ _ Hresp Hdepth). reflexivity.
Qed.

(** ** The conversions on every value *)

Lemma read_no_number : forall c rest,
  starts_number c = false -> read_StrDecimalLiteral (String c rest) = None.
Proof.
  intros c rest.
  destruct c as [[] [] [] [] [] [] [] []];
    (intros H; vm_compute in H; try discriminate H); reflexivity.
Qed.

Lemma parseFloat_no_number : forall s,
  (forall c rest, JsString.trimStart s = String c rest -> starts_number c = false) ->
  parseFloat s = NaN.
Proof.
  intros s H. unfold parseFloat.
  destruct (JsString.trimStart s) as [|c rest]; [reflexivity|].
  rewrite (read_no_number c rest (H c rest eq_refl)). reflexivity.
Qed.

Lemma toStringValue_None_iff : forall v,
  Aoryx.toStringValue v = None <->
  (forall s, v = VStr s -> JsString.trim s = EmptyString) /\
  (forall n, v = VNum n -> isFinite n = false).
Proof.
  intros v. destruct v as [| |b|n|s|items|fields]; unfold Aoryx.toStringValue;
    try (split; [intros _; split; intros x H; discriminate H | reflexivity]).
  - destruct (isFinite n) eqn:E.
    + split; [discriminate|]. intros [_ H]. specialize (H n eq_refl). congruence.
    + split; [|reflexivity]. intros _. split; intros x H; [discriminate H|].
      injection H as <-. exact E.
  - destruct (JsString.trim s) as [|c rest] eqn:E; cbn [JsString.nonempty].
    + split; [|reflexivity]. intros _. split; intros x H; [|discriminate H].
      injection H as <-. exact E.
    + split; [discriminate|]. intros [H _]. specialize (H s eq_refl). congruence.
Qed.

Lemma toNumber_None_iff : forall v,
  Aoryx.toNumber v = None <->
  (forall n, v = VNum n -> isFinite n = false) /\
  (forall s, v = VStr s -> isFinite (parseFloat s) = false).
Proof.
  intros v. destruct v as [| |b|n|s|items|fields]; unfold Aoryx.toNumber;
    try (split; [intros _; split; intros x H; discriminate H | reflexivity]).
  - destruct (isFinite n) eqn:E.
    + split; [discriminate|]. intros [H _]. specialize (H n eq_refl). congruence.
    + split; [|reflexivity]. intros _. split; intros x H; [|discriminate H].
      injection H as <-. exact E.
  - cbv zeta. destruct (isFinite (parseFloat s)) eqn:E.
    + split; [discriminate|]. intros [_ H]. specialize (H s eq_refl). congruence.
    + split; [|reflexivity]. intros _. split; intros x H; [discriminate H|].
      injection H as <-. exact E.
Qed.

Lemma toInteger_None_iff : forall v,
  Aoryx.toInteger v = None <-> Aoryx.toNumber v = None.
Proof.
  intros v. unfold Aoryx.toInteger.
  destruct (Aoryx.toNumber v); split; intros H; try discriminate H; reflexivity.
Qed.

Lemma toNumber_no_number : forall s,
  (forall c rest, JsString.trimStart s = String c rest -> starts_number c = false) ->
  Aoryx.toNumber (VStr s) = None.
Proof.
  intros s H. unfold Aoryx.toNumber. cbv zeta.
  rewrite (parseFloat_no_number s H). reflexivity.
Qed.

Lemma existsb_eqb_In : forall (word : string) words,
  existsb (String.eqb word) words = false <-> ~ In word words.
Proof.
  intros word words. split.
  - intros H Hin. assert (Ht : existsb (String.eqb word) words = true).
    { apply existsb_exists. exists word. split; [exact Hin | apply String.eqb_refl]. }
    congruence.
  - intros H. destruct (existsb (String.eqb word) words) eqn:E; [|reflexivity].
    exfalso. apply H. apply existsb_exists in E. destruct E as [x [Hin Hx]].
    apply String.eqb_eq in Hx. subst x. exact Hin.
Qed.

Lemma toBoolean_None_iff : forall v,
  Aoryx.toBoolean v = None <->
  (forall b, v <> VBool b) /\
  (forall n, v = VNum n -> eqb n (of_Z 1) = false /\ eqb n (of_Z 0) = false) /\
  (forall s, v = VStr s ->
     ~ In (JsString.toLowerCase (JsString.trim s))
          ["true"; "yes"; "y"; "1"; "false"; "no"; "n"; "0"]).
Proof.
  intros v. destruct v as [| |b|n|s|items|fields]; unfold Aoryx.toBoolean;
    try (split; [intros _; split; [intros x H; discriminate H|];
                 split; intros x H; discriminate H
                | reflexivity]).
  - split; [discriminate|]. intros [H _]. exfalso. exact (H b eq_refl).
  - set (one := of_Z 1). set (zero := of_Z 0).
    destruct (eqb n one) eqn:E1.
    + split; [discriminate|]. intros [_ [H _]].
      destruct (H n eq_refl) as [H1 _]. fold one in H1. congruence.
    + destruct (eqb n zero) eqn:E0.
      * split; [discriminate|]. intros [_ [H _]].
        destruct (H n eq_refl) as [_ H0]. fold zero in H0. congruence.
      * split; [|reflexivity]. intros _. split; [intros x H; discriminate H|].
        split; intros x H; [|discriminate H].
        injection H as <-. split; assumption.
  - cbv zeta. set (normalized := JsString.toLowerCase (JsString.trim s)).
    destruct (existsb (String.eqb normalized) ["true"; "yes"; "y"; "1"]) eqn:Et.
    + split; [discriminate|]. intros [_ [_ H]]. exfalso. apply (H s eq_refl).
      fold normalized. apply existsb_exists in Et. destruct Et as [x [Hin Hx]].
      apply String.eqb_eq in Hx. subst x.
      apply (in_or_app ["true"; "yes"; "y"; "1"] ["false"; "no"; "n"; "0"]).
      left. exact Hin.
    + destruct (existsb (String.eqb normalized) ["false"; "no"; "n"; "0"]) eqn:Ef.
      * split; [discriminate|]. intros [_ [_ H]]. exfalso. apply (H s eq_refl).
        fold normalized. apply existsb_exists in Ef. destruct Ef as [x [Hin Hx]].
        apply String.eqb_eq in Hx. subst x.
        apply (in_or_app ["true"; "yes"; "y"; "1"] ["false"; "no"; "n"; "0"]).
        right. exact Hin.
      * split; [|reflexivity]. intros _. split; [intros x H; discriminate H|].
        split; intros x H; [discriminate H|]. injection H as <-. fold normalized.
        apply existsb_eqb_In in Et. apply existsb_eqb_In in Ef.
        intros Hin.
        apply (in_app_or ["true"; "yes"; "y"; "1"] ["false"; "no"; "n"; "0"]) in Hin.
        destruct Hin as [Hin|Hin]; [exact (Et Hin) | exact (Ef Hin)].
Qed.

Lemma extractMoney_not_record : forall v,
  isRecord v = false ->
  Aoryx.extractMoney v = {| Aoryx.amount := Aoryx.toNumber v; Aoryx.currency := None |}.
Proof. intros v H. destruct v; try reflexivity. discriminate H. Qed.

Lemma extractCancellationPolicy_not_empty : forall v,
  Aoryx.extractCancellationPolicy v <> Some EmptyString.
Proof.
  intros v. destruct v as [| |b|n|s|items|fields]; try discriminate.
  - cbn [Aoryx.extractCancellationPolicy].
    destruct (JsString.trim s) as [|c rest] eqn:E; cbn [JsString.nonempty]; discriminate.
  - rewrite extractCancellationPolicy_array.
    pose proof (filter_strings_nonempty (map Aoryx.extractCancellationPolicy items)) as Hall.
    destruct (Aoryx.filter_strings _) as [|p ps]; [discriminate|].
    inversion Hall as [|? ? Hp _]; subst.
    destruct ps as [|q ps].
    + cbn [String.concat]. destruct p; [discriminate Hp | discriminate].
    + change (String.concat " " (p :: q :: ps))
        with (p ++ " " ++ String.concat " " (q :: ps)).
      destruct p; [discriminate Hp | discriminate].
  - cbn [Aoryx.extractCancellationPolicy]. intros H.
    pose proof (toStringValue_nonempty _ _ H) as Hne. discriminate Hne.
Qed.

Lemma filter_strings_nil : forall items,
  Aoryx.filter_strings items = [] <->
  Forall (fun item => item = None \/ item = Some EmptyString) items.
Proof.
  induction items as [|[s|] items IH]; cbn [Aoryx.filter_strings].
  - split; [constructor | reflexivity].
  - destruct s as [|c s]; cbn [JsString.nonempty].
    + rewrite IH. split; [intros H; constructor; [right; reflexivity | exact H]|].
      intros H. inversion H; assumption.
    + split; [discriminate|]. intros H. inversion H as [|? ? [Hx|Hx] _]; discriminate Hx.
  - rewrite IH. split; [intros H; constructor; [left; reflexivity | exact H]|].
    intros H. inversion H; assumption.
Qed.

(** [extractCancellationPolicy] gives [null] exactly for a blank string, an
    array all of whose items give [null], an object whose first present
    text property [toStringValue] does not convert, and every value of
    another type. *)
Lemma extractCancellationPolicy_None_iff : forall v,
  Aoryx.extractCancellationPolicy v = None <->
  (forall s, v = VStr s -> JsString.trim s = EmptyString) /\
  (forall items, v = VArr items ->
     Forall (fun item => Aoryx.extractCancellationPolicy item = None) items) /\
  (forall fields, v = VObj fields ->
     Aoryx.toStringValue (coalesce fields ["Text"; "Policy"; "Description"; "Remark"])
     = None).
Proof.
  intros v. destruct v as [| |b|n|s|items|fields];
    try (split; [intros _; split; [intros x H; discriminate H|];
                 split; intros x H; discriminate H
                | reflexivity]).
  - cbn [Aoryx.extractCancellationPolicy].
    destruct (JsString.trim s) as [|c rest] eqn:E; cbn [JsString.nonempty].
    + split; [|reflexivity]. intros _. split; [|split; intros x H; discriminate H].
      intros x H. injection H as <-. exact E.
    + split; [discriminate|]. intros [H _]. specialize (H s eq_refl). congruence.
  - rewrite extractCancellationPolicy_array.
    assert (Hnil : Aoryx.filter_strings (map Aoryx.extractCancellationPolicy items) = []
                   <-> Forall (fun item => Aoryx.extractCancellationPolicy item = None) items).
    { rewrite filter_strings_nil, Forall_map. split; intros H.
      - apply Forall_impl with (2 := H). intros item [Hi|Hi]; [exact Hi|].
        exfalso. exact (extractCancellationPolicy_not_empty _ Hi).
      - apply Forall_impl with (2 := H). intros item Hi. left. exact Hi. }
    destruct (Aoryx.filter_strings _) as [|p ps].
    + split; [|reflexivity]. intros _. split; [intros x H; discriminate H|].
      split; intros x H; [|discriminate H]. injection H as <-. apply Hnil. reflexivity.
    + split; [discriminate|]. intros [_ [H _]].
      apply Hnil in H; [discriminate H | reflexivity].
  - cbn [Aoryx.extractCancellationPolicy]. split.
    + intros H. split; [intros x Hx; discriminate Hx|].
      split; intros x Hx; [discriminate Hx|]. injection Hx as <-. exact H.
    + intros [_ [_ H]]. exact (H fields eq_refl).
Qed.

(** *** The failures of the service functions *)

Lemma search_declared : forall params request e,
  exchanged request hotels_present ->
  Aoryx.search params request = Throw e -> declared_failure e.
Proof.
  intros params request e Hex H. destruct request as [response|e0].
  - destruct Hex as [Hresp Hall]. left.
    exact (search_throws_service_error _ _ _ Hresp Hall H).
  - unfold Aoryx.search in H.
    destruct (Aoryx.validateSearchParams params) as [[]|e'] eqn:Ev; cbn [bind] in H.
    + injection H as <-. right. exact Hex.
    + injection H as <-. left. exact (validateSearchParams_throws _ _ Ev).
Qed.

Lemma roomDetails_within_declared : forall stack params searchRequest roomRequest e,
  exchanged searchRequest hotels_present ->
  exchanged roomRequest (fun response => (depth response < stack)%nat) ->
  Aoryx.roomDetails_within stack params searchRequest roomRequest = Throw e ->
  declared_failure e.
Proof.
  intros stack params searchRequest roomRequest e Hsearch Hroom.
  unfold Aoryx.roomDetails_within.
  destruct (Aoryx.validateSearchParams params) as [[]|e'] eqn:Ev; cbn [bind].
  - destruct (Aoryx.missing (AoryxSearchParams.hotelCode params)).
    + intros H. injection H as <-. left. unfold is_service_error. eauto 6.
    + destruct (Aoryx.search params searchRequest) as [found|e'] eqn:Es; cbn [bind].
      * destruct roomRequest as [response|e0]; cbn [bind].
        -- destruct Hroom as [Hresp Hdepth].
           rewrite (roomDetails_response_within_ok _ _ Hresp Hdepth).
           destruct (roomDetails_response_spec _ Hresp) as [[_ ->]|[_ [options ->]]].
           ++ intros H. injection H as <-. left. unfold is_service_error. eauto 6.
           ++ discriminate.
        -- intros H. injection H as <-. right. exact Hroom.
      * intros H. injection H as <-. exact (search_declared _ _ _ Hsearch Es).
  - intros H. injection H as <-. left. exact (validateSearchParams_throws _ _ Ev).
Qed.

Lemma hotelInfo_declared : forall request e,
  exchanged request (fun _ => True) ->
  Aoryx.hotelInfo request = Throw e -> declared_failure e.
Proof.
  intros request e Hex. unfold Aoryx.hotelInfo.
  destruct request as [response|e0]; cbn [bind].
  - destruct Hex as [Hresp _].
    destruct (hotelInfo_response_spec _ Hresp) as [[_ ->]|[_ [info ->]]].
    + intros H. injection H as <-. left. unfold is_service_error. eauto 6.
    + discriminate.
  - intros H. injection H as <-. right. exact Hex.
Qed.

Lemma hotelsInfo_declared : forall request e,
  exchanged request hotels_information_listed ->
  Aoryx.hotelsInfoByDestinationId request = Throw e -> declared_failure e.
Proof.
  intros request e Hex. unfold Aoryx.hotelsInfoByDestinationId.
  destruct request as [response|e0]; cbn [bind].
  - destruct Hex as [Hresp Hlist].
    unfold Aoryx.hotelsInfoByDestinationId_response.
    rewrite !(get_ok _ _ Hresp). cbn [bind].
    destruct (truthy (prop response "IsSuccess")); cbn [negb].
    + assert (Hitems : exists items,
                nullish_or (prop response "HotelsInformation") (VArr []) = VArr items /\
                Forall (fun item => is_nullish item = false) items).
      { destruct Hlist as [Hn|[items [Hi Hall]]].
        - exists []. unfold nullish_or. rewrite Hn. split; [reflexivity | constructor].
        - exists items. rewrite Hi. split; [reflexivity | exact Hall]. }
      destruct Hitems as [items [-> Hall]]. unfold Aoryx.array_map. intros H.
      apply mapM_throw in H. destruct H as [item [Hin H]].
      rewrite Forall_forall in Hall.
      rewrite !(get_ok _ _ (Hall item Hin)) in H. discriminate H.
    + intros H. injection H as <-. left. unfold is_service_error. eauto 6.
  - intros H. injection H as <-. right. exact Hex.
Qed.

Lemma normalizeRoomOptions_within_null : forall stack response,
  is_nullish response = true ->
  Aoryx.normalizeRoomOptions_within stack response = Throw TypeError.
Proof.
  intros stack response H.
  unfold Aoryx.normalizeRoomOptions_within, Aoryx.resolvedRoomItems_within,
    Aoryx.room_sources.
  rewrite (get_nullish _ _ H). reflexivity.
Qed.

Lemma normalizeSearchHotel_null : forall hotel currency,
  is_nullish hotel = true ->
  Aoryx.normalizeSearchHotel hotel currency = Throw TypeError.
Proof.
  intros hotel currency H. unfold Aoryx.normalizeSearchHotel.
  rewrite (get_nullish _ _ H). reflexivity.
Qed.

(** ** C1: the normalisers on malformed values *)

(** C1, as stated, fails: [normalizeSearchHotel] and [normalizeRoomOptions]
    throw a [TypeError] on [null], and so [search] throws one, which is no
    transport or vendor failure, on a response whose hotel list has a [null]
    entry. *)
Lemma C1_counterexample :
  Aoryx.normalizeSearchHotel VNull None = Throw TypeError /\
  Aoryx.normalizeRoomOptions VNull = Throw TypeError /\
  Aoryx.search_response (Samples.search_response_of (VStr "S1") (VArr [VNull]))
  = Throw TypeError.
Proof. repeat split. Qed.

(** C1, amended.  [toStringValue], [toNumber], [toInteger] and [toBoolean]
    return on every value, and return [null] exactly when nothing is
    obtainable: [toStringValue] for what is neither a string with something
    other than white space in it nor a finite number; [toNumber] and
    [toInteger] for what is neither a finite number nor a string of which
    [parseFloat] reads a finite number, so for every text that does not
    start (after white space) with a digit, a sign, a dot or [I];
    [toBoolean] for what is no boolean, not the number 1 or 0 and none of
    the eight words it reads.  [extractMoney] converts a number or a string
    as [toNumber] does, the first present money property of an object, and
    gives [null] in both fields for everything else.
    [extractCancellationPolicy] gives [null] exactly for a blank string, an
    array all of whose items give [null], an object whose first present
    text property is unusable, and every value of another type; it calls
    itself once for each level of array nesting, and the fallback scan of
    [normalizeRoomOptions] once for each level of array and object
    nesting: within the calls that the engine allows they return, beyond
    them the engine's [RangeError] is thrown.  [normalizeSearchHotel] and
    [normalizeRoomOptions] throw a [TypeError] on [null] and [undefined];
    on every other value [normalizeSearchHotel] returns the summary of the
    properties read, and [normalizeRoomOptions], on a response nested
    within the call stack, the normalisation of the room items it
    resolves.  [search], [roomDetails], [hotelInfo] and
    [hotelsInfoByDestinationId] throw nothing but an [AoryxServiceError] or
    the [AoryxClientError] of the transport when the exchange failed or
    gave a response that is not [null], with no [null] entry in the list
    they map ([Hotels.Hotel]; [HotelsInformation], absent or an array) and,
    for [roomDetails], nested within the call stack. *)
Theorem C1_normalizers_return :
  (forall v,
     (Aoryx.toStringValue v = None <->
      (forall s, v = VStr s -> JsString.trim s = EmptyString) /\
      (forall n, v = VNum n -> isFinite n = false)) /\
     (Aoryx.toNumber v = None <->
      (forall n, v = VNum n -> isFinite n = false) /\
      (forall s, v = VStr s -> isFinite (parseFloat s) = false)) /\
     (Aoryx.toInteger v = None <-> Aoryx.toNumber v = None) /\
     (Aoryx.toBoolean v = None <->
      (forall b, v <> VBool b) /\
      (forall n, v = VNum n -> eqb n (of_Z 1) = false /\ eqb n (of_Z 0) = false) /\
      (forall s, v = VStr s ->
         ~ In (JsString.toLowerCase (JsString.trim s))
              ["true"; "yes"; "y"; "1"; "false"; "no"; "n"; "0"]))) /\
  (forall s,
     (forall c rest, JsString.trimStart s = String c rest -> starts_number c = false) ->
     Aoryx.toNumber (VStr s) = None) /\
  (forall v, isRecord v = false ->
     Aoryx.extractMoney v
     = {| Aoryx.amount := Aoryx.toNumber v; Aoryx.currency := None |}) /\
  (forall fields,
     Aoryx.extractMoney (VObj fields)
     = {| Aoryx.amount := Aoryx.toNumber (coalesce fields money_keys);
          Aoryx.currency :=
            Aoryx.toStringValue (coalesce fields ["Currency"; "CurrencyCode"; "Curr"]) |}) /\
  (forall v,
     Aoryx.extractCancellationPolicy v = None <->
     (forall s, v = VStr s -> JsString.trim s = EmptyString) /\
     (forall items, v = VArr items ->
        Forall (fun item => Aoryx.extractCancellationPolicy item = None) items) /\
     (forall fields, v = VObj fields ->
        Aoryx.toStringValue (coalesce fields ["Text"; "Policy"; "Description"; "Remark"])
        = None)) /\
  (forall stack v,
     Aoryx.extractCancellationPolicy_within stack v
     = if (array_depth v <? stack)%nat
       then Ok (Aoryx.extractCancellationPolicy v) else Throw RangeError) /\
  (forall hotel currency,
     (is_nullish hotel = false ->
      Aoryx.normalizeSearchHotel hotel currency = Ok (summary_of hotel currency)) /\
     (is_nullish hotel = true ->
      Aoryx.normalizeSearchHotel hotel currency = Throw TypeError)) /\
  (forall stack v,
     Aoryx.findRoomCandidates_within stack v
     = if (depth v <? stack)%nat
       then Ok (Aoryx.findRoomCandidates v) else Throw RangeError) /\
  (forall stack response,
     (is_nullish response = false -> (depth response < stack)%nat ->
      exists rooms,
        Aoryx.resolvedRoomItems response = Ok rooms /\
        Aoryx.normalizeRoomOptions_within stack response
        = Ok (Aoryx.map_indexed Aoryx.normalizeRoom 0 rooms) /\
        Aoryx.normalizeRoomOptions response
        = Ok (Aoryx.map_indexed Aoryx.normalizeRoom 0 rooms)) /\
     (is_nullish response = true ->
      Aoryx.normalizeRoomOptions_within stack response = Throw TypeError)) /\
  (forall params request e,
     exchanged request hotels_present ->
     Aoryx.search params request = Throw e -> declared_failure e) /\
  (forall stack params searchRequest roomRequest e,
     exchanged searchRequest hotels_present ->
     exchanged roomRequest (fun response => (depth response < stack)%nat) ->
     Aoryx.roomDetails_within stack params searchRequest roomRequest = Throw e ->
     declared_failure e) /\
  (forall request e,
     exchanged request (fun _ => True) ->
     Aoryx.hotelInfo request = Throw e -> declared_failure e) /\
  (forall request e,
     exchanged request hotels_information_listed ->
     Aoryx.hotelsInfoByDestinationId request = Throw e -> declared_failure e).
Proof.
  split.
  { intros v. split; [apply toStringValue_None_iff|].
    split; [apply toNumber_None_iff|].
    split; [apply toInteger_None_iff | apply toBoolean_None_iff]. }
  split; [exact toNumber_no_number|].
  split; [exact extractMoney_not_record|].
  split; [reflexivity|].
  split; [exact extractCancellationPolicy_None_iff|].
  split; [exact extractCancellationPolicy_within_spec|].
  split.
  { intros hotel currency.
    split; [apply normalizeSearchHotel_ok | apply normalizeSearchHotel_null]. }
  split.
  { intros stack v. unfold Aoryx.findRoomCandidates_within.
    rewrite visit_within_spec. destruct (depth v <? stack)%nat; reflexivity. }
  split.
  { intros stack response. split; [|apply normalizeRoomOptions_within_null].
    intros Hresp Hdepth. destruct (resolvedRoomItems_ok _ Hresp) as [rooms Hrooms].
    exists rooms. split; [exact Hrooms|].
    rewrite (normalizeRoomOptions_within_ok _ _ Hresp Hdepth).
    unfold Aoryx.normalizeRoomOptions. rewrite Hrooms. split; reflexivity. }
  split; [exact search_declared|].
  split; [exact roomDetails_within_declared|].
  split; [exact hotelInfo_declared | exact hotelsInfo_declared].
Qed.

(** An instance of C1: the text ["N/A"] gives no number, a boolean where a
    hotel is expected gives the all-[null] summary, three nested calls on
    a stack of two throw the [RangeError], a string where the room
    response is expected gives no room, and a time-out of the transport is
    a declared failure. *)
Lemma C1_normalizers_return_witness :
  Aoryx.toNumber (VStr "N/A") = None /\
  Aoryx.normalizeSearchHotel (VBool true) (Some "USD")
  = Ok (summary_of (VBool true) (Some "USD")) /\
  Aoryx.extractCancellationPolicy_within 2 (VArr [VArr [VStr "x"]]) = Throw RangeError /\
  (exists rooms,
     Aoryx.resolvedRoomItems (VStr "oops") = Ok rooms /\
     Aoryx.normalizeRoomOptions_within 1 (VStr "oops")
     = Ok (Aoryx.map_indexed Aoryx.normalizeRoom 0 rooms) /\
     Aoryx.normalizeRoomOptions (VStr "oops")
     = Ok (Aoryx.map_indexed Aoryx.normalizeRoom 0 rooms)) /\
  (forall e,
     Aoryx.hotelInfo (Throw (AoryxClientError "Request timeout after 30000ms" None))
     = Throw e ->
     declared_failure e).
Proof.
  destruct C1_normalizers_return
    as [_ [Hnumber [_ [_ [_ [Hpolicy [Hhotel [_ [Hrooms [_ [_ [Hinfo _]]]]]]]]]]]].
  split; [|split; [|split; [|split]]].
  - apply Hnumber. intros c rest H. injection H as <- _. reflexivity.
  - apply (proj1 (Hhotel (VBool true) (Some "USD"))). reflexivity.
  - rewrite Hpolicy. reflexivity.
  - apply (proj1 (Hrooms 1%nat (VStr "oops"))); [reflexivity | simpl; lia].
  - intros e. apply Hinfo. simpl. unfold is_client_error. eauto.
Defined.
